(** * indy-mqtt: a shallow embedding of the command/acknowledgment client

    The development follows the Go sources package by package:
    [Util] (internal/util), [Message] (internal/message), [Command]
    (internal/command), [Config] (internal/config) and [Main]
    (cmd/indy-mqtt.go).  Everything the program obtains from outside
    (the command line, the host name, the random source, the broker, the
    signal channel, the clock) is read from an explicit [World]; everything
    it does to the outside is appended to a trace of [Effect]s.

    Conventions of the model.
    - A computation is a trace with a result: a value, [os.Exit code], or
      blocked for ever ([M], [Res]).
    - Time is explicit.  Every event of the world carries the instant at
      which it happens, and a [select] fires at the first instant at which
      one of its cases can proceed ([Main.select]).
    - [main] runs beside the goroutines it starts.  The trace is one
      interleaving: what a callback or goroutine does is placed where
      [main] waits for it, and it is recorded up to the instant at which
      that wait ends.
    - Signals are those delivered on the channel [interrupt], that is after
      [signal.Notify]; a signal before that ends the process by its default
      disposition and is not part of a [World]. *)

From Stdlib Require Import ZArith List String Ascii Bool Lia DecimalString.
From Stdlib Require Import Sorted Permutation.
Import ListNotations.

Open Scope string_scope.
Open Scope Z_scope.

(** ** Effects and the run monad *)

(** The three loggers of internal/util.  [ERROR] and [WARNING] are
    [log.Logger]s; [INFO] is a [log.Logger] under [-verbose] and a
    [NOOPLogger] otherwise. *)
Inductive Logger := INFO | WARNING | ERROR.

(** An operand of a format string. *)
Inductive Arg :=
| AStr (s : string)
| AInt (n : Z).

(** What the process does to the outside, one constructor per call. *)
Inductive Effect :=
| Printf (l : Logger) (format : string) (args : list Arg)
| Println (s : string)                       (* fmt.Println / fmt.Printf on stdout *)
| Fprint_stderr (s : string)                 (* fmt.Fprintf(os.Stderr, ...) *)
| Usage                                      (* flag.Usage() *)
| Connect (broker clientID username password : string)
| Subscribe (topic : string) (qos : Z)
| Publish (topic : string) (qos : Z) (retained : bool) (payload : string)
| Disconnect (quiesce : Z)
| AckHandlerCall (content : string).         (* AckHandler.HandleAck(content) *)

(** How a computation ends: with a value, with [os.Exit code], or blocked
    for ever in a wait that no event ends. *)
Inductive Res (A : Type) :=
| Ret (a : A)
| Exit (code : Z)
| Blocked.
Arguments Ret {A} a.
Arguments Exit {A} code.
Arguments Blocked {A}.

Definition M (A : Type) : Type := list Effect * Res A.

Definition ret {A} (a : A) : M A := ([], Ret a).

Definition bind {A B} (m : M A) (k : A -> M B) : M B :=
  match m with
  | (tr, Ret a) => let (tr', r) := k a in ((tr ++ tr')%list, r)
  | (tr, Exit c) => (tr, Exit c)
  | (tr, Blocked) => (tr, Blocked)
  end.

Definition emit (e : Effect) : M unit := ([e], Ret tt).
Definition emits (es : list Effect) : M unit := (es, Ret tt).
Definition os_Exit {A} (code : Z) : M A := ([], Exit code).
Definition block {A} : M A := ([], Blocked).

Notation "x <- m ;; k" := (bind m (fun x => k))
  (at level 61, m at next level, right associativity).
Notation "m ;;; k" := (bind m (fun _ => k))
  (at level 61, right associativity).

(** [l.Printf(format, args...)]. *)
Definition log_Printf (l : Logger) (format : string) (args : list Arg) : M unit :=
  emit (Printf l format args).

(** [Fatalf] of a [log.Logger]: [Printf] followed by [os.Exit(1)].  Only
    [ERROR], which is always a [log.Logger], is ever asked to [Fatalf]. *)
Definition log_Fatalf {A} (l : Logger) (format : string) (args : list Arg) : M A :=
  log_Printf l format args ;;; os_Exit 1.


(** ** internal/util *)

Module Util.

Definition HEX_COUNT : nat := 8.
Definition HEX_BOUND : Z := 16.

(** Go's [byte(n)] conversion of an [int]. *)
Definition byte_of_int (n : Z) : Z := n mod 256.

Definition upper_hex_digits : list ascii :=
  list_ascii_of_string "0123456789ABCDEF".

Definition hex_upper (d : Z) : ascii :=
  nth (Z.to_nat d) upper_hex_digits "0"%char.

(** The verb [%X] of [fmt] applied to a [byte]: upper-case base 16
    without padding, so one digit below 16 and two digits from 16 on. *)
Definition fmt_X (b : Z) : string :=
  if b <? 16
  then String (hex_upper b) EmptyString
  else String (hex_upper (b / 16)) (String (hex_upper (b mod 16)) EmptyString).

(** [hexDigits[i] = byte(rand.Intn(HEX_BOUND))] for [i < HEX_COUNT];
    [intn i] is what the [i]-th call of [rand.Intn(HEX_BOUND)] returns. *)
Definition hexDigits (intn : nat -> Z) : list Z :=
  map (fun i => byte_of_int (intn i)) (seq 0 HEX_COUNT).

(** [fmt.Sprintf("%X%X%X%X-%X%X%X%X", hexDigits[0], ..., hexDigits[7])] *)
Definition GenerateHexSuffix (intn : nat -> Z) : string :=
  let h := hexDigits intn in
  let d i := fmt_X (nth i h 0) in
  d 0%nat ++ d 1%nat ++ d 2%nat ++ d 3%nat ++ "-" ++
  d 4%nat ++ d 5%nat ++ d 6%nat ++ d 7%nat.

(** A character of [0-9A-F]. *)
Definition is_upper_hex (c : ascii) : bool :=
  let n := nat_of_ascii c in
  ((48 <=? n) && (n <=? 57) || (65 <=? n) && (n <=? 70))%nat.

(** The value of a character of [0-9A-F]. *)
Definition hex_value (c : ascii) : Z :=
  let n := Z.of_nat (nat_of_ascii c) in
  if n <? 65 then n - 48 else n - 55.

(** [BoolAsStr] *)
Definition BoolAsStr (value : bool) : string :=
  if value then "true" else "false".

(** [unicode.ToTitle] on the runes the error texts start with: the
    letters [a]-[z] go to [A]-[Z], every other ASCII rune is kept. *)
Definition ToTitle (c : ascii) : ascii :=
  let n := nat_of_ascii c in
  if ((97 <=? n) && (n <=? 122))%nat then ascii_of_nat (n - 32) else c.

Definition capitalizeFirstLetter (input : string) : string :=
  match input with
  | EmptyString => input
  | String c rest => String (ToTitle c) rest
  end.

(** [PrintFatalUsage]: the message, the usage text, then [os.Exit(0)]. *)
Definition PrintFatalUsage {A} (message : string) : M A :=
  emit (Fprint_stderr ("ERROR: " ++ capitalizeFirstLetter message)) ;;;
  emit Usage ;;;
  os_Exit 0.

End Util.

(** ** internal/message *)

Module Message.

Record Header := mkHeader {
  MessageID : string;
  Timestamp : string
}.

(** One setting of a [ConfigContent]; the Go map holds exactly the one
    entry that [NewConfigCommand] stores. *)
Inductive Setting :=
| SettingString (name : string) (value : string)
| SettingInt (name : string) (value : Z)
| SettingSuntimes (name : string) (value : list (Z * (string * string))).

(** The content variants a [Message] is built with. *)
Inductive Content :=
| ControlContent (SwitchOn : bool)
| ConfigContent (Settings : list Setting)
| RestartContent (Reset : bool)
| EmptyContent.

Record Message := mkMessage {
  Header_ : Header;
  Content_ : Content
}.

(** [NewMessage]; [intn] is the random source and [now] is
    [time.Now().Format(time.RFC3339)]. *)
Definition NewMessage (intn : nat -> Z) (now : string)
           (clientID : string) (content : Content) : Message :=
  let messageID := clientID ++ "-" ++ Util.GenerateHexSuffix intn in
  let header := mkHeader messageID now in
  mkMessage header content.

Record AckMessage := mkAck {
  ID : string;
  StatusCode : Z;
  Message_ : string;
  AckContent : string
}.

End Message.

(** ** internal/command *)

Module Command.

(** The one implementation of the [AckHandler] interface. *)
Inductive AckHandler :=
| GetStatusAckHandler (All : bool).

Record Command := mkCommand {
  Host : string;
  Topic : string;
  QOS : Z;
  Message : Message.Message;
  IsAckExpected : bool;
  AckHandler_ : option AckHandler
}.

(** What command construction and ack handling read from outside. *)
Record Env := mkEnv {
  (** the [i]-th result of [rand.Intn(HEX_BOUND)] *)
  intn : nat -> Z;
  (** [time.Now().Format(time.RFC3339)] *)
  now : string;
  (** [readSuntimes filename]: the decoded file or the error text *)
  readSuntimes : string -> list (Z * (string * string)) + string;
  (** [GetStatusAckHandler{All}.HandleAck(content)]: the lines it prints
      and the error it returns *)
  GetStatus_HandleAck : bool -> string -> list string * option string
}.

(** [AckHandler.HandleAck(content)] *)
Definition AckHandler_HandleAck (env : Env) (h : AckHandler) (content : string)
  : M (option string) :=
  match h with
  | GetStatusAckHandler all =>
      let (lines, err) := GetStatus_HandleAck env all content in
      emit (AckHandlerCall content) ;;;
      emits (map Println lines) ;;;
      ret err
  end.

(** [Command.HandleAck]: calls the [AckHandler] if there is one. *)
Definition HandleAck (env : Env) (command : Command) (content : string)
  : M (option string) :=
  match AckHandler_ command with
  | Some h => AckHandler_HandleAck env h content
  | None => ret None
  end.

(** [strconv.Atoi]: an optional sign and decimal digits, within [int]. *)
Definition digit_of (c : ascii) : option Z :=
  let n := nat_of_ascii c in
  if ((48 <=? n) && (n <=? 57))%nat then Some (Z.of_nat n - 48) else None.

Fixpoint parse_digits (s : string) (acc : Z) : option Z :=
  match s with
  | EmptyString => Some acc
  | String c r =>
      match digit_of c with
      | Some d => parse_digits r (10 * acc + d)
      | None => None
      end
  end.

Definition Atoi (s : string) : option Z :=
  let (body, sign) :=
    match s with
    | String "+"%char r => (r, 1)
    | String "-"%char r => (r, -1)
    | _ => (s, 1)
    end in
  match body with
  | EmptyString => None
  | _ =>
      match parse_digits body 0 with
      | Some v =>
          let n := sign * v in
          if (- 2 ^ 63 <=? n) && (n <? 2 ^ 63) then Some n else None
      | None => None
      end
  end.

Definition topic_of (host kind : string) : string :=
  "indy-switch/" ++ host ++ "/" ++ kind.

Definition NewMessage (env : Env) := Message.NewMessage (intn env) (now env).

(** [NewControlCommand] *)
Definition NewControlCommand (env : Env) (clientID host : string)
           (args : list string) : Command + string :=
  match args with
  | [] => inr "switch command is missing the on/off parameter"
  | switchOnStr :: args =>
      if negb (String.eqb switchOnStr "on") && negb (String.eqb switchOnStr "off")
      then inr ("switch command is expecting on or off instead of " ++ switchOnStr)
      else
        let switchOn := String.eqb switchOnStr "on" in
        match args with
        | _ :: _ => inr "unexpected arguments for switch command"
        | [] =>
            let topic := topic_of host "control" in
            let msg := NewMessage env clientID (Message.ControlContent switchOn) in
            inl (mkCommand host topic 2 msg true None)
        end
  end.

(** [NewConfigCommand] *)
Definition NewConfigCommand (env : Env) (clientID host : string)
           (args : list string) : Command + string :=
  match args with
  | [] => inr "config command is missing setting"
  | settingName :: args =>
      let parsed : (list Message.Setting * list string) + string :=
        if String.eqb settingName "timezone" then
          match args with
          | [] => inr "timezone missing"
          | timezone :: args =>
              inl ([Message.SettingString settingName timezone], args)
          end
        else if String.eqb settingName "offset" then
          match args with
          | [] => inr "offset missing"
          | offsetStr :: args =>
              match Atoi offsetStr with
              | Some offset =>
                  if offset <=? 0
                  then inr "offset needs to be a postive integer"
                  else inl ([Message.SettingInt settingName offset], args)
              | None => inr "offset needs to be a postive integer"
              end
          end
        else if String.eqb settingName "suntimes" then
          match args with
          | [] => inr "file name missing"
          | filename :: args =>
              match readSuntimes env filename with
              | inl suntimes =>
                  inl ([Message.SettingSuntimes settingName suntimes], args)
              | inr err => inr err
              end
          end
        else inr ("unrecognized setting " ++ settingName) in
      match parsed with
      | inr err => inr err
      | inl (settings, args) =>
          match args with
          | _ :: _ => inr "unexpected arguments for config command"
          | [] =>
              let topic := topic_of host "config" in
              let msg := NewMessage env clientID (Message.ConfigContent settings) in
              inl (mkCommand host topic 2 msg true None)
          end
      end
  end.

(** [NewGetStatusCommand] *)
Definition NewGetStatusCommand (env : Env) (clientID host : string)
           (args : list string) : Command + string :=
  let checked : (bool * list string) + string :=
    match args with
    | [allStr] =>
        if negb (String.eqb allStr "all")
        then inr ("status command is expecting all instead of " ++ allStr)
        else inl (true, [])
    | _ => inl (false, args)
    end in
  match checked with
  | inr err => inr err
  | inl (all, args) =>
      match args with
      | _ :: _ => inr "unexpected arguments for status command"
      | [] =>
          let topic := topic_of host "status/get" in
          let msg := NewMessage env clientID Message.EmptyContent in
          inl (mkCommand host topic 2 msg true (Some (GetStatusAckHandler all)))
      end
  end.

(** [NewRestartCommand] *)
Definition NewRestartCommand (env : Env) (clientID host : string)
           (args : list string) : Command + string :=
  match args with
  | _ :: _ => inr "unexpected arguments for restart command"
  | [] =>
      let topic := topic_of host "restart" in
      let msg := NewMessage env clientID (Message.RestartContent false) in
      inl (mkCommand host topic 2 msg false None)
  end.

(** [NewResetCommand] *)
Definition NewResetCommand (env : Env) (clientID host : string)
           (args : list string) : Command + string :=
  match args with
  | _ :: _ => inr "unexpected arguments for reset command"
  | [] =>
      let topic := topic_of host "restart" in
      let msg := NewMessage env clientID (Message.RestartContent true) in
      inl (mkCommand host topic 2 msg false None)
  end.

(** [NewCommand] *)
Definition NewCommand (env : Env) (clientID : string) (args : list string)
  : Command + string :=
  match args with
  | [] => inr "no host specified"
  | host :: args =>
      match args with
      | [] => inr "no command specified"
      | cmdStr :: args =>
          if String.eqb cmdStr "switch" then NewControlCommand env clientID host args
          else if String.eqb cmdStr "config" then NewConfigCommand env clientID host args
          else if String.eqb cmdStr "status" then NewGetStatusCommand env clientID host args
          else if String.eqb cmdStr "restart" then NewRestartCommand env clientID host args
          else if String.eqb cmdStr "reset" then NewResetCommand env clientID host args
          else inr ("unrecognized command " ++ cmdStr)
      end
  end.

End Command.

(** ** internal/config *)

Module Config.

(** Pointer fields: [None] is [nil]. *)
Record configRegular := mkRegular {
  Hostname : option string;
  Port : option Z
}.

Record configSecrets := mkSecrets {
  Username : option string;
  Password : option string
}.

Record Config := mkConfig {
  regular : configRegular;
  secrets : configSecrets
}.

(** The file system and the JSON decoder, as [loadConfig] sees them. *)
Record Files := mkFiles {
  ReadFile : string -> string + string;
  Unmarshal_regular : string -> configRegular + string;
  Unmarshal_secrets : string -> configSecrets + string
}.

(** [loadConfig], for a destination decoded by [unmarshal]; [dest] is the
    zero value the caller declared. *)
Definition loadConfig {D} (fs : Files) (unmarshal : string -> D + string)
           (path : string) : M D :=
  match ReadFile fs path with
  | inr err =>
      log_Fatalf ERROR "Failed to read config file '%s': %v" [AStr path; AStr err]
  | inl bytes =>
      match unmarshal bytes with
      | inr err =>
          log_Fatalf ERROR "Failed to unmarshal config file '%s': %v"
                     [AStr path; AStr err]
      | inl dest => ret dest
      end
  end.

Definition checkFields_regular (config : configRegular) (path : string) : M unit :=
  match Hostname config with
  | None => log_Fatalf ERROR "hostname not found in '%s'" [AStr path]
  | Some _ =>
      match Port config with
      | None => log_Fatalf ERROR "port not found in '%s'" [AStr path]
      | Some _ => ret tt
      end
  end.

Definition checkFields_secrets (config : configSecrets) (path : string) : M unit :=
  match Username config with
  | None => log_Fatalf ERROR "username not found in '%s'" [AStr path]
  | Some _ =>
      match Password config with
      | None => log_Fatalf ERROR "password not found in '%s'" [AStr path]
      | Some _ => ret tt
      end
  end.

(** [LoadConfig] *)
Definition LoadConfig (fs : Files) : M Config :=
  let path := "internal/config/config.json" in
  config1 <- loadConfig fs (Unmarshal_regular fs) path ;;
  checkFields_regular config1 path ;;;
  let path := "internal/config/config-secrets.json" in
  config2 <- loadConfig fs (Unmarshal_secrets fs) path ;;
  checkFields_secrets config2 path ;;;
  ret (mkConfig config1 config2).

End Config.

(** ** cmd/indy-mqtt.go *)

Module Main.

Import Message Command.

(** Durations and instants are in nanoseconds, as [time.Duration] is. *)
Definition Second : Z := 1000000000.
Definition TIMEOUT : Z := 30 * Second.
Definition DISCONNECT_WAIT : Z := 250. (* milliseconds *)
Definition STATUS_CODE_OK : Z := 200.
Definition ACK_QOS : Z := 1.

(** *** [select]

    A case is a label with the instant from which its channel can be
    received from ([None]: never).  A [select] entered at [start] fires
    at the first instant at which some case can proceed; among the cases
    that can proceed then, [pick] chooses, as Go's pseudo-random choice
    does.  Without any case that ever becomes ready it blocks. *)
Section Select.
Context {C : Type}.

Definition ready_time (start : Z) (c : C * option Z) : option Z :=
  option_map (Z.max start) (snd c).

Fixpoint earliest (start : Z) (cases : list (C * option Z)) : option Z :=
  match cases with
  | [] => None
  | c :: cs =>
      match ready_time start c, earliest start cs with
      | Some t, Some t' => Some (Z.min t t')
      | Some t, None => Some t
      | None, r => r
      end
  end.

Definition ready_by (start fired : Z) (c : C * option Z) : bool :=
  match ready_time start c with
  | Some t => t <=? fired
  | None => false
  end.

Definition select (start : Z) (cases : list (C * option Z)) (pick : nat)
  : option (C * Z) :=
  match earliest start cases with
  | None => None
  | Some fired =>
      let ready := filter (ready_by start fired) cases in
      match nth_error ready (pick mod List.length ready) with
      | Some c => Some (fst c, fired)
      | None => None
      end
  end.
End Select.

(** *** The world of one invocation *)

Record Flags := mkFlags {
  help : bool;
  version_flag : bool;
  verbose : bool;            (* util.Verbose *)
  debug : bool;              (* util.Debug *)
  positional : list string   (* flag.Args() *)
}.

Record World := mkWorld {
  (** [filepath.Base(os.Args[0])] *)
  binaryName : string;
  (** the command line, as [flag.Parse] accepted it *)
  flags : Flags;
  (** [version], [runtime.Version()], [runtime.GOOS], [runtime.GOARCH] *)
  version : string;
  runtime_Version : string;
  GOOS : string;
  GOARCH : string;
  files : Config.Files;
  (** [os.Hostname()]: the name or the error *)
  os_Hostname : string + string;
  cmd_env : Command.Env;
  (** [json.Marshal] and [json.MarshalIndent]: the bytes or the error *)
  json_Marshal : Message.Message -> string + string;
  json_MarshalIndent : Message.Message -> string + string;
  (** the error of the [Connect] token once [Wait] returns *)
  connect_error : option string;
  (** when the [Subscribe] token is done and with which error *)
  subscribe_done : option (Z * option string);
  (** when the [Publish] token is done and with which error *)
  publish_done : option (Z * option string);
  (** when the interrupt signal (SIGINT or SIGTERM) is delivered on
      [interrupt]; the channel is made, and the signal asked for, after the
      publish has been issued *)
  interrupt_at : option Z;
  (** what the subscription callback sends on [ackCh], each with the
      instant at which the listener can receive it, in order of receipt *)
  ackCh : list (Z * AckMessage);
  (** the clock when each of the three [select]s is entered *)
  t_subscribe_wait : Z;
  t_publish_wait : Z;
  t_ack_wait : Z;
  (** the scheduler's choice in each of them *)
  pick_subscribe : nat;
  pick_publish : nat;
  pick_ack : nat
}.

(** *** [parseCommandLine] *)
Definition parseCommandLine (w : World) : M (list string) :=
  if help (flags w) then emit Usage ;;; os_Exit 0
  else if version_flag (flags w) then
    emit (Println (binaryName w ++ " " ++ version w ++ " compiled with " ++
                   runtime_Version w ++ " on " ++ GOOS w ++ "/" ++ GOARCH w)) ;;;
    os_Exit 0
  else ret (positional (flags w)).

(** *** [marshalToJSONString] *)
Definition marshalToJSONString (w : World) (source : Message.Message) : M string :=
  match json_MarshalIndent w source with
  | inr err => log_Fatalf ERROR "Unable to format JSON: %v" [AStr err]
  | inl jsonBytes => ret jsonBytes
  end.

(** *** [prettifyJSON]; [indented] is what [json.Indent] gives. *)
Definition prettifyJSON (source : string) (indented : string + string) : M string :=
  match indented with
  | inr err =>
      log_Printf ERROR "Unable to prettify '%s': %v" [AStr source; AStr err] ;;;
      ret ""
  | inl buffer => ret buffer
  end.

(** *** [connect] *)

(** The connected client handle. *)
Inductive Client := mkClient (brokerUrl clientID : string).

(** Dereferencing a pointer field; on [nil] the Go runtime panics and the
    process exits with status 2. *)
Definition deref {A} (p : option A) : M A :=
  match p with
  | Some a => ret a
  | None => os_Exit 2
  end.

(** The verb [%d]. *)
Definition fmt_d (n : Z) : string := NilZero.string_of_int (Z.to_int n).

(** [options.OnConnect]: what it does, and the new [connectionLost]. *)
Definition OnConnect (isAckExpected : bool) (ackTopic : string)
           (connectionLost : bool) : list Effect * bool :=
  ((if connectionLost
    then [Println "Connection reestablished"]
    else [Printf INFO "Connection established" []]) ++
   (if isAckExpected
    then [Printf INFO "Subscribing to '%s'" [AStr ackTopic];
          Subscribe ackTopic ACK_QOS]
    else []), false)%list.



(** The subscription callback, for one inbound message: [indented] and
    [parsed] are the results of [json.Indent] and [json.Unmarshal] on the
    payload.  It returns the ack it sends on [ackCh], if any. *)
Definition ackCallback (verbose : bool) (payload : string)
           (indented : string + string) (parsed : AckMessage + string)
  : M (option AckMessage) :=
  (if verbose
   then prettyJSON <- prettifyJSON payload indented ;;
        log_Printf INFO "ACK received:\n%s" [AStr prettyJSON]
   else ret tt) ;;;
  match parsed with
  | inr err =>
      log_Printf ERROR "ACK could not be parsed: %v" [AStr err] ;;;
      emit (Fprint_stderr payload) ;;;
      ret None
  | inl ack => ret (Some ack)
  end.

(** The goroutine that waits for the [Subscribe] token: what it logs and
    whether it closes [subscribed]. *)
Definition subscribe_waiter (ackTopic : string) (err : option string)
  : list Effect * bool :=
  match err with
  | Some e =>
      ([Printf ERROR "Failed to subscribe to '%s': %v" [AStr ackTopic; AStr e]],
       false)
  | None => ([Printf INFO "Susbscribed to '%s'" [AStr ackTopic]], true)
  end.

Inductive SubscribeCase := CaseSubscribed | CaseSubscribeTimer.

(** The instant from which [subscribed] is closed. *)
Definition subscribed_at (ackTopic : string) (w : World) : option Z :=
  match subscribe_done w with
  | Some (t, err) => if snd (subscribe_waiter ackTopic err) then Some t else None
  | None => None
  end.

(** What the waiting goroutine has logged by the instant [fired]. *)
Definition subscribe_waiter_log (ackTopic : string) (w : World) (fired : Z)
  : list Effect :=
  match subscribe_done w with
  | Some (t, err) =>
      if Z.max (t_subscribe_wait w) t <=? fired
      then fst (subscribe_waiter ackTopic err) else []
  | None => []
  end.

Definition connect (w : World) (config : Config.Config) (clientID : string)
           (isAckExpected : bool) (host : string) : M (Client + string) :=
  hostname <- deref (Config.Hostname (Config.regular config)) ;;
  port <- deref (Config.Port (Config.regular config)) ;;
  let brokerUrl := "ssl://" ++ hostname ++ ":" ++ fmt_d port in
  username <- deref (Config.Username (Config.secrets config)) ;;
  password <- deref (Config.Password (Config.secrets config)) ;;
  let ackTopic := "indy-switch/" ++ host ++ "/ack" in
  log_Printf INFO "Connecting to '%s' as user '%s' with client ID '%s'"
             [AStr brokerUrl; AStr username; AStr clientID] ;;;
  emit (Connect brokerUrl clientID username password) ;;;
  match connect_error w with
  | Some err => ret (inr err)
  | None =>
      emits (fst (OnConnect isAckExpected ackTopic false)) ;;;
      (* Wait for subscribe to complete *)
      (if isAckExpected then
         let start := t_subscribe_wait w in
         match select start
                      [(CaseSubscribed, subscribed_at ackTopic w);
                       (CaseSubscribeTimer, Some (start + TIMEOUT))]
                      (pick_subscribe w) with
         | None => block
         | Some (c, fired) =>
             emits (subscribe_waiter_log ackTopic w fired) ;;;
             match c with
             | CaseSubscribed => ret tt
             | CaseSubscribeTimer =>
                 log_Printf ERROR "Timed out while waiting to subscribe to '%s'"
                            [AStr ackTopic]
             end
         end
       else ret tt) ;;;
      ret (inl (mkClient brokerUrl clientID))
  end.

(** *** The wait for the publish token *)

Inductive PublishCase := CaseTokenDone | CasePublishInterrupt.

Definition interrupt_text : string := "Interrupt signal received. Exiting...".

(** The first [select] of [main]; returns [publishSuccess]. *)
Definition publish_wait (w : World) : M bool :=
  match select (t_publish_wait w)
               [(CaseTokenDone, option_map fst (publish_done w));
                (CasePublishInterrupt, interrupt_at w)]
               (pick_publish w) with
  | None => block
  | Some (CaseTokenDone, _) =>
      match publish_done w with
      | Some (_, Some err) =>
          log_Printf ERROR "Failed to publish: %v" [AStr err] ;;; ret false
      | _ =>
          log_Printf INFO "Message published successfully" [] ;;; ret true
      end
  | Some (CasePublishInterrupt, _) =>
      emit (Println interrupt_text) ;;; ret false
  end.

(** *** The ack listener *)

(** The body of [for ack := range ackCh], for one ack; [true] when the
    goroutine closes [acked] and returns. *)
Definition on_ack (w : World) (cmd : Command) (ack : AckMessage) : M bool :=
  if String.eqb (ID ack) (MessageID (Header_ (Message cmd))) then
    (if StatusCode ack =? STATUS_CODE_OK then
       log_Printf INFO "Message was successfully acknowledged" [] ;;;
       (if (0 <? String.length (Message_ ack))%nat
        then emit (Println (Message_ ack)) else ret tt) ;;;
       err <- Command.HandleAck (cmd_env w) cmd (AckContent ack) ;;
       match err with
       | Some e => log_Printf ERROR "Failed to handle ack: %v" [AStr e]
       | None => ret tt
       end
     else
       log_Printf ERROR "ACK error code %d: %s"
                  [AInt (StatusCode ack); AStr (Message_ ack)]) ;;;
    ret true
  else ret false.

(** The listener goroutine over the acks it receives: the instant at
    which it closes [acked], or [None] when it is still waiting on
    [ackCh] after the last of them. *)
Fixpoint listener (w : World) (cmd : Command) (acks : list (Z * AckMessage))
  : M (option Z) :=
  match acks with
  | [] => ret None
  | (t, ack) :: rest =>
      returned <- on_ack w cmd ack ;;
      if returned : bool then ret (Some t) else listener w cmd rest
  end.

Inductive AckCase := CaseAcked | CaseAckTimer | CaseAckInterrupt.

Definition acked_at (r : M (option Z)) : option Z :=
  match snd r with
  | Ret (Some t) => Some t
  | _ => None
  end.

(** The second [select] of [main], with the listener beside it. *)
Definition ack_wait (w : World) (cmd : Command) : M unit :=
  let l := listener w cmd (ackCh w) in
  log_Printf INFO "Watching for ACK" [] ;;;
  let start := t_ack_wait w in
  match select start
               [(CaseAcked, acked_at l);
                (CaseAckTimer, Some (start + TIMEOUT));
                (CaseAckInterrupt, interrupt_at w)]
               (pick_ack w) with
  | None => block
  | Some (c, fired) =>
      emits (if ready_by start fired (CaseAcked, acked_at l) then fst l else []) ;;;
      match c with
      | CaseAcked => ret tt
      | CaseAckTimer => log_Printf ERROR "Timed out while waiting for ACK" []
      | CaseAckInterrupt => emit (Println interrupt_text)
      end
  end.

(** *** [main] *)
Definition main_body (w : World) : M unit :=
  args <- parseCommandLine w ;;
  (* util.ConfigureLogging() installs the loggers, see [printed] *)
  config <- Config.LoadConfig (files w) ;;
  hostname <- match os_Hostname w with
              | inl h => ret h
              | inr _ => log_Fatalf ERROR "Unable to lookup hostname" []
              end ;;
  let clientID := hostname ++ "-" ++ binaryName w in
  cmd <- match NewCommand (cmd_env w) clientID args with
         | inl c => ret c
         | inr err => Util.PrintFatalUsage err
         end ;;
  r <- connect w config clientID (IsAckExpected cmd) (Host cmd) ;;
  client <- match r with
            | inl c => ret c
            | inr err => log_Fatalf ERROR "Unable to connect: %v" [AStr err]
            end ;;
  messageBytes <- match json_Marshal w (Message cmd) with
                  | inl b => ret b
                  | inr err =>
                      log_Fatalf ERROR "Error marshaling message: %v" [AStr err]
                  end ;;
  (if verbose (flags w) then
     log_Printf INFO "Publishing to topic '%s'" [AStr (Topic cmd)] ;;;
     prettyJSON <- marshalToJSONString w (Message cmd) ;;
     log_Printf INFO "Message:\n%s" [AStr prettyJSON]
   else ret tt) ;;;
  emit (Publish (Topic cmd) (QOS cmd) false messageBytes) ;;;
  publishSuccess <- publish_wait w ;;
  (if IsAckExpected cmd && publishSuccess then ack_wait w cmd else ret tt) ;;;
  emit (Disconnect DISCONNECT_WAIT) ;;;
  log_Printf INFO "Disconnected from broker" [].

(** How the process ends. *)
Inductive Status :=
| Exited (code : Z)
| Hung.

(** Returning from [main] is exit status 0. *)
Definition main (w : World) : list Effect * Status :=
  match main_body w with
  | (tr, Ret _) => (tr, Exited 0)
  | (tr, Exit code) => (tr, Exited code)
  | (tr, Blocked) => (tr, Hung)
  end.

(** The status [main] ends with, from how [main_body] ends. *)
Definition status_of {A} (r : Res A) : Status :=
  match r with
  | Ret _ => Exited 0
  | Exit code => Exited code
  | Blocked => Hung
  end.

(** *** The two halves of [main]

    [setup] is [main] up to the publish (command line, configuration,
    command, connection, marshalling); [engine] is [main] from the publish
    on.  [main_body] is [setup] followed by [engine]. *)
Definition setup (w : World) : M (Command * string) :=
  args <- parseCommandLine w ;;
  config <- Config.LoadConfig (files w) ;;
  hostname <- match os_Hostname w with
              | inl h => ret h
              | inr _ => log_Fatalf ERROR "Unable to lookup hostname" []
              end ;;
  let clientID := hostname ++ "-" ++ binaryName w in
  cmd <- match NewCommand (cmd_env w) clientID args with
         | inl c => ret c
         | inr err => Util.PrintFatalUsage err
         end ;;
  r <- connect w config clientID (IsAckExpected cmd) (Host cmd) ;;
  client <- match r with
            | inl c => ret c
            | inr err => log_Fatalf ERROR "Unable to connect: %v" [AStr err]
            end ;;
  messageBytes <- match json_Marshal w (Message cmd) with
                  | inl b => ret b
                  | inr err =>
                      log_Fatalf ERROR "Error marshaling message: %v" [AStr err]
                  end ;;
  (if verbose (flags w) then
     log_Printf INFO "Publishing to topic '%s'" [AStr (Topic cmd)] ;;;
     prettyJSON <- marshalToJSONString w (Message cmd) ;;
     log_Printf INFO "Message:\n%s" [AStr prettyJSON]
   else ret tt) ;;;
  ret (cmd, messageBytes).

Definition engine (w : World) (cmd : Command) (messageBytes : string) : M unit :=
  emit (Publish (Topic cmd) (QOS cmd) false messageBytes) ;;;
  publishSuccess <- publish_wait w ;;
  (if IsAckExpected cmd && publishSuccess then ack_wait w cmd else ret tt) ;;;
  emit (Disconnect DISCONNECT_WAIT) ;;;
  log_Printf INFO "Disconnected from broker" [].

(** The world with other traffic on [ackCh]. *)
Definition set_ackCh (acks : list (Z * AckMessage)) (w : World) : World :=
  {| binaryName := binaryName w; flags := flags w; version := version w;
     runtime_Version := runtime_Version w; GOOS := GOOS w; GOARCH := GOARCH w;
     files := files w; os_Hostname := os_Hostname w; cmd_env := cmd_env w;
     json_Marshal := json_Marshal w;
     json_MarshalIndent := json_MarshalIndent w;
     connect_error := connect_error w; subscribe_done := subscribe_done w;
     publish_done := publish_done w; interrupt_at := interrupt_at w;
     ackCh := acks; t_subscribe_wait := t_subscribe_wait w;
     t_publish_wait := t_publish_wait w; t_ack_wait := t_ack_wait w;
     pick_subscribe := pick_subscribe w; pick_publish := pick_publish w;
     pick_ack := pick_ack w |}.

(** The world with another result of the connection attempt. *)
Definition set_connect_error (err : option string) (w : World) : World :=
  {| binaryName := binaryName w; flags := flags w; version := version w;
     runtime_Version := runtime_Version w; GOOS := GOOS w; GOARCH := GOARCH w;
     files := files w; os_Hostname := os_Hostname w; cmd_env := cmd_env w;
     json_Marshal := json_Marshal w;
     json_MarshalIndent := json_MarshalIndent w; connect_error := err;
     subscribe_done := subscribe_done w; publish_done := publish_done w;
     interrupt_at := interrupt_at w; ackCh := ackCh w;
     t_subscribe_wait := t_subscribe_wait w;
     t_publish_wait := t_publish_wait w; t_ack_wait := t_ack_wait w;
     pick_subscribe := pick_subscribe w; pick_publish := pick_publish w;
     pick_ack := pick_ack w |}.

(** The world with another fate of the subscription. *)
Definition set_subscribe_done (done : option (Z * option string)) (w : World) : World :=
  {| binaryName := binaryName w; flags := flags w; version := version w;
     runtime_Version := runtime_Version w; GOOS := GOOS w; GOARCH := GOARCH w;
     files := files w; os_Hostname := os_Hostname w; cmd_env := cmd_env w;
     json_Marshal := json_Marshal w;
     json_MarshalIndent := json_MarshalIndent w;
     connect_error := connect_error w; subscribe_done := done;
     publish_done := publish_done w; interrupt_at := interrupt_at w;
     ackCh := ackCh w; t_subscribe_wait := t_subscribe_wait w;
     t_publish_wait := t_publish_wait w; t_ack_wait := t_ack_wait w;
     pick_subscribe := pick_subscribe w; pick_publish := pick_publish w;
     pick_ack := pick_ack w |}.


(** The world with another delivery of the interrupt signal. *)
Definition set_interrupt_at (signal : option Z) (w : World) : World :=
  {| binaryName := binaryName w; flags := flags w; version := version w;
     runtime_Version := runtime_Version w; GOOS := GOOS w; GOARCH := GOARCH w;
     files := files w; os_Hostname := os_Hostname w; cmd_env := cmd_env w;
     json_Marshal := json_Marshal w;
     json_MarshalIndent := json_MarshalIndent w;
     connect_error := connect_error w; subscribe_done := subscribe_done w;
     publish_done := publish_done w; interrupt_at := signal; ackCh := ackCh w;
     t_subscribe_wait := t_subscribe_wait w;
     t_publish_wait := t_publish_wait w; t_ack_wait := t_ack_wait w;
     pick_subscribe := pick_subscribe w; pick_publish := pick_publish w;
     pick_ack := pick_ack w |}.

(** The world with another random source, clock and handler. *)
Definition set_cmd_env (env : Command.Env) (w : World) : World :=
  {| binaryName := binaryName w; flags := flags w; version := version w;
     runtime_Version := runtime_Version w; GOOS := GOOS w; GOARCH := GOARCH w;
     files := files w; os_Hostname := os_Hostname w; cmd_env := env;
     json_Marshal := json_Marshal w;
     json_MarshalIndent := json_MarshalIndent w;
     connect_error := connect_error w; subscribe_done := subscribe_done w;
     publish_done := publish_done w; interrupt_at := interrupt_at w;
     ackCh := ackCh w; t_subscribe_wait := t_subscribe_wait w;
     t_publish_wait := t_publish_wait w; t_ack_wait := t_ack_wait w;
     pick_subscribe := pick_subscribe w; pick_publish := pick_publish w;
     pick_ack := pick_ack w |}.

(** The world with another fate of the publish. *)
Definition set_publish_done (done : option (Z * option string)) (w : World) : World :=
  {| binaryName := binaryName w; flags := flags w; version := version w;
     runtime_Version := runtime_Version w; GOOS := GOOS w; GOARCH := GOARCH w;
     files := files w; os_Hostname := os_Hostname w; cmd_env := cmd_env w;
     json_Marshal := json_Marshal w;
     json_MarshalIndent := json_MarshalIndent w;
     connect_error := connect_error w; subscribe_done := subscribe_done w;
     publish_done := done; interrupt_at := interrupt_at w; ackCh := ackCh w;
     t_subscribe_wait := t_subscribe_wait w;
     t_publish_wait := t_publish_wait w; t_ack_wait := t_ack_wait w;
     pick_subscribe := pick_subscribe w; pick_publish := pick_publish w;
     pick_ack := pick_ack w |}.

End Main.

(** ** The outcome of an invocation, read off its trace

    The program has no outcome value: it reports what happened through
    the calls it makes.  [spec_outcome] reads a trace the way an operator
    reads the terminal, by the first report that settles the invocation. *)

Module Outcome.

Import Main.

Inductive Outcome :=
| PublishFailed
| PublishedNoAckRequired
| AcknowledgedSuccess
| AcknowledgedFailure (status_code : Z) (message : string)
| AckTimeout
| SubscribeTimeout
| Interrupted.

(** The report a single call makes, if it settles the invocation. *)
Definition report (e : Effect) : option Outcome :=
  match e with
  | Printf ERROR format args =>
      if String.eqb format "Failed to publish: %v" then Some PublishFailed
      else if String.eqb format "Timed out while waiting for ACK" then Some AckTimeout
      else if String.eqb format "ACK error code %d: %s" then
        match args with
        | [AInt code; AStr message] => Some (AcknowledgedFailure code message)
        | _ => None
        end
      else None
  | Printf INFO format _ =>
      if String.eqb format "Message was successfully acknowledged"
      then Some AcknowledgedSuccess else None
  | Println s =>
      if String.eqb s interrupt_text then Some Interrupted else None
  | _ => None
  end.

Definition is_published (e : Effect) : bool :=
  match e with
  | Printf INFO format _ => String.eqb format "Message published successfully"
  | _ => false
  end.

(** The first settling report; a confirmed publish that nothing follows
    up on is a command that required no acknowledgment. *)
Fixpoint spec_outcome (tr : list Effect) : option Outcome :=
  match tr with
  | [] => None
  | e :: tr' =>
      match report e with
      | Some o => Some o
      | None =>
          match spec_outcome tr' with
          | Some o => Some o
          | None => if is_published e then Some PublishedNoAckRequired else None
          end
      end
  end.

(** The two reports of the listener on the ack of the command. *)
Definition acknowledged_report : Effect :=
  Printf INFO "Message was successfully acknowledged" [].

Definition ack_error_report (ack : Message.AckMessage) : Effect :=
  Printf ERROR "ACK error code %d: %s"
         [AInt (Message.StatusCode ack); AStr (Message.Message_ ack)].

(** The reports of the engine. *)
Definition published_report : Effect :=
  Printf INFO "Message published successfully" [].

Definition publish_failed_report (err : string) : Effect :=
  Printf ERROR "Failed to publish: %v" [AStr err].

Definition watching_report : Effect := Printf INFO "Watching for ACK" [].

Definition ack_timeout_report : Effect :=
  Printf ERROR "Timed out while waiting for ACK" [].

Definition interrupt_report : Effect := Println interrupt_text.

Definition disconnected_report : Effect :=
  Printf INFO "Disconnected from broker" [].

(** The formats [ERROR.Fatalf] is called with. *)
Definition fatal_formats : list string :=
  ["Failed to read config file '%s': %v";
   "Failed to unmarshal config file '%s': %v";
   "hostname not found in '%s'";
   "port not found in '%s'";
   "username not found in '%s'";
   "password not found in '%s'";
   "Unable to lookup hostname";
   "Unable to connect: %v";
   "Error marshaling message: %v";
   "Unable to format JSON: %v"].

(** The two of them that are reached with the session connected. *)
Definition connected_fatal_formats : list string :=
  ["Error marshaling message: %v"; "Unable to format JSON: %v"].

(** A call that reports nothing about the command. *)
Definition quiet (e : Effect) : bool :=
  match report e with
  | Some _ => false
  | None => negb (is_published e)
  end.


Definition is_disconnect (e : Effect) : bool :=
  match e with Disconnect _ => true | _ => false end.

Definition is_subscribe (e : Effect) : bool :=
  match e with Subscribe _ _ => true | _ => false end.

Definition is_publish (e : Effect) : bool :=
  match e with Publish _ _ _ _ => true | _ => false end.

Definition is_connect (e : Effect) : bool :=
  match e with Connect _ _ _ _ => true | _ => false end.

Definition is_handler_call (e : Effect) : bool :=
  match e with AckHandlerCall _ => true | _ => false end.

(** The confirmation of the subscription, as the waiting goroutine logs it. *)
Definition is_subscribe_confirmation (e : Effect) : bool :=
  match e with
  | Printf INFO format _ => String.eqb format "Susbscribed to '%s'"
  | _ => false
  end.

Definition count (p : Effect -> bool) (tr : list Effect) : nat :=
  List.length (filter p tr).

(** *** How [setup] can end

    With the session connected and the message marshalled; by
    [os.Exit(0)] before any connection (help, version, usage error); or
    by [ERROR.Fatalf], either without a connection or, with the session
    connected, on a marshalling failure. *)
Definition setup_connected (w : World) (r : M (Command.Command * string)) : Prop :=
  exists tr cmd bytes,
    r = (tr, Ret (cmd, bytes))
    /\ connect_error w = None
    /\ count is_connect tr = 1%nat
    /\ count is_disconnect tr = 0%nat
    /\ count is_publish tr = 0%nat
    /\ count is_handler_call tr = 0%nat
    /\ forallb quiet tr = true
    /\ (Command.IsAckExpected cmd = false -> count is_subscribe tr = 0%nat).

Definition setup_exit0 (r : M (Command.Command * string)) : Prop :=
  exists pre last,
    r = ((pre ++ [last])%list, Exit 0)
    /\ count is_connect (pre ++ [last]) = 0%nat
    /\ (last = Usage \/ exists s, last = Println s).

Definition setup_fatal (w : World) (r : M (Command.Command * string)) : Prop :=
  exists pre format args,
    r = ((pre ++ [Printf ERROR format args])%list, Exit 1)
    /\ In format fatal_formats
    /\ count is_disconnect pre = 0%nat
    /\ (count is_connect pre = 0%nat
        \/ connect_error w <> None
        \/ (connect_error w = None /\ count is_connect pre = 1%nat
            /\ In format connected_fatal_formats)).

End Outcome.

(** ** Sample worlds *)

Module Sample.

Import Main.

Definition sample_files : Config.Files :=
  Config.mkFiles
    (fun path => inl path)
    (fun _ => inl (Config.mkRegular (Some "broker.example.org") (Some 8883)))
    (fun _ => inl (Config.mkSecrets (Some "foobar") (Some "changeme"))).

Definition sample_env : Command.Env :=
  Command.mkEnv
    (fun i => (Z.of_nat i * 7 + 10) mod 16)
    "2024-01-17T10:57:55-06:00"
    (fun _ => inr "unable to open")
    (fun _ content => ([content], None)).

Definition marshal (m : Message.Message) : string + string :=
  inl ("<" ++ Message.MessageID (Message.Header_ m) ++ ">").

(** The id [NewMessage] gives the command in the sample worlds. *)
Definition message_id : string := "laptop-indy-mqtt-A18F-6D4B".

Definition ok_ack : Message.AckMessage :=
  Message.mkAck message_id 200 "" "{}".

Definition busy_ack : Message.AckMessage :=
  Message.mkAck message_id 500 "device busy" "{}".

Definition stale_ack : Message.AckMessage :=
  Message.mkAck "laptop-indy-mqtt-0000-0000" 200 "stale" "{}".

(** [indy-mqtt -verbose esp-vorona <command...>] against a broker that
    accepts the connection at once, confirms the subscription after 1 s
    and the publish after 2 s, with the acks of [acks] on the way. *)
Definition world (command : list string) (acks : list (Z * Message.AckMessage))
  : World :=
  {| binaryName := "indy-mqtt";
     flags := mkFlags false false true false ("esp-vorona" :: command);
     version := "v.0.0.1";
     runtime_Version := "go1.21";
     GOOS := "linux";
     GOARCH := "amd64";
     files := sample_files;
     os_Hostname := inl "laptop";
     cmd_env := sample_env;
     json_Marshal := marshal;
     json_MarshalIndent := marshal;
     connect_error := None;
     subscribe_done := Some (1 * Second, None);
     publish_done := Some (2 * Second, None);
     interrupt_at := None;
     ackCh := acks;
     t_subscribe_wait := 0;
     t_publish_wait := 1 * Second;
     t_ack_wait := 2 * Second;
     pick_subscribe := 0;
     pick_publish := 0;
     pick_ack := 0 |}.

(** The commands of the sample worlds. *)
Definition header : Message.Header :=
  Message.mkHeader message_id "2024-01-17T10:57:55-06:00".

Definition switch_on : Command.Command :=
  Command.mkCommand "esp-vorona" "indy-switch/esp-vorona/control" 2
    (Message.mkMessage header (Message.ControlContent true)) true None.

Definition status_all : Command.Command :=
  Command.mkCommand "esp-vorona" "indy-switch/esp-vorona/status/get" 2
    (Message.mkMessage header Message.EmptyContent) true
    (Some (Command.GetStatusAckHandler true)).

Definition restart : Command.Command :=
  Command.mkCommand "esp-vorona" "indy-switch/esp-vorona/restart" 2
    (Message.mkMessage header (Message.RestartContent false)) false None.

(** [switch on] against a broker that accepts the connection and never
    confirms the subscription. *)
Definition never_subscribed : World :=
  set_subscribe_done None (world ["switch"; "on"] []).


(** [status all] with a handler that cannot parse the content. *)
Definition handler_fails : World :=
  set_cmd_env
    (Command.mkEnv (Command.intn sample_env) (Command.now sample_env)
                   (Command.readSuntimes sample_env)
                   (fun _ _ => ([], Some "unable to parse ACK JSON content")))
    (world ["status"; "all"] [(4 * Second, ok_ack)]).

(** [switch on] against a broker that cannot be reached. *)
Definition broker_unreachable : World :=
  set_connect_error (Some "network Error : dial tcp: connection refused")
                    (world ["switch"; "on"] []).

End Sample.


(** ** internal/command: the handler of the status ack *)

Module GetStatus.

(** [json.Unmarshal] into a [map[string]json.RawMessage]: the entries of
    the map, in the order in which [range] visits them, or the error.  The
    keys of a map are distinct. *)
Record Json := mkJson {
  Unmarshal_object : string -> list (string * string) + string
}.

(** [data[key]]: the value, or [None] for a missing key. *)
Fixpoint lookup (key : string) (data : list (string * string)) : option string :=
  match data with
  | [] => None
  | (k, v) :: rest => if String.eqb key k then Some v else lookup key rest
  end.

(** [sort.Ints] *)
Fixpoint insert (k : Z) (keys : list Z) : list Z :=
  match keys with
  | [] => [k]
  | k' :: rest => if k <=? k' then k :: keys else k' :: insert k rest
  end.

Fixpoint sort_Ints (keys : list Z) : list Z :=
  match keys with
  | [] => []
  | k :: rest => insert k (sort_Ints rest)
  end.

(** [strconv.Itoa] *)
Definition Itoa (n : Z) : string := Main.fmt_d n.

(** The loop [for key := range data] of [createStrFromJsonObj]: the keys
    as integers, or the error on the first key that is none. *)
Fixpoint int_keys (data : list (string * string)) : list Z + string :=
  match data with
  | [] => inl []
  | (key, _) :: rest =>
      match Command.Atoi key with
      | None => inr ("integer not found for key '" ++ key ++ "'")
      | Some keyInt =>
          match int_keys rest with
          | inl keys => inl (keyInt :: keys)
          | inr err => inr err
          end
      end
  end.

(** [fmt.Sprintf("%s: %s", key, value)] with [key := strconv.Itoa(keyInt)]
    and [value := data[key]]; a missing key gives the nil value, which
    prints as nothing. *)
Definition entry (data : list (string * string)) (keyInt : Z) : string :=
  let key := Itoa keyInt in
  let value := match lookup key data with Some v => v | None => "" end in
  key ++ ": " ++ value.

(** The loop [for i, keyInt := range keys] on the builder; [first] is
    [i = 0]. *)
Fixpoint write_entries (data : list (string * string)) (keys : list Z)
         (first : bool) : string :=
  match keys with
  | [] => ""
  | keyInt :: rest =>
      (if first then "" else ", ") ++ entry data keyInt
      ++ write_entries data rest false
  end.

(** [createStrFromJsonObj]; indexing an empty [obj] panics. *)
Definition createStrFromJsonObj (json : Json) (obj : string) : M (string + string) :=
  match obj with
  | EmptyString => os_Exit 2
  | String c _ =>
      if negb (Ascii.eqb c "{"%char) then ret (inr "object not found")
      else
        match Unmarshal_object json obj with
        | inr err => ret (inr ("error unmarshaling: " ++ err))
        | inl data =>
            match int_keys data with
            | inr err => ret (inr err)
            | inl keys => ret (inl (write_entries data (sort_Ints keys) true))
            end
        end
  end.

(** The double quote. *)
Definition quote : ascii := ascii_of_nat 34.

(** [strings.Trim(s, cutset)] with the double quote as the cutset: the
    quotes at both ends are removed, all of them. *)
Fixpoint TrimLeft (s : string) : string :=
  match s with
  | EmptyString => EmptyString
  | String c rest => if Ascii.eqb c quote then TrimLeft rest else s
  end.

Fixpoint TrimRight (s : string) : string :=
  match s with
  | EmptyString => EmptyString
  | String c rest =>
      match TrimRight rest with
      | EmptyString => if Ascii.eqb c quote then EmptyString else String c EmptyString
      | rest' => String c rest'
      end
  end.

Definition Trim (s : string) : string := TrimRight (TrimLeft s).

(** The attributes [HandleAck] prints, in its order. *)
Definition attrs (all : bool) : list string :=
  if all
  then ["device"; "firmware"; "date"; "is_on"; "sunrise"; "sunset"; "offset";
        "next_action"; "next_action_time"; "suntimes"]
  else ["date"; "is_on"; "sunrise"; "sunset"; "offset"; "next_action";
        "next_action_time"].

(** The loop [for _, attr := range attrs] of [HandleAck]. *)
Fixpoint print_status (json : Json) (data : list (string * string))
         (attributes : list string) : M (option string) :=
  match attributes with
  | [] => ret None
  | attr :: rest =>
      match lookup attr data with
      | None => print_status json data rest
      | Some val =>
          match val with
          | EmptyString => os_Exit 2
          | String c _ =>
              r <- (if Ascii.eqb c "{"%char
                    then createStrFromJsonObj json val
                    else ret (inl (Trim val))) ;;
              match r with
              | inr err => ret (Some err)
              | inl valStr =>
                  emit (Println (attr ++ ": " ++ valStr)) ;;;
                  print_status json data rest
              end
          end
      end
  end.

(** [GetStatusAckHandler{All}.HandleAck(content)] *)
Definition HandleAck (json : Json) (all : bool) (content : string) : M (option string) :=
  match Unmarshal_object json content with
  | inr err =>
      ret (Some ("unable to parse ACK JSON content '" ++ content ++ "': " ++ err))
  | inl data => print_status json data (attrs all)
  end.

(** The lines a trace prints on standard output. *)
Fixpoint lines_of (tr : list Effect) : list string :=
  match tr with
  | [] => []
  | Println s :: rest => s :: lines_of rest
  | _ :: rest => lines_of rest
  end.

(** The handler as [Command.Env] holds it: the lines and the error. *)
Definition as_env_handler (json : Json) (all : bool) (content : string)
  : list string * option string :=
  match HandleAck json all content with
  | (tr, Ret err) => (lines_of tr, err)
  | (tr, _) => (lines_of tr, None)
  end.

(** A decoder for the examples: the content is looked up in a table. *)
Fixpoint lookup_table (content : string)
         (table : list (string * list (string * string)))
  : option (list (string * string)) :=
  match table with
  | [] => None
  | (c, data) :: rest =>
      if String.eqb content c then Some data else lookup_table content rest
  end.

Definition table_json (table : list (string * list (string * string))) : Json :=
  mkJson (fun content =>
            match lookup_table content table with
            | Some data => inl data
            | None => inr "invalid character"
            end).

End GetStatus.

(** ** A sample status *)

Module StatusSample.

(** A JSON string: the text between double quotes. *)
Definition quoted (text : string) : string :=
  String GetStatus.quote (text ++ String GetStatus.quote EmptyString).

(** The suntimes of three months, as the switch sends them. *)
Definition suntimes : string :=
  "{" ++ quoted "2" ++ ":" ++ quoted "6:46 AM" ++ ","
      ++ quoted "10" ++ ":" ++ quoted "6:12 AM" ++ ","
      ++ quoted "1" ++ ":" ++ quoted "6:53 AM" ++ "}".

Definition suntimes_data : list (string * string) :=
  [("2", quoted "6:46 AM"); ("10", quoted "6:12 AM"); ("1", quoted "6:53 AM")].

(** The content of a status ack, with an attribute that the handler
    does not know. *)
Definition content : string :=
  "{" ++ quoted "suntimes" ++ ":" ++ suntimes ++ ","
      ++ quoted "is_on" ++ ":true,"
      ++ quoted "device" ++ ":" ++ quoted "esp-vorona" ++ ","
      ++ quoted "uptime" ++ ":86400,"
      ++ quoted "offset" ++ ":30,"
      ++ quoted "date" ++ ":" ++ quoted "2024-01-17" ++ "}".

Definition content_data : list (string * string) :=
  [("suntimes", suntimes); ("is_on", "true"); ("device", quoted "esp-vorona");
   ("uptime", "86400"); ("offset", "30"); ("date", quoted "2024-01-17")].

(** The same status with the fields in another order and without the
    unknown attribute. *)
Definition content' : string :=
  "{" ++ quoted "date" ++ ":" ++ quoted "2024-01-17" ++ ","
      ++ quoted "offset" ++ ":30,"
      ++ quoted "device" ++ ":" ++ quoted "esp-vorona" ++ ","
      ++ quoted "is_on" ++ ":true,"
      ++ quoted "suntimes" ++ ":" ++ suntimes ++ "}".

Definition content_data' : list (string * string) :=
  [("date", quoted "2024-01-17"); ("offset", "30");
   ("device", quoted "esp-vorona"); ("is_on", "true"); ("suntimes", suntimes)].

Definition json : GetStatus.Json :=
  GetStatus.table_json
    [(content, content_data); (content', content_data');
     (suntimes, suntimes_data)].

End StatusSample.

(** ** More worlds *)

Module Worlds.

Import Main.

(** The world with another command line. *)
Definition set_flags (f : Flags) (w : World) : World :=
  {| binaryName := binaryName w; flags := f; version := version w;
     runtime_Version := runtime_Version w; GOOS := GOOS w; GOARCH := GOARCH w;
     files := files w; os_Hostname := os_Hostname w; cmd_env := cmd_env w;
     json_Marshal := json_Marshal w;
     json_MarshalIndent := json_MarshalIndent w;
     connect_error := connect_error w; subscribe_done := subscribe_done w;
     publish_done := publish_done w; interrupt_at := interrupt_at w;
     ackCh := ackCh w; t_subscribe_wait := t_subscribe_wait w;
     t_publish_wait := t_publish_wait w; t_ack_wait := t_ack_wait w;
     pick_subscribe := pick_subscribe w; pick_publish := pick_publish w;
     pick_ack := pick_ack w |}.

(** The world with other configuration files. *)
Definition set_files (fs : Config.Files) (w : World) : World :=
  {| binaryName := binaryName w; flags := flags w; version := version w;
     runtime_Version := runtime_Version w; GOOS := GOOS w; GOARCH := GOARCH w;
     files := fs; os_Hostname := os_Hostname w; cmd_env := cmd_env w;
     json_Marshal := json_Marshal w;
     json_MarshalIndent := json_MarshalIndent w;
     connect_error := connect_error w; subscribe_done := subscribe_done w;
     publish_done := publish_done w; interrupt_at := interrupt_at w;
     ackCh := ackCh w; t_subscribe_wait := t_subscribe_wait w;
     t_publish_wait := t_publish_wait w; t_ack_wait := t_ack_wait w;
     pick_subscribe := pick_subscribe w; pick_publish := pick_publish w;
     pick_ack := pick_ack w |}.


(** No configuration file can be read. *)
Definition no_files : Config.Files :=
  Config.mkFiles (fun _ => inr "no such file or directory")
                 (fun _ => inr "unexpected end of JSON input")
                 (fun _ => inr "unexpected end of JSON input").

(** [indy-mqtt -help -version] in a directory without configuration. *)
Definition help_requested : World :=
  set_files no_files
    (set_flags (mkFlags true true false false []) (Sample.world [] [])).

(** [indy-mqtt -version] in a directory without configuration. *)
Definition version_requested : World :=
  set_files no_files
    (set_flags (mkFlags false true false false []) (Sample.world [] [])).

(** [switch on] against a broker that rejects the subscription after 1 s. *)
Definition subscription_rejected : World :=
  set_subscribe_done (Some (1 * Second, Some "not authorized"))
                     (Sample.world ["switch"; "on"] []).

(** [switch on] with a publish that fails after 2 s, while the ack of
    another invocation is already waiting. *)
Definition publish_rejected : World :=
  set_publish_done (Some (2 * Second, Some "connection lost"))
                   (Sample.world ["switch"; "on"] [(3 * Second, Sample.ok_ack)]).

(** [switch on] interrupted after 1.5 s, before the publish is confirmed. *)
Definition interrupted_early : World :=
  set_interrupt_at (Some (1500000000))
                   (Sample.world ["switch"; "on"] [(3 * Second, Sample.ok_ack)]).


(** [switch on] against a broker that never confirms the publish. *)
Definition publish_pending : World :=
  set_publish_done None (Sample.world ["switch"; "on"] []).

(** [status all] answered after 4 s with the sample status, handled by
    the handler of the [command] package. *)
Definition status_answered : World :=
  set_cmd_env
    (Command.mkEnv (Command.intn Sample.sample_env) (Command.now Sample.sample_env)
                   (Command.readSuntimes Sample.sample_env)
                   (GetStatus.as_env_handler StatusSample.json))
    (Sample.world ["status"; "all"]
       [(4 * Second,
         Message.mkAck Sample.message_id 200 "" StatusSample.content)]).

End Worlds.

(** ** Texts *)

Module Texts.

(** A letter of [a]-[z]. *)
Definition is_lower (c : ascii) : bool :=
  let n := nat_of_ascii c in ((97 <=? n) && (n <=? 122))%nat.

(** A text that starts with a letter of [a]-[z]. *)
Definition starts_lower (s : string) : bool :=
  match s with
  | EmptyString => false
  | String c _ => is_lower c
  end.

(** The last words of the topics: those of the commands and that of the
    acks. *)
Definition command_kinds : list string :=
  ["control"; "config"; "status/get"; "restart"].

Definition ack_kind : string := "ack".

End Texts.

(** * Properties *)

(** ** The identifier generator *)

Lemma small_cases (d : Z) :
  0 <= d < 16 ->
  d = 0 \/ d = 1 \/ d = 2 \/ d = 3 \/ d = 4 \/ d = 5 \/ d = 6 \/ d = 7 \/
  d = 8 \/ d = 9 \/ d = 10 \/ d = 11 \/ d = 12 \/ d = 13 \/ d = 14 \/ d = 15.
Proof. lia. Qed.

Ltac each_digit d H :=
  let C := fresh in
  pose proof (small_cases d H) as C;
  repeat (destruct C as [C | C]; [subst d; vm_compute; reflexivity | ]);
  subst d; vm_compute; reflexivity.

Lemma fmt_X_digit (d : Z) :
  0 <= d < 16 ->
  Util.fmt_X (Util.byte_of_int d) = String (Util.hex_upper d) EmptyString.
Proof. intros H. each_digit d H. Qed.

Lemma hex_value_upper (d : Z) :
  0 <= d < 16 -> Util.hex_value (Util.hex_upper d) = d.
Proof. intros H. each_digit d H. Qed.

Lemma hex_upper_is_hex (d : Z) :
  0 <= d < 16 -> Util.is_upper_hex (Util.hex_upper d) = true.
Proof. intros H. each_digit d H. Qed.

(** The suffix, digit by digit, when the random source keeps its contract. *)
Lemma GenerateHexSuffix_digits (intn : nat -> Z) :
  (forall i, (i < Util.HEX_COUNT)%nat -> 0 <= intn i < Util.HEX_BOUND) ->
  Util.GenerateHexSuffix intn =
  string_of_list_ascii
    [Util.hex_upper (intn 0%nat); Util.hex_upper (intn 1%nat);
     Util.hex_upper (intn 2%nat); Util.hex_upper (intn 3%nat);
     "-"%char;
     Util.hex_upper (intn 4%nat); Util.hex_upper (intn 5%nat);
     Util.hex_upper (intn 6%nat); Util.hex_upper (intn 7%nat)].
Proof.
  intros H.
  cbv [Util.GenerateHexSuffix Util.hexDigits Util.HEX_COUNT seq map nth].
  rewrite !fmt_X_digit by (apply H; unfold Util.HEX_COUNT; lia).
  reflexivity.
Qed.

(** C9: the message id is the client id, a dash, and a suffix [XXXX-XXXX]
    of eight upper-case hex digits, one per draw of the random source; the
    suffix determines the eight draws, so the [16^8 = 2^32] draw sequences
    give as many suffixes; generation is a total function. *)
Theorem C9_message_id_is_client_id_and_hex_suffix
  (clientID now : string) (content : Message.Content) (intn : nat -> Z)
  (Hrand : forall i, (i < Util.HEX_COUNT)%nat -> 0 <= intn i < Util.HEX_BOUND) :
  let suffix := Util.GenerateHexSuffix intn in
  let h i := Util.hex_upper (intn i) in
  Message.MessageID (Message.Header_ (Message.NewMessage intn now clientID content))
  = clientID ++ "-" ++ suffix
  /\ suffix = string_of_list_ascii
                [h 0%nat; h 1%nat; h 2%nat; h 3%nat; "-"%char;
                 h 4%nat; h 5%nat; h 6%nat; h 7%nat]
  /\ String.length suffix = 9%nat
  /\ (forall i, (i < Util.HEX_COUNT)%nat -> Util.is_upper_hex (h i) = true)
  /\ (forall intn',
        (forall i, (i < Util.HEX_COUNT)%nat -> 0 <= intn' i < Util.HEX_BOUND) ->
        Util.GenerateHexSuffix intn' = suffix ->
        forall i, (i < Util.HEX_COUNT)%nat -> intn' i = intn i)
  /\ Util.HEX_BOUND ^ Z.of_nat Util.HEX_COUNT = 2 ^ 32.
Proof.
  intros suffix h. subst suffix h.
  split; [reflexivity | ].
  split; [apply GenerateHexSuffix_digits, Hrand | ].
  split; [rewrite GenerateHexSuffix_digits by exact Hrand; reflexivity | ].
  split; [intros i Hi; apply hex_upper_is_hex, Hrand, Hi | ].
  split; [ | reflexivity].
  intros intn' Hrand' E i Hi.
  rewrite (GenerateHexSuffix_digits _ Hrand), (GenerateHexSuffix_digits _ Hrand') in E.
  simpl in E.
  rewrite <- (hex_value_upper (intn' i)), <- (hex_value_upper (intn i))
    by (apply Hrand || apply Hrand'; exact Hi).
  unfold Util.HEX_COUNT in Hi.
  injection E as E0 E1 E2 E3 E4 E5 E6 E7.
  do 8 (destruct i as [|i]; [congruence | ]).
  lia.
Qed.

(** C9 at the random source of the sample world. *)
Lemma C9_witness :
  Message.MessageID
    (Message.Header_
       (Message.NewMessage (Command.intn Sample.sample_env) "now" "laptop-indy-mqtt"
                           Message.EmptyContent))
  = "laptop-indy-mqtt-A18F-6D4B".
Proof.
  pose proof (C9_message_id_is_client_id_and_hex_suffix
                "laptop-indy-mqtt" "now" Message.EmptyContent
                (Command.intn Sample.sample_env)) as H.
  simpl in H.
  destruct H as [H _].
  - intros i Hi. unfold Util.HEX_BOUND. simpl.
    pose proof (Z.mod_pos_bound (Z.of_nat i * 7 + 10) 16). lia.
  - exact H.
Defined.

(** ** Command construction *)

(** C10: for every host, [reset] is published to the topic of [restart],
    [indy-switch/{host}/restart]; restart carries [reset = false] and reset
    carries [reset = true]; both expect no acknowledgment and use QoS 2;
    built from the same random source and clock the two commands differ in
    that content field only. *)
Theorem C10_reset_and_restart_share_topic
  (env : Command.Env) (clientID host : string) :
  exists restart reset : Command.Command,
    Command.NewCommand env clientID [host; "restart"] = inl restart
    /\ Command.NewCommand env clientID [host; "reset"] = inl reset
    /\ Command.NewRestartCommand env clientID host [] = inl restart
    /\ Command.NewResetCommand env clientID host [] = inl reset
    /\ Command.Topic restart = "indy-switch/" ++ host ++ "/restart"
    /\ Command.Topic reset = Command.Topic restart
    /\ Message.Content_ (Command.Message restart) = Message.RestartContent false
    /\ Message.Content_ (Command.Message reset) = Message.RestartContent true
    /\ Command.IsAckExpected restart = false
    /\ Command.IsAckExpected reset = false
    /\ Command.QOS restart = 2
    /\ Command.QOS reset = 2
    /\ reset = Command.mkCommand
                 (Command.Host restart) (Command.Topic restart)
                 (Command.QOS restart)
                 (Message.mkMessage (Message.Header_ (Command.Message restart))
                                    (Message.RestartContent true))
                 (Command.IsAckExpected restart) (Command.AckHandler_ restart).
Proof.
  eexists. eexists.
  repeat split; reflexivity.
Qed.

(** ** The run monad *)

Lemma bind_ext {A B} (m : M A) (k1 k2 : A -> M B) :
  (forall a, k1 a = k2 a) -> bind m k1 = bind m k2.
Proof.
  intros H. destruct m as [tr [a | c | ]]; simpl; [now rewrite H | reflexivity ..].
Qed.

Lemma bind_ret_l {A B} (a : A) (k : A -> M B) : bind (ret a) k = k a.
Proof. unfold bind, ret. now destruct (k a). Qed.

Lemma bind_nil_l {A B} (a : A) (k : A -> M B) : bind ([], Ret a) k = k a.
Proof. exact (bind_ret_l a k). Qed.

Lemma bind_Ret {A B} (tr : list Effect) (a : A) (k : A -> M B) :
  bind (tr, Ret a) k = ((tr ++ fst (k a))%list, snd (k a)).
Proof. simpl. now destruct (k a). Qed.

Lemma bind_assoc {A B C} (m : M A) (f : A -> M B) (g : B -> M C) :
  bind (bind m f) g = bind m (fun a => bind (f a) g).
Proof.
  destruct m as [tr [a | c | ]]; simpl; try reflexivity.
  destruct (f a) as [tr1 [b | c | ]]; simpl; try reflexivity.
  destruct (g b) as [tr2 r]. now rewrite app_assoc.
Qed.

(** [main] is [setup] followed by [engine]. *)
Lemma main_body_split (w : Main.World) :
  Main.main_body w
  = bind (Main.setup w) (fun p => Main.engine w (fst p) (snd p)).
Proof.
  unfold Main.main_body, Main.setup.
  repeat (rewrite bind_assoc; apply bind_ext; intros ?).
  now rewrite bind_ret_l.
Qed.

(** ** The ack listener *)

Lemma count_app (p : Effect -> bool) (l1 l2 : list Effect) :
  Outcome.count p (l1 ++ l2)%list = (Outcome.count p l1 + Outcome.count p l2)%nat.
Proof. unfold Outcome.count. now rewrite filter_app, length_app. Qed.

Lemma count_Println (p : Effect -> bool) (lines : list string) :
  (forall s, p (Println s) = false) ->
  Outcome.count p (map Println lines) = 0%nat.
Proof.
  intros H. unfold Outcome.count.
  induction lines as [|s lines IH]; simpl; [reflexivity | now rewrite H].
Qed.

Lemma In_map_Println (e : Effect) (lines : list string) :
  In e (map Println lines) -> exists s, e = Println s.
Proof.
  intros H. apply in_map_iff in H. destruct H as [s [H _]]. now exists s.
Qed.

Section Listener.

Variable w : Main.World.
Variable cmd : Command.Command.

Let mid : string := Message.MessageID (Message.Header_ (Command.Message cmd)).

(** [Command.HandleAck] returns, having called the handler at most once,
    with the content it was given. *)
Lemma HandleAck_returns (content : string) :
  exists tr err,
    Command.HandleAck (Main.cmd_env w) cmd content = (tr, Ret err)
    /\ (Outcome.count Outcome.is_handler_call tr <= 1)%nat
    /\ (forall c, In (AckHandlerCall c) tr -> c = content)
    /\ (forall all,
          Command.AckHandler_ cmd = Some (Command.GetStatusAckHandler all) ->
          let r := Command.GetStatus_HandleAck (Main.cmd_env w) all content in
          err = snd r
          /\ tr = (AckHandlerCall content :: map Println (fst r))%list).
Proof.
  unfold Command.HandleAck.
  destruct (Command.AckHandler_ cmd) as [[all] | ].
  - unfold Command.AckHandler_HandleAck.
    destruct (Command.GetStatus_HandleAck (Main.cmd_env w) all content)
      as [lines err] eqn:E.
    exists (AckHandlerCall content :: map Println lines)%list, err.
    split; [simpl; now rewrite app_nil_r | ].
    split.
    { change (AckHandlerCall content :: map Println lines)%list
        with ([AckHandlerCall content] ++ map Println lines)%list.
      rewrite count_app, count_Println by reflexivity. simpl. lia. }
    split.
    { intros c [H | H]; [now inversion H | ].
      apply In_map_Println in H. destruct H as [s H]. discriminate. }
    intros all' H. inversion H; subst all'. rewrite E. auto.
  - exists [], None.
    split; [reflexivity | ].
    split; [unfold Outcome.count; simpl; lia | ].
    split; [intros c [] | intros all H; discriminate].
Qed.

(** An ack with another id: nothing happens and the loop goes on. *)
Lemma on_ack_other_id (ack : Message.AckMessage) :
  Message.ID ack <> mid ->
  Main.on_ack w cmd ack = ([], Ret false).
Proof.
  intros H. unfold Main.on_ack.
  apply String.eqb_neq in H. fold mid. now rewrite H.
Qed.

(** The ack with the id of the command: what the listener reports, and
    that it then closes [acked]. *)
Lemma on_ack_same_id (ack : Message.AckMessage) :
  Message.ID ack = mid ->
  exists tr,
    Main.on_ack w cmd ack = (tr, Ret true)
    /\ (Message.StatusCode ack = Main.STATUS_CODE_OK ->
        exists rest,
          tr = Outcome.acknowledged_report :: rest
          /\ (Outcome.count Outcome.is_handler_call rest <= 1)%nat
          /\ (forall c, In (AckHandlerCall c) rest -> c = Message.AckContent ack))
    /\ (Message.StatusCode ack <> Main.STATUS_CODE_OK ->
        tr = [Outcome.ack_error_report ack]).
Proof.
  intros H. unfold Main.on_ack. fold mid. rewrite H, String.eqb_refl.
  destruct (Message.StatusCode ack =? Main.STATUS_CODE_OK) eqn:Ecode.
  - apply Z.eqb_eq in Ecode.
    destruct (HandleAck_returns (Message.AckContent ack))
      as (htr & err & Eh & Hcount & Hin & _).
    rewrite Eh.
    set (msg := if (0 <? String.length (Message.Message_ ack))%nat
                then [Println (Message.Message_ ack)] else []).
    set (etr := match err with
                | Some e => [Printf ERROR "Failed to handle ack: %v" [AStr e]]
                | None => []
                end).
    exists (Outcome.acknowledged_report :: msg ++ htr ++ etr)%list.
    split.
    { subst msg etr. unfold Outcome.acknowledged_report.
      destruct (0 <? String.length (Message.Message_ ack))%nat, err;
        simpl; rewrite ?app_nil_r; reflexivity. }
    split; [ | congruence].
    intros _. eexists. split; [reflexivity | ].
    assert (Hmsg : Outcome.count Outcome.is_handler_call msg = 0%nat)
      by (subst msg; now destruct (0 <? _)%nat).
    assert (Hetr : Outcome.count Outcome.is_handler_call etr = 0%nat)
      by (subst etr; now destruct err).
    split.
    + rewrite !count_app, Hmsg, Hetr. lia.
    + intros c Hc. apply in_app_or in Hc. destruct Hc as [Hc | Hc].
      { subst msg. destruct (0 <? _)%nat; simpl in Hc;
          [destruct Hc as [Hc | []]; discriminate | contradiction]. }
      apply in_app_or in Hc. destruct Hc as [Hc | Hc]; [now apply Hin | ].
      subst etr. destruct err; simpl in Hc;
        [destruct Hc as [Hc | []]; discriminate | contradiction].
  - apply Z.eqb_neq in Ecode.
    exists [Outcome.ack_error_report ack]. split; [reflexivity | ].
    split; [congruence | reflexivity].
Qed.

End Listener.

(** ** [select] *)

Section SelectFacts.

Context {C : Type}.
Implicit Types (cases : list (C * option Z)) (c : C * option Z).

Lemma earliest_none start cases :
  Main.earliest start cases = None ->
  forall c, In c cases -> Main.ready_time start c = None.
Proof.
  induction cases as [|c0 cases IH]; intros E c Hin; [contradiction | ].
  simpl in E.
  destruct (Main.ready_time start c0) eqn:E0;
    destruct (Main.earliest start cases); try discriminate.
  destruct Hin as [<- | Hin]; [exact E0 | now apply IH].
Qed.

Lemma earliest_le start cases fired :
  Main.earliest start cases = Some fired ->
  forall c t, In c cases -> Main.ready_time start c = Some t -> fired <= t.
Proof.
  revert fired. induction cases as [|c0 cases IH]; intros fired E c t Hin Hc.
  - contradiction.
  - simpl in E.
    destruct (Main.ready_time start c0) as [t0|] eqn:E0;
      destruct (Main.earliest start cases) as [t1|] eqn:E1;
      try discriminate.
    + injection E as <-. destruct Hin as [<- | Hin].
      * rewrite E0 in Hc. injection Hc as <-. lia.
      * specialize (IH _ eq_refl _ _ Hin Hc). lia.
    + injection E as <-. destruct Hin as [<- | Hin].
      * rewrite E0 in Hc. injection Hc as <-. lia.
      * rewrite (earliest_none _ _ E1 _ Hin) in Hc. discriminate.
    + destruct Hin as [<- | Hin]; [congruence | ].
      exact (IH _ E _ _ Hin Hc).
Qed.

Lemma earliest_attained start cases fired :
  Main.earliest start cases = Some fired ->
  exists c, In c cases /\ Main.ready_time start c = Some fired.
Proof.
  revert fired. induction cases as [|c0 cases IH]; intros fired E.
  - discriminate.
  - simpl in E.
    destruct (Main.ready_time start c0) as [t0|] eqn:E0;
      destruct (Main.earliest start cases) as [t1|] eqn:E1;
      try discriminate.
    + injection E as <-.
      destruct (Z.min_spec t0 t1) as [[_ ->] | [_ ->]].
      * exists c0. split; [now left | exact E0].
      * destruct (IH _ eq_refl) as (c & Hin & Hc). exists c. split; [now right | exact Hc].
    + injection E as <-. exists c0. split; [now left | exact E0].
    + destruct (IH _ E) as (c & Hin & Hc). exists c. split; [now right | exact Hc].
Qed.

Lemma earliest_some start cases c t :
  In c cases -> Main.ready_time start c = Some t ->
  exists fired, Main.earliest start cases = Some fired.
Proof.
  induction cases as [|c0 cases IH]; intros Hin Hc; [contradiction | ].
  simpl. destruct Hin as [-> | Hin].
  - rewrite Hc. destruct (Main.earliest start cases); eauto.
  - destruct (IH Hin Hc) as [f ->].
    destruct (Main.ready_time start c0); eauto.
Qed.

(** The case that fires is one of the cases, ready at the instant of
    firing, and no case is ready before. *)
Lemma select_fires start cases pick label fired :
  Main.select start cases pick = Some (label, fired) ->
  (exists r, In (label, r) cases
             /\ Main.ready_time start (label, r) = Some fired)
  /\ (forall c t, In c cases -> Main.ready_time start c = Some t -> fired <= t).
Proof.
  unfold Main.select. intros H.
  destruct (Main.earliest start cases) as [f|] eqn:E; [ | discriminate].
  destruct (nth_error _ _) as [[l r]|] eqn:En; [ | discriminate].
  injection H as -> ->.
  split; [ | exact (earliest_le _ _ _ E)].
  apply nth_error_In, filter_In in En. destruct En as [Hin Hr].
  exists r. split; [exact Hin | ].
  unfold Main.ready_by in Hr.
  destruct (Main.ready_time start (label, r)) as [t|] eqn:Et; [ | discriminate].
  apply Z.leb_le in Hr.
  pose proof (earliest_le _ _ _ E _ _ Hin Et). f_equal. lia.
Qed.

(** A [select] with a case that becomes ready does not block. *)
Lemma select_returns start cases pick c t :
  In c cases -> Main.ready_time start c = Some t ->
  exists label fired, Main.select start cases pick = Some (label, fired).
Proof.
  intros Hin Hc. unfold Main.select.
  destruct (earliest_some _ _ _ _ Hin Hc) as [f E]. rewrite E.
  destruct (earliest_attained _ _ _ E) as (c1 & Hin1 & Hc1).
  set (ready := filter (Main.ready_by start f) cases).
  assert (Hne : In c1 ready).
  { apply filter_In. split; [exact Hin1 | ].
    unfold Main.ready_by. rewrite Hc1. apply Z.leb_refl. }
  assert (Hlen : (pick mod List.length ready < List.length ready)%nat).
  { apply Nat.mod_upper_bound. destruct ready; [contradiction | discriminate]. }
  apply nth_error_Some in Hlen.
  destruct (nth_error ready (pick mod List.length ready)) as [[l r]|];
    [eauto | congruence].
Qed.

End SelectFacts.

(** ** Runs of the listener *)

Section ListenerRuns.

Variable w : Main.World.
Variable cmd : Command.Command.

Let mid : string := Message.MessageID (Message.Header_ (Command.Message cmd)).
Let other (a : Z * Message.AckMessage) : Prop := Message.ID (snd a) <> mid.

Lemma listener_other_ids (acks : list (Z * Message.AckMessage)) :
  Forall other acks -> Main.listener w cmd acks = ([], Ret None).
Proof.
  induction 1 as [|[t ack] acks H _ IH]; [reflexivity | ].
  simpl. rewrite (on_ack_other_id w cmd ack H). simpl. now rewrite IH.
Qed.

Lemma listener_skip pre t ack post :
  Message.ID ack <> mid ->
  Main.listener w cmd (pre ++ (t, ack) :: post)%list
  = Main.listener w cmd (pre ++ post)%list.
Proof.
  intros H. induction pre as [|[t0 a0] pre IH]; simpl.
  - rewrite (on_ack_other_id w cmd ack H). simpl.
    now destruct (Main.listener w cmd post).
  - apply bind_ext. intros []; [reflexivity | exact IH].
Qed.

Lemma listener_first_match pre t ack post :
  Forall other pre -> Message.ID ack = mid ->
  Main.listener w cmd (pre ++ (t, ack) :: post)%list
  = (fst (Main.on_ack w cmd ack), Ret (Some t)).
Proof.
  intros Hpre H. induction Hpre as [|[t0 a0] pre H0 _ IH]; simpl.
  - destruct (on_ack_same_id w cmd ack H) as (tr & -> & _). simpl.
    now rewrite app_nil_r.
  - rewrite (on_ack_other_id w cmd a0 H0). simpl. now rewrite IH.
Qed.

(** Either every ack has another id, or there is a first one with the id
    of the command. *)
Lemma acks_first_match (acks : list (Z * Message.AckMessage)) :
  Forall other acks
  \/ exists pre t ack post,
       acks = (pre ++ (t, ack) :: post)%list
       /\ Forall other pre /\ Message.ID ack = mid.
Proof.
  induction acks as [|[t ack] acks IH]; [left; constructor | ].
  destruct (string_dec (Message.ID ack) mid) as [E | N].
  - right. exists [], t, ack, acks. repeat split; [constructor | exact E].
  - destruct IH as [IH | (pre & t1 & a1 & post & -> & Hpre & E)].
    + left. constructor; assumption.
    + right. exists ((t, ack) :: pre)%list, t1, a1, post.
      repeat split; [constructor; assumption | exact E].
Qed.

(** The listener never ends the process and never blocks it. *)
Lemma listener_returns (acks : list (Z * Message.AckMessage)) :
  exists r, snd (Main.listener w cmd acks) = Ret r.
Proof.
  destruct (acks_first_match acks) as [H | (pre & t & ack & post & -> & Hp & E)].
  - rewrite (listener_other_ids _ H). now exists None.
  - rewrite (listener_first_match _ _ _ _ Hp E). now exists (Some t).
Qed.

(** The listener calls the handler at most once, whatever arrives. *)
Lemma listener_handler_once (acks : list (Z * Message.AckMessage)) :
  (Outcome.count Outcome.is_handler_call (fst (Main.listener w cmd acks)) <= 1)%nat.
Proof.
  destruct (acks_first_match acks) as [H | (pre & t & ack & post & -> & Hp & E)].
  - rewrite (listener_other_ids _ H). unfold Outcome.count. simpl. lia.
  - rewrite (listener_first_match _ _ _ _ Hp E). simpl.
    destruct (on_ack_same_id w cmd ack E) as (tr & -> & Hok & Hko). simpl.
    destruct (Z.eq_dec (Message.StatusCode ack) Main.STATUS_CODE_OK) as [C | C].
    + destruct (Hok C) as (rest & -> & Hc & _).
      change (Outcome.acknowledged_report :: rest)%list
        with ([Outcome.acknowledged_report] ++ rest)%list.
      rewrite count_app. unfold Outcome.count at 1. simpl. exact Hc.
    + rewrite (Hko C). unfold Outcome.count. simpl. lia.
Qed.

End ListenerRuns.

(** The listener reads nothing of the world but the handler. *)
Lemma listener_set_ackCh (acks acks' : list (Z * Message.AckMessage))
      (w : Main.World) (cmd : Command.Command) :
  Main.listener (Main.set_ackCh acks' w) cmd acks = Main.listener w cmd acks.
Proof.
  induction acks as [|[t ack] acks IH]; [reflexivity | ].
  simpl. rewrite IH. reflexivity.
Qed.

(** The engine sees [ackCh] through the listener only. *)
Lemma engine_set_ackCh (acks1 acks2 : list (Z * Message.AckMessage))
      (w : Main.World) (cmd : Command.Command) (bytes : string) :
  Main.listener w cmd acks1 = Main.listener w cmd acks2 ->
  Main.engine (Main.set_ackCh acks1 w) cmd bytes
  = Main.engine (Main.set_ackCh acks2 w) cmd bytes.
Proof.
  intros H. unfold Main.engine, Main.ack_wait, Main.publish_wait.
  cbn [Main.set_ackCh Main.ackCh Main.t_ack_wait Main.t_publish_wait
       Main.publish_done Main.interrupt_at Main.pick_publish Main.pick_ack].
  now rewrite !listener_set_ackCh, H.
Qed.

(** ** The two waits of the engine *)

Lemma publish_wait_cases (w : Main.World) :
  Main.publish_wait w = ([Outcome.published_report], Ret true)
  \/ (exists err,
        Main.publish_wait w = ([Outcome.publish_failed_report err], Ret false))
  \/ Main.publish_wait w = ([Outcome.interrupt_report], Ret false)
  \/ Main.publish_wait w = ([], Blocked).
Proof.
  unfold Main.publish_wait.
  destruct (Main.select _ _ _) as [[[] t]|].
  - destruct (Main.publish_done w) as [[t' [e|]]|].
    + right; left. now exists e.
    + now left.
    + now left.
  - right; right; left. reflexivity.
  - right; right; right. reflexivity.
Qed.

Section AckWait.

Variable w : Main.World.
Variable cmd : Command.Command.

Let start : Z := Main.t_ack_wait w.
Let deadline : Z := start + Main.TIMEOUT.
Let l : M (option Z) := Main.listener w cmd (Main.ackCh w).

Let cases : list (Main.AckCase * option Z) :=
  [(Main.CaseAcked, Main.acked_at l);
   (Main.CaseAckTimer, Some deadline);
   (Main.CaseAckInterrupt, Main.interrupt_at w)].

Lemma ack_wait_unfold :
  Main.ack_wait w cmd
  = match Main.select start cases (Main.pick_ack w) with
    | None => ([Outcome.watching_report], Blocked)
    | Some (c, fired) =>
        (Outcome.watching_report
           :: (if Main.ready_by start fired (Main.CaseAcked, Main.acked_at l)
               then fst l else [])
           ++ match c with
              | Main.CaseAcked => []
              | Main.CaseAckTimer => [Outcome.ack_timeout_report]
              | Main.CaseAckInterrupt => [Outcome.interrupt_report]
              end, Ret tt)%list
    end.
Proof.
  unfold Main.ack_wait. fold l start. fold deadline. fold cases.
  destruct (Main.select start cases (Main.pick_ack w)) as [[c fired]|];
    [ | reflexivity].
  destruct (Main.ready_by start fired (Main.CaseAcked, Main.acked_at l)), c;
    simpl; rewrite ?app_nil_r; reflexivity.
Qed.

Lemma timer_ready : Main.ready_time start (Main.CaseAckTimer, Some deadline) = Some deadline.
Proof.
  unfold Main.ready_time. simpl. f_equal.
  subst deadline. unfold Main.TIMEOUT, Main.Second. lia.
Qed.

(** The wait for the ack always ends: the timer is one of its cases. *)
Lemma ack_wait_returns : snd (Main.ack_wait w cmd) = Ret tt.
Proof.
  rewrite ack_wait_unfold.
  destruct (select_returns start cases (Main.pick_ack w)
              (Main.CaseAckTimer, Some deadline) deadline) as (c & f & ->);
    [right; left; reflexivity | exact timer_ready | reflexivity].
Qed.

(** With no ack of the command and no interrupt up to the deadline, the
    timer fires. *)
Lemma ack_wait_times_out :
  (forall t, Main.acked_at l = Some t -> deadline < t) ->
  (forall t, Main.interrupt_at w = Some t -> deadline < t) ->
  Main.ack_wait w cmd
  = ([Outcome.watching_report; Outcome.ack_timeout_report], Ret tt).
Proof.
  intros Hack Hint. rewrite ack_wait_unfold.
  destruct (select_returns start cases (Main.pick_ack w)
              (Main.CaseAckTimer, Some deadline) deadline) as (c & f & E);
    [right; left; reflexivity | exact timer_ready | ].
  rewrite E. apply select_fires in E. destruct E as [(r & Hin & Hr) Hmin].
  assert (Hf : f <= deadline).
  { apply (Hmin (Main.CaseAckTimer, Some deadline));
      [right; left; reflexivity | exact timer_ready]. }
  assert (Hnot : Main.ready_by start f (Main.CaseAcked, Main.acked_at l) = false).
  { unfold Main.ready_by, Main.ready_time. simpl.
    destruct (Main.acked_at l) as [t|] eqn:Et; [ | reflexivity].
    simpl. apply Z.leb_gt. specialize (Hack t eq_refl). lia. }
  rewrite Hnot.
  destruct Hin as [Hin | [Hin | [Hin | []]]]; injection Hin as <- <-.
  - exfalso. unfold Main.ready_time in Hr. simpl in Hr.
    destruct (Main.acked_at l) as [t|]; [ | discriminate].
    specialize (Hack t eq_refl). simpl in Hr. injection Hr as Hr. lia.
  - reflexivity.
  - exfalso. unfold Main.ready_time in Hr. simpl in Hr.
    destruct (Main.interrupt_at w) as [t|]; [ | discriminate].
    specialize (Hint t eq_refl). simpl in Hr. injection Hr as Hr. lia.
Qed.

(** With the ack of the command received before the deadline and before
    any interrupt, the listener's close of [acked] fires. *)
Lemma ack_wait_acked (t : Z) :
  Main.acked_at l = Some t ->
  Z.max start t < deadline ->
  (forall ti, Main.interrupt_at w = Some ti -> Z.max start t < ti) ->
  Main.ack_wait w cmd = ((Outcome.watching_report :: fst l)%list, Ret tt).
Proof.
  intros Hack Hdead Hint. rewrite ack_wait_unfold.
  assert (Hready : Main.ready_time start (Main.CaseAcked, Main.acked_at l)
                   = Some (Z.max start t))
    by (unfold Main.ready_time; simpl; now rewrite Hack).
  destruct (select_returns start cases (Main.pick_ack w)
              (Main.CaseAckTimer, Some deadline) deadline) as (c & f & E);
    [right; left; reflexivity | exact timer_ready | ].
  rewrite E. apply select_fires in E. destruct E as [(r & Hin & Hr) Hmin].
  assert (Hf : f <= Z.max start t)
    by (apply (Hmin (Main.CaseAcked, Main.acked_at l));
        [left; reflexivity | exact Hready]).
  destruct Hin as [Hin | [Hin | [Hin | []]]]; injection Hin as <- <-.
  - rewrite Hready in Hr. injection Hr as <-.
    unfold Main.ready_by. rewrite Hready, Z.leb_refl.
    now rewrite app_nil_r.
  - exfalso. rewrite timer_ready in Hr. injection Hr as <-. lia.
  - exfalso. unfold Main.ready_time in Hr. simpl in Hr.
    destruct (Main.interrupt_at w) as [ti|]; [ | discriminate].
    specialize (Hint ti eq_refl). simpl in Hr. injection Hr as Hr. lia.
Qed.

(** In every case the wait reports that it watches, then what the
    listener did by the instant of firing, then how it ended. *)
Lemma ack_wait_trace :
  exists heard ended,
    Main.ack_wait w cmd
    = ((Outcome.watching_report :: heard ++ ended)%list, Ret tt)
    /\ (heard = [] \/ heard = fst l)
    /\ (ended = [] \/ ended = [Outcome.ack_timeout_report]
        \/ ended = [Outcome.interrupt_report]).
Proof.
  rewrite ack_wait_unfold.
  destruct (select_returns start cases (Main.pick_ack w)
              (Main.CaseAckTimer, Some deadline) deadline) as (c & f & ->);
    [right; left; reflexivity | exact timer_ready | ].
  eexists. eexists. split; [reflexivity | ].
  split; [destruct (Main.ready_by _ _ _); auto | destruct c; auto].
Qed.

End AckWait.

(** ** Session setup *)

Lemma LoadConfig_cases (fs : Config.Files) :
  (exists h p u pw,
      Config.LoadConfig fs
      = ([], Ret (Config.mkConfig (Config.mkRegular (Some h) (Some p))
                                  (Config.mkSecrets (Some u) (Some pw)))))
  \/ (exists format args,
        Config.LoadConfig fs = ([Printf ERROR format args], Exit 1)
        /\ In format Outcome.fatal_formats).
Proof.
  unfold Config.LoadConfig, Config.loadConfig, Outcome.fatal_formats.
  destruct (Config.ReadFile fs "internal/config/config.json") as [b1 | e1];
    [ | right; eexists; eexists; split; [reflexivity | simpl; tauto]].
  destruct (Config.Unmarshal_regular fs b1) as [[[h|] [p|]] | e2];
    try (right; eexists; eexists; split; [reflexivity | simpl; tauto]).
  destruct (Config.ReadFile fs "internal/config/config-secrets.json") as [b2 | e3];
    [ | right; eexists; eexists; split; [reflexivity | simpl; tauto]].
  destruct (Config.Unmarshal_secrets fs b2) as [[[u|] [pw|]] | e4];
    try (right; eexists; eexists; split; [reflexivity | simpl; tauto]).
  left. now exists h, p, u, pw.
Qed.

Section Connect.

Variable w : Main.World.
Variables (h : string) (p : Z) (u pw : string).
Variables (clientID host : string).

Let config : Config.Config :=
  Config.mkConfig (Config.mkRegular (Some h) (Some p))
                  (Config.mkSecrets (Some u) (Some pw)).
Let brokerUrl : string := "ssl://" ++ h ++ ":" ++ Main.fmt_d p.
Let ackTopic : string := "indy-switch/" ++ host ++ "/ack".
Let dial : list Effect :=
  [Printf INFO "Connecting to '%s' as user '%s' with client ID '%s'"
          [AStr brokerUrl; AStr u; AStr clientID];
   Connect brokerUrl clientID u pw].

Let timed_out : Effect :=
  Printf ERROR "Timed out while waiting to subscribe to '%s'" [AStr ackTopic].

(** A failed connection is returned as an error, with nothing else done. *)
Lemma connect_refused (isAckExpected : bool) (err : string) :
  Main.connect_error w = Some err ->
  Main.connect w config clientID isAckExpected host = (dial, Ret (inr err)).
Proof. intros E. unfold Main.connect. simpl. now rewrite E. Qed.

(** Without an expected ack, [connect] returns the client at once. *)
Lemma connect_no_ack :
  Main.connect_error w = None ->
  Main.connect w config clientID false host
  = ((dial ++ [Printf INFO "Connection established" []])%list,
     Ret (inl (Main.mkClient brokerUrl clientID))).
Proof. intros E. unfold Main.connect. simpl. now rewrite E. Qed.

(** With an expected ack, [connect] subscribes, waits, and returns the
    client with a nil error in either case of the [select]: after the
    confirmation, or after the timer with the time-out logged. *)
Lemma connect_ack :
  Main.connect_error w = None ->
  exists waited,
    Main.connect w config clientID true host
    = ((dial ++ [Printf INFO "Connection established" [];
                 Printf INFO "Subscribing to '%s'" [AStr ackTopic];
                 Subscribe ackTopic Main.ACK_QOS] ++ waited)%list,
       Ret (inl (Main.mkClient brokerUrl clientID)))
    /\ (exists fired,
          waited = Main.subscribe_waiter_log ackTopic w fired
          \/ waited = (Main.subscribe_waiter_log ackTopic w fired ++ [timed_out])%list).
Proof.
  intros E. unfold Main.connect, config.
  cbn [Config.regular Config.secrets Config.Hostname Config.Port
       Config.Username Config.Password Main.deref].
  rewrite !bind_ret_l, E. fold brokerUrl ackTopic.
  set (start := Main.t_subscribe_wait w).
  set (cases := [(Main.CaseSubscribed, Main.subscribed_at ackTopic w);
                 (Main.CaseSubscribeTimer, Some (start + Main.TIMEOUT))]).
  destruct (select_returns start cases (Main.pick_subscribe w)
              (Main.CaseSubscribeTimer, Some (start + Main.TIMEOUT))
              (start + Main.TIMEOUT)) as (c & f & ->).
  { right; left; reflexivity. }
  { unfold Main.ready_time. simpl. f_equal.
    unfold Main.TIMEOUT, Main.Second. lia. }
  destruct c; simpl; rewrite ?app_nil_r;
    (eexists; split; [reflexivity | exists f; auto]).
Qed.

End Connect.

Lemma waiter_log_plain (w : Main.World) (ackTopic : string) (fired : Z) (p : Effect -> bool) :
  (forall l f a, p (Printf l f a) = false) ->
  Outcome.count p (Main.subscribe_waiter_log ackTopic w fired) = 0%nat.
Proof.
  intros H. unfold Main.subscribe_waiter_log, Main.subscribe_waiter.
  destruct (Main.subscribe_done w) as [[t [e|]]|]; try reflexivity;
    destruct (_ <=? _); unfold Outcome.count; simpl; now rewrite ?H.
Qed.

Lemma waiter_log_quiet (w : Main.World) (ackTopic : string) (fired : Z) :
  forallb Outcome.quiet (Main.subscribe_waiter_log ackTopic w fired) = true.
Proof.
  unfold Main.subscribe_waiter_log, Main.subscribe_waiter.
  destruct (Main.subscribe_done w) as [[t [e|]]|]; try reflexivity;
    destruct (_ <=? _); reflexivity.
Qed.

Lemma setup_cases (w : Main.World) :
  Outcome.setup_connected w (Main.setup w)
  \/ Outcome.setup_exit0 (Main.setup w)
  \/ Outcome.setup_fatal w (Main.setup w).
Proof.
  unfold Main.setup, Main.parseCommandLine.
  destruct (Main.help (Main.flags w)) eqn:Eh.
  { right; left. exists [], Usage. repeat split. now left. }
  destruct (Main.version_flag (Main.flags w)) eqn:Ev.
  { right; left. eexists [], _. repeat split. right. eexists. reflexivity. }
  cbv iota. rewrite bind_ret_l.
  destruct (LoadConfig_cases (Main.files w))
    as [(h & p & u & pw & ->) | (f & a & -> & Hf)].
  2:{ right; right. exists [], f, a. repeat split; auto. }
  rewrite bind_nil_l.
  destruct (Main.os_Hostname w) as [hn | e].
  2:{ right; right. eexists [], _, _. split; [reflexivity | ].
      split; [simpl; tauto | ]. split; auto. }
  rewrite bind_ret_l.
  destruct (Command.NewCommand _ _ _) as [cmd | err].
  2:{ right; left. eexists [_], Usage. repeat split. now left. }
  rewrite bind_ret_l.
  set (clientID := hn ++ "-" ++ Main.binaryName w).
  destruct (Main.connect_error w) as [ce|] eqn:Ece.
  { rewrite (connect_refused w h p u pw clientID (Command.Host cmd) _ _ Ece).
    right; right. eexists [_; _], _, _. split; [reflexivity | ].
    split; [simpl; tauto | ]. split; [reflexivity | ].
    right; left. congruence. }
  assert (Hc : exists ctr client,
             Main.connect w
               (Config.mkConfig (Config.mkRegular (Some h) (Some p))
                                (Config.mkSecrets (Some u) (Some pw)))
               clientID (Command.IsAckExpected cmd) (Command.Host cmd)
             = (ctr, Ret (inl client))
             /\ Outcome.count Outcome.is_connect ctr = 1%nat
             /\ Outcome.count Outcome.is_disconnect ctr = 0%nat
             /\ Outcome.count Outcome.is_publish ctr = 0%nat
             /\ Outcome.count Outcome.is_handler_call ctr = 0%nat
             /\ forallb Outcome.quiet ctr = true
             /\ (Command.IsAckExpected cmd = false ->
                 Outcome.count Outcome.is_subscribe ctr = 0%nat)).
  { destruct (Command.IsAckExpected cmd).
    - destruct (connect_ack w h p u pw clientID (Command.Host cmd) Ece)
        as (waited & E1 & fired & Hw).
      eexists. eexists. split; [exact E1 | ].
      assert (Hplain : forall q, (forall l f a, q (Printf l f a) = false) ->
                                 Outcome.count q waited = 0%nat).
      { intros q Hq. destruct Hw as [-> | ->].
        - now apply waiter_log_plain.
        - rewrite count_app, waiter_log_plain by exact Hq.
          unfold Outcome.count. simpl. now rewrite Hq. }
      assert (Hquiet : forallb Outcome.quiet waited = true).
      { destruct Hw as [-> | ->].
        - apply waiter_log_quiet.
        - rewrite forallb_app, waiter_log_quiet. reflexivity. }
      rewrite !count_app, !Hplain by reflexivity.
      rewrite !forallb_app, Hquiet.
      repeat split; try reflexivity. discriminate.
    - rewrite (connect_no_ack w h p u pw clientID (Command.Host cmd) Ece).
      eexists. eexists. split; [reflexivity | ].
      repeat split; reflexivity. }
  destruct Hc as (ctr & client & -> & Hc1 & Hc2 & Hc3 & Hc4 & Hc5 & Hc6).
  rewrite bind_Ret, bind_ret_l.
  destruct (Main.json_Marshal w (Command.Message cmd)) as [bytes | merr].
  2:{ right; right. eexists ctr, _, _. split; [reflexivity | ].
      split; [simpl; tauto | ]. split; [exact Hc2 | ].
      right; right. repeat split; auto. simpl; tauto. }
  rewrite bind_ret_l.
  destruct (Main.verbose (Main.flags w)).
  - unfold Main.marshalToJSONString.
    destruct (Main.json_MarshalIndent w (Command.Message cmd)) as [pretty | ierr].
    + left. eexists. exists cmd, bytes. split; [simpl; reflexivity | ].
      rewrite !count_app, !forallb_app, Hc1, Hc2, Hc3, Hc4, Hc5.
      repeat split; try reflexivity; try assumption.
      intros Ha. rewrite (Hc6 Ha). reflexivity.
    + right; right.
      eexists (ctr ++ [_])%list, _, _. split.
      { simpl. rewrite <- app_assoc. reflexivity. }
      split; [simpl; tauto | ].
      rewrite !count_app, Hc1, Hc2.
      split; [reflexivity | ].
      right; right. repeat split; auto. simpl; tauto.
  - left. exists ctr, cmd, bytes. split; [simpl; now rewrite !app_nil_r | ].
    repeat split; assumption.
Qed.

(** ** The engine *)





Section Engine.

Variable w : Main.World.
Variable cmd : Command.Command.
Variable bytes : string.

Let publish : Effect :=
  Publish (Command.Topic cmd) (Command.QOS cmd) false bytes.
Let closing : list Effect :=
  [Disconnect Main.DISCONNECT_WAIT; Outcome.disconnected_report].

Lemma engine_unfold :
  Main.engine w cmd bytes
  = match Main.publish_wait w with
    | (ptr, Ret publishSuccess) =>
        ((publish :: ptr
            ++ (if Command.IsAckExpected cmd && publishSuccess
                then fst (Main.ack_wait w cmd) else [])
            ++ closing)%list, Ret tt)
    | (ptr, Exit c) => ((publish :: ptr)%list, Exit c)
    | (ptr, Blocked) => ((publish :: ptr)%list, Blocked)
    end.
Proof.
  unfold Main.engine.
  destruct (Main.publish_wait w) as [ptr [b | c | ]]; try reflexivity.
  simpl.
  destruct (Command.IsAckExpected cmd && b).
  - pose proof (ack_wait_returns w cmd) as Hr.
    destruct (Main.ack_wait w cmd) as [atr r]. simpl in Hr. subst r.
    reflexivity.
  - reflexivity.
Qed.


End Engine.

(** ** The whole invocation *)

Lemma spec_outcome_quiet (pre tr : list Effect) :
  forallb Outcome.quiet pre = true ->
  Outcome.spec_outcome (pre ++ tr) = Outcome.spec_outcome tr.
Proof.
  induction pre as [|e pre IH]; simpl; [reflexivity | ].
  intros H. apply andb_prop in H. destruct H as [He Hpre].
  rewrite (IH Hpre). unfold Outcome.quiet in He.
  destruct (Outcome.report e); [discriminate | ].
  apply negb_true_iff in He. rewrite He.
  now destruct (Outcome.spec_outcome tr).
Qed.

Lemma main_unfold (w : Main.World) :
  Main.main w = (fst (Main.main_body w), Main.status_of (snd (Main.main_body w))).
Proof.
  unfold Main.main. now destruct (Main.main_body w) as [tr [[] | c | ]].
Qed.

(** Once [setup] has returned, [main] is the engine. *)
Lemma main_connected (w : Main.World) tr0 cmd bytes :
  Main.setup w = (tr0, Ret (cmd, bytes)) ->
  Main.main w
  = ((tr0 ++ fst (Main.engine w cmd bytes))%list,
     Main.status_of (snd (Main.engine w cmd bytes))).
Proof.
  intros E. rewrite main_unfold, main_body_split, E, bind_Ret. reflexivity.
Qed.

(** Otherwise [main] ends where [setup] ends. *)
Lemma main_not_connected (w : Main.World) tr code :
  Main.setup w = (tr, Exit code) -> Main.main w = (tr, Main.Exited code).
Proof.
  intros E. rewrite main_unfold, main_body_split, E. reflexivity.
Qed.

Lemma setup_set_ackCh (acks : list (Z * Message.AckMessage)) (w : Main.World) :
  Main.setup (Main.set_ackCh acks w) = Main.setup w.
Proof. reflexivity. Qed.

(** ** The claims about acknowledgments *)

(** C2: an ack whose id differs from the message id of the command is
    discarded by the listener, which reports nothing, calls nothing an
    error, and goes on receiving; the whole invocation is the same with and
    without such an ack on the channel; and while only such acks arrive the
    listener has reported nothing, is still receiving, and [acked] stays
    open. *)
Theorem C2_acks_with_other_ids_are_ignored
  (w : Main.World) (cmd : Command.Command) (ack : Message.AckMessage)
  (Hid : Message.ID ack
         <> Message.MessageID (Message.Header_ (Command.Message cmd))) :
  Main.on_ack w cmd ack = ([], Ret false)
  /\ (forall pre t post,
        Main.listener w cmd (pre ++ (t, ack) :: post)%list
        = Main.listener w cmd (pre ++ post)%list)
  /\ (forall pre t post bytes,
        Main.engine (Main.set_ackCh (pre ++ (t, ack) :: post)%list w) cmd bytes
        = Main.engine (Main.set_ackCh (pre ++ post)%list w) cmd bytes)
  /\ (forall pre t post tr0 bytes,
        Main.setup w = (tr0, Ret (cmd, bytes)) ->
        Main.main (Main.set_ackCh (pre ++ (t, ack) :: post)%list w)
        = Main.main (Main.set_ackCh (pre ++ post)%list w))
  /\ (forall acks,
        Forall (fun a => Message.ID (snd a)
                         <> Message.MessageID
                              (Message.Header_ (Command.Message cmd))) acks ->
        Main.listener w cmd acks = ([], Ret None)
        /\ Main.acked_at (Main.listener w cmd acks) = None
        /\ Outcome.spec_outcome (fst (Main.listener w cmd acks)) = None).
Proof.
  split; [exact (on_ack_other_id w cmd ack Hid) | ].
  split; [intros; now apply listener_skip | ].
  split; [intros; apply engine_set_ackCh; now apply listener_skip | ].
  split.
  - intros pre t post tr0 bytes E.
    rewrite (main_connected (Main.set_ackCh (pre ++ (t, ack) :: post) w) tr0 cmd bytes)
      by (rewrite setup_set_ackCh; exact E).
    rewrite (main_connected (Main.set_ackCh (pre ++ post) w) tr0 cmd bytes)
      by (rewrite setup_set_ackCh; exact E).
    rewrite (engine_set_ackCh (pre ++ (t, ack) :: post) (pre ++ post))
      by now apply listener_skip.
    reflexivity.
  - intros acks H. rewrite (listener_other_ids w cmd acks H). auto.
Qed.

(** C2 on the sample world: a stale ack before the ack of [switch on]. *)
Lemma C2_witness :
  Main.main (Main.set_ackCh [(3 * Main.Second, Sample.stale_ack);
                             (4 * Main.Second, Sample.ok_ack)]
                            (Sample.world ["switch"; "on"] []))
  = Main.main (Main.set_ackCh [(4 * Main.Second, Sample.ok_ack)]
                              (Sample.world ["switch"; "on"] [])).
Proof.
  assert (Hid : Message.ID Sample.stale_ack
                <> Message.MessageID
                     (Message.Header_ (Command.Message Sample.switch_on)))
    by (vm_compute; discriminate).
  destruct (C2_acks_with_other_ids_are_ignored
              (Sample.world ["switch"; "on"] []) Sample.switch_on
              Sample.stale_ack Hid) as (_ & _ & _ & H & _).
  exact (H [] (3 * Main.Second) [(4 * Main.Second, Sample.ok_ack)] _ _ eq_refl).
Defined.

(** ** Runs of the engine *)

Lemma count_cons (p : Effect -> bool) (e : Effect) (tr : list Effect) :
  Outcome.count p (e :: tr)
  = ((if p e then 1 else 0) + Outcome.count p tr)%nat.
Proof. unfold Outcome.count. simpl. now destruct (p e). Qed.

Section EngineRuns.

Variable w : Main.World.
Variable cmd : Command.Command.
Variable bytes : string.

Let mid : string := Message.MessageID (Message.Header_ (Command.Message cmd)).
Let start : Z := Main.t_ack_wait w.
Let publish : Effect :=
  Publish (Command.Topic cmd) (Command.QOS cmd) false bytes.

Lemma publish_confirmed :
  snd (Main.publish_wait w) = Ret true ->
  Main.publish_wait w = ([Outcome.published_report], Ret true).
Proof.
  intros H.
  destruct (publish_wait_cases w) as [E | [[e E] | [E | E]]];
    rewrite E in H |- *; simpl in H; congruence.
Qed.

(** The ack of the command arrives in time: the engine reports what the
    listener reports on it, and disconnects. *)
Lemma engine_acknowledged pre t ack post :
  Command.IsAckExpected cmd = true ->
  snd (Main.publish_wait w) = Ret true ->
  Main.ackCh w = (pre ++ (t, ack) :: post)%list ->
  Forall (fun a => Message.ID (snd a) <> mid) pre ->
  Message.ID ack = mid ->
  Z.max start t < start + Main.TIMEOUT ->
  (forall ti, Main.interrupt_at w = Some ti -> Z.max start t < ti) ->
  Main.engine w cmd bytes
  = ((publish :: Outcome.published_report :: Outcome.watching_report
        :: fst (Main.on_ack w cmd ack)
        ++ [Disconnect Main.DISCONNECT_WAIT; Outcome.disconnected_report])%list,
     Ret tt).
Proof.
  intros Hexp Hpub Hacks Hpre Hid Htime Hint.
  rewrite engine_unfold, (publish_confirmed Hpub), Hexp.
  assert (Hl : Main.listener w cmd (Main.ackCh w)
               = (fst (Main.on_ack w cmd ack), Ret (Some t)))
    by (rewrite Hacks; now apply listener_first_match).
  rewrite (ack_wait_acked w cmd t); rewrite ?Hl; auto.
Qed.

(** No ack of the command and no interrupt up to the deadline: the engine
    reports the time-out, and disconnects. *)
Lemma engine_times_out :
  Command.IsAckExpected cmd = true ->
  snd (Main.publish_wait w) = Ret true ->
  (forall t ack, In (t, ack) (Main.ackCh w) -> Message.ID ack = mid ->
                 start + Main.TIMEOUT < t) ->
  (forall ti, Main.interrupt_at w = Some ti -> start + Main.TIMEOUT < ti) ->
  Main.engine w cmd bytes
  = ([publish; Outcome.published_report; Outcome.watching_report;
      Outcome.ack_timeout_report;
      Disconnect Main.DISCONNECT_WAIT; Outcome.disconnected_report], Ret tt).
Proof.
  intros Hexp Hpub Hacks Hint.
  rewrite engine_unfold, (publish_confirmed Hpub), Hexp.
  rewrite ack_wait_times_out; [reflexivity | | exact Hint].
  intros t Ht.
  destruct (acks_first_match cmd (Main.ackCh w))
    as [H | (pre & t1 & ack & post & E & Hp & Hid)].
  - rewrite (listener_other_ids w cmd _ H) in Ht. discriminate.
  - rewrite E, (listener_first_match w cmd _ _ _ _ Hp Hid) in Ht.
    injection Ht as <-.
    apply (Hacks t1 ack); [rewrite E; apply in_elt | exact Hid].
Qed.

(** The handler is called at most once in a run of the engine. *)
Lemma engine_handler_once :
  (Outcome.count Outcome.is_handler_call (fst (Main.engine w cmd bytes)) <= 1)%nat.
Proof.
  rewrite engine_unfold.
  destruct (publish_wait_cases w) as [-> | [[e ->] | [-> | ->]]];
    try (rewrite ?andb_false_r; unfold Outcome.count; simpl; lia).
  rewrite andb_true_r. destruct (Command.IsAckExpected cmd);
    [ | unfold Outcome.count; simpl; lia].
  destruct (ack_wait_trace w cmd) as (heard & ended & -> & Hh & He).
  cbn [fst app].
  rewrite !count_cons, !count_app.
  assert (He0 : Outcome.count Outcome.is_handler_call ended = 0%nat)
    by (destruct He as [-> | [-> | ->]]; reflexivity).
  assert (Hh1 : (Outcome.count Outcome.is_handler_call heard <= 1)%nat).
  { destruct Hh as [-> | ->]; [unfold Outcome.count; simpl; lia | ].
    apply listener_handler_once. }
  rewrite He0. unfold Outcome.count. simpl. unfold Outcome.count in Hh1. lia.
Qed.

End EngineRuns.

(** C3: on the ack of the command the listener closes [acked]; what it
    reports is the success exactly when the status code is 200, and for
    every other code the failure with that code and the message of the
    ack; when that ack is received before the deadline and before any
    interrupt, this is the outcome of the whole run of the engine. *)
Theorem C3_success_is_status_200_exactly
  (w : Main.World) (cmd : Command.Command) (ack : Message.AckMessage)
  (Hid : Message.ID ack
         = Message.MessageID (Message.Header_ (Command.Message cmd))) :
  let tr := fst (Main.on_ack w cmd ack) in
  snd (Main.on_ack w cmd ack) = Ret true
  /\ (Message.StatusCode ack = 200 ->
      Outcome.spec_outcome tr = Some Outcome.AcknowledgedSuccess)
  /\ (Message.StatusCode ack <> 200 ->
      tr = [Outcome.ack_error_report ack]
      /\ Outcome.spec_outcome tr
         = Some (Outcome.AcknowledgedFailure (Message.StatusCode ack)
                                             (Message.Message_ ack)))
  /\ (Outcome.spec_outcome tr = Some Outcome.AcknowledgedSuccess
      <-> Message.StatusCode ack = 200)
  /\ (forall bytes pre t post,
        Command.IsAckExpected cmd = true ->
        snd (Main.publish_wait w) = Ret true ->
        Main.ackCh w = (pre ++ (t, ack) :: post)%list ->
        Forall (fun a => Message.ID (snd a)
                         <> Message.MessageID
                              (Message.Header_ (Command.Message cmd))) pre ->
        Z.max (Main.t_ack_wait w) t < Main.t_ack_wait w + Main.TIMEOUT ->
        (forall ti, Main.interrupt_at w = Some ti ->
                    Z.max (Main.t_ack_wait w) t < ti) ->
        snd (Main.engine w cmd bytes) = Ret tt
        /\ Outcome.spec_outcome (fst (Main.engine w cmd bytes))
           = Outcome.spec_outcome tr).
Proof.
  intros tr. subst tr.
  destruct (on_ack_same_id w cmd ack Hid) as (tr & E & Hok & Hko).
  rewrite E. cbn [fst snd].
  assert (Hs : Message.StatusCode ack = 200 ->
               Outcome.spec_outcome tr = Some Outcome.AcknowledgedSuccess).
  { intros C. destruct (Hok C) as (rest & -> & _). reflexivity. }
  assert (Hf : Message.StatusCode ack <> 200 ->
               tr = [Outcome.ack_error_report ack]
               /\ Outcome.spec_outcome tr
                  = Some (Outcome.AcknowledgedFailure (Message.StatusCode ack)
                                                      (Message.Message_ ack))).
  { intros C. rewrite (Hko C). split; reflexivity. }
  split; [reflexivity | ].
  split; [exact Hs | ].
  split; [exact Hf | ].
  split.
  - split; [ | exact Hs].
    intros H. destruct (Z.eq_dec (Message.StatusCode ack) 200) as [C | C];
      [exact C | ].
    destruct (Hf C) as [_ H']. rewrite H' in H. discriminate.
  - intros bytes pre t post Hexp Hpub Hacks Hpre Htime Hint.
    rewrite (engine_acknowledged w cmd bytes pre t ack post)
      by assumption.
    rewrite E. cbn [fst snd]. split; [reflexivity | ].
    destruct (Z.eq_dec (Message.StatusCode ack) 200) as [C | C].
    + destruct (Hok C) as (rest & -> & _). reflexivity.
    + rewrite (Hko C). reflexivity.
Qed.

(** C3 on the sample world: status 200 and status 500. *)
Lemma C3_witness :
  Outcome.spec_outcome (fst (Main.on_ack (Sample.world ["switch"; "on"] [])
                                         Sample.switch_on Sample.ok_ack))
  = Some Outcome.AcknowledgedSuccess
  /\ Outcome.spec_outcome (fst (Main.on_ack (Sample.world ["switch"; "on"] [])
                                            Sample.switch_on Sample.busy_ack))
     = Some (Outcome.AcknowledgedFailure 500 "device busy").
Proof.
  split.
  - destruct (C3_success_is_status_200_exactly
                (Sample.world ["switch"; "on"] []) Sample.switch_on
                Sample.ok_ack eq_refl) as (_ & H & _).
    apply H. reflexivity.
  - destruct (C3_success_is_status_200_exactly
                (Sample.world ["switch"; "on"] []) Sample.switch_on
                Sample.busy_ack eq_refl) as (_ & _ & H & _).
    apply H. vm_compute. discriminate.
Defined.

(** C5: the wait for the ack has a budget of 30 seconds that starts when
    the wait is entered, whenever the publish was issued or confirmed; if
    by then no ack of the command has been received and no interrupt has
    been delivered, the engine reports the time-out, which is the outcome,
    and calls [Disconnect] with its grace period of 250 ms. *)
Theorem C5_no_ack_within_30_seconds_is_a_timeout
  (w : Main.World) (cmd : Command.Command) (bytes : string)
  (Hexp : Command.IsAckExpected cmd = true)
  (Hpub : snd (Main.publish_wait w) = Ret true)
  (Hacks : forall t ack,
      In (t, ack) (Main.ackCh w) ->
      Message.ID ack = Message.MessageID (Message.Header_ (Command.Message cmd)) ->
      Main.t_ack_wait w + Main.TIMEOUT < t)
  (Hint : forall ti, Main.interrupt_at w = Some ti ->
                     Main.t_ack_wait w + Main.TIMEOUT < ti) :
  Main.TIMEOUT = 30 * 1000000000
  /\ Main.DISCONNECT_WAIT = 250
  /\ Main.engine w cmd bytes
     = ([Publish (Command.Topic cmd) (Command.QOS cmd) false bytes;
         Outcome.published_report; Outcome.watching_report;
         Outcome.ack_timeout_report;
         Disconnect Main.DISCONNECT_WAIT; Outcome.disconnected_report], Ret tt)
  /\ Outcome.spec_outcome (fst (Main.engine w cmd bytes))
     = Some Outcome.AckTimeout.
Proof.
  split; [reflexivity | ]. split; [reflexivity | ].
  rewrite (engine_times_out w cmd bytes Hexp Hpub Hacks Hint).
  split; reflexivity.
Qed.

(** C5 on the sample world: [status all], a stale ack after 3 s and the
    ack of the command after 40 s, with the wait entered after 2 s. *)
Lemma C5_witness :
  Outcome.spec_outcome
    (fst (Main.main (Sample.world ["status"; "all"]
                                  [(3 * Main.Second, Sample.stale_ack);
                                   (40 * Main.Second, Sample.ok_ack)])))
  = Some Outcome.AckTimeout.
Proof.
  set (w := Sample.world ["status"; "all"]
                         [(3 * Main.Second, Sample.stale_ack);
                          (40 * Main.Second, Sample.ok_ack)]).
  destruct (C5_no_ack_within_30_seconds_is_a_timeout
              w Sample.status_all "<laptop-indy-mqtt-A18F-6D4B>")
    as (_ & _ & E & _).
  - reflexivity.
  - reflexivity.
  - intros t ack [H | [H | []]] Hid; inversion H; subst.
    + vm_compute in Hid. discriminate.
    + vm_compute. reflexivity.
  - intros ti H. discriminate.
  - rewrite (main_connected w _ Sample.status_all "<laptop-indy-mqtt-A18F-6D4B>" eq_refl).
    rewrite E. reflexivity.
Defined.

(** C6: the ack handler is called at most once by the listener, whatever
    arrives on [ackCh], and so at most once in a run of the engine; a call
    of the handler is on the content of an ack that has the id of the
    command and status code 200, and comes after the report of the
    acknowledgment; when the handler returns an error, that error is
    logged after it, the outcome stays the acknowledged success, and the
    listener closes [acked] all the same. *)
Theorem C6_handler_runs_once_on_success_only
  (w : Main.World) (cmd : Command.Command) :
  let mid := Message.MessageID (Message.Header_ (Command.Message cmd)) in
  (forall acks,
      (Outcome.count Outcome.is_handler_call
                     (fst (Main.listener w cmd acks)) <= 1)%nat)
  /\ (forall bytes,
        (Outcome.count Outcome.is_handler_call
                       (fst (Main.engine w cmd bytes)) <= 1)%nat)
  /\ (forall acks content,
        In (AckHandlerCall content) (fst (Main.listener w cmd acks)) ->
        exists t ack before after,
          In (t, ack) acks
          /\ Message.ID ack = mid
          /\ Message.StatusCode ack = 200
          /\ Message.AckContent ack = content
          /\ fst (Main.listener w cmd acks)
             = (Outcome.acknowledged_report
                  :: before ++ AckHandlerCall content :: after)%list)
  /\ (forall ack all err,
        Message.ID ack = mid ->
        Message.StatusCode ack = 200 ->
        Command.AckHandler_ cmd = Some (Command.GetStatusAckHandler all) ->
        snd (Command.GetStatus_HandleAck (Main.cmd_env w) all
                                         (Message.AckContent ack)) = Some err ->
        snd (Main.on_ack w cmd ack) = Ret true
        /\ Outcome.spec_outcome (fst (Main.on_ack w cmd ack))
           = Some Outcome.AcknowledgedSuccess
        /\ exists before,
             fst (Main.on_ack w cmd ack)
             = (Outcome.acknowledged_report
                  :: before ++ [AckHandlerCall (Message.AckContent ack)]
                  ++ map Println
                         (fst (Command.GetStatus_HandleAck
                                 (Main.cmd_env w) all (Message.AckContent ack)))
                  ++ [Printf ERROR "Failed to handle ack: %v" [AStr err]])%list).
Proof.
  intros mid.
  split; [exact (listener_handler_once w cmd) | ].
  split; [exact (engine_handler_once w cmd) | ].
  split.
  - intros acks content Hin.
    destruct (acks_first_match cmd acks)
      as [H | (pre & t & ack & post & -> & Hp & Hid)].
    { rewrite (listener_other_ids w cmd acks H) in Hin. contradiction. }
    rewrite (listener_first_match w cmd _ _ _ _ Hp Hid) in Hin |- *.
    cbn [fst] in Hin |- *.
    destruct (on_ack_same_id w cmd ack Hid) as (tr & E & Hok & Hko).
    rewrite E in Hin |- *. cbn [fst] in Hin |- *.
    destruct (Z.eq_dec (Message.StatusCode ack) Main.STATUS_CODE_OK) as [C | C].
    + destruct (Hok C) as (rest & -> & _ & Hc).
      destruct Hin as [Hin | Hin]; [discriminate | ].
      pose proof (Hc content Hin) as Hcontent.
      destruct (in_split _ _ Hin) as (before & after & ->).
      exists t, ack, before, after.
      repeat split; auto. apply in_elt.
    + rewrite (Hko C) in Hin. destruct Hin as [Hin | []]. discriminate.
  - intros ack all err Hid C Hh Herr.
    unfold Main.on_ack. fold mid. rewrite Hid, String.eqb_refl.
    replace (Message.StatusCode ack =? Main.STATUS_CODE_OK) with true
      by (symmetry; now apply Z.eqb_eq).
    unfold Command.HandleAck. rewrite Hh. unfold Command.AckHandler_HandleAck.
    destruct (Command.GetStatus_HandleAck (Main.cmd_env w) all
                                          (Message.AckContent ack))
      as [lines e]. simpl in Herr. subst e.
    destruct (0 <? String.length (Message.Message_ ack))%nat.
    + split; [reflexivity | ]. split; [reflexivity | ].
      exists [Println (Message.Message_ ack)]. simpl.
      now rewrite ?app_nil_r, <- ?app_assoc.
    + split; [reflexivity | ]. split; [reflexivity | ].
      exists []. simpl. now rewrite ?app_nil_r, <- ?app_assoc.
Qed.

(** C6 on the sample world whose status handler fails. *)
Lemma C6_witness :
  Outcome.spec_outcome (fst (Main.main Sample.handler_fails))
  = Some Outcome.AcknowledgedSuccess
  /\ In (Printf ERROR "Failed to handle ack: %v"
                [AStr "unable to parse ACK JSON content"])
        (fst (Main.on_ack Sample.handler_fails Sample.status_all Sample.ok_ack)).
Proof.
  split; [reflexivity | ].
  destruct (C6_handler_runs_once_on_success_only
              Sample.handler_fails Sample.status_all) as (_ & _ & _ & H).
  destruct (H Sample.ok_ack true "unable to parse ACK JSON content"
              eq_refl eq_refl eq_refl eq_refl) as (_ & _ & before & ->).
  right. apply in_or_app. right. apply in_or_app. right.
  apply in_or_app. right. now left.
Defined.

(** ** The claims about the whole invocation *)

Lemma setup_returned (w : Main.World) tr0 cmd bytes :
  Main.setup w = (tr0, Ret (cmd, bytes)) ->
  Main.connect_error w = None
  /\ Outcome.count Outcome.is_connect tr0 = 1%nat
  /\ Outcome.count Outcome.is_disconnect tr0 = 0%nat
  /\ Outcome.count Outcome.is_publish tr0 = 0%nat
  /\ Outcome.count Outcome.is_handler_call tr0 = 0%nat
  /\ forallb Outcome.quiet tr0 = true
  /\ (Command.IsAckExpected cmd = false ->
      Outcome.count Outcome.is_subscribe tr0 = 0%nat).
Proof.
  intros E.
  destruct (setup_cases w)
    as [(tr & c & b & E' & H) | [(pre & last & E' & _) | (pre & f & a & E' & _)]];
    rewrite E in E'; [ | discriminate | discriminate].
  injection E' as -> -> ->. exact H.
Qed.

Lemma engine_no_ack (w : Main.World) (cmd : Command.Command) (bytes : string) :
  Command.IsAckExpected cmd = false ->
  Main.engine w cmd bytes
  = match Main.publish_wait w with
    | (ptr, Ret _) =>
        ((Publish (Command.Topic cmd) (Command.QOS cmd) false bytes :: ptr
            ++ [Disconnect Main.DISCONNECT_WAIT; Outcome.disconnected_report])%list,
         Ret tt)
    | (ptr, Exit c) =>
        ((Publish (Command.Topic cmd) (Command.QOS cmd) false bytes :: ptr)%list,
         Exit c)
    | (ptr, Blocked) =>
        ((Publish (Command.Topic cmd) (Command.QOS cmd) false bytes :: ptr)%list,
         Blocked)
    end.
Proof.
  intros H. rewrite engine_unfold, H.
  now destruct (Main.publish_wait w) as [ptr [b | c | ]].
Qed.

(** C4: for a command that expects no ack, no subscription is made, neither
    during the invocation nor by [OnConnect] at a later reconnect; what
    arrives on [ackCh] changes nothing of the invocation; and once the
    broker has confirmed the publish the next call is [Disconnect], [main]
    returns, and the outcome is that of a publish that required no ack. *)
Theorem C4_no_ack_expected_ends_after_publish
  (w : Main.World) (tr0 : list Effect) (cmd : Command.Command) (bytes : string)
  (Hsetup : Main.setup w = (tr0, Ret (cmd, bytes)))
  (Hexp : Command.IsAckExpected cmd = false) :
  Outcome.count Outcome.is_subscribe (fst (Main.main w)) = 0%nat
  /\ (forall ackTopic lost,
        Outcome.count Outcome.is_subscribe
                      (fst (Main.OnConnect false ackTopic lost)) = 0%nat)
  /\ (forall acks, Main.main (Main.set_ackCh acks w) = Main.main w)
  /\ (snd (Main.publish_wait w) = Ret true ->
      Main.main w
      = ((tr0 ++ [Publish (Command.Topic cmd) (Command.QOS cmd) false bytes;
                  Outcome.published_report;
                  Disconnect Main.DISCONNECT_WAIT;
                  Outcome.disconnected_report])%list, Main.Exited 0)
      /\ Outcome.spec_outcome (fst (Main.main w))
         = Some Outcome.PublishedNoAckRequired).
Proof.
  destruct (setup_returned w tr0 cmd bytes Hsetup)
    as (_ & _ & _ & _ & _ & Hquiet & Hsub).
  specialize (Hsub Hexp).
  split.
  { rewrite (main_connected w tr0 cmd bytes Hsetup), (engine_no_ack w cmd bytes Hexp).
    cbn [fst]. rewrite count_app, Hsub.
    destruct (publish_wait_cases w) as [-> | [[e ->] | [-> | ->]]]; reflexivity. }
  split.
  { intros ackTopic []; reflexivity. }
  split.
  { intros acks.
    rewrite (main_connected (Main.set_ackCh acks w) tr0 cmd bytes)
      by (rewrite setup_set_ackCh; exact Hsetup).
    rewrite (main_connected w tr0 cmd bytes Hsetup).
    rewrite !(engine_no_ack _ cmd bytes Hexp). reflexivity. }
  intros Hpub.
  rewrite (main_connected w tr0 cmd bytes Hsetup), (engine_no_ack w cmd bytes Hexp).
  rewrite (publish_confirmed w Hpub). cbn [fst snd app Main.status_of].
  split; [reflexivity | ].
  rewrite (spec_outcome_quiet tr0 _ Hquiet). reflexivity.
Qed.

(** C4 on the sample world: [restart], with acks arriving all the same. *)
Lemma C4_witness :
  Outcome.spec_outcome
    (fst (Main.main (Sample.world ["restart"]
                                  [(3 * Main.Second, Sample.ok_ack)])))
  = Some Outcome.PublishedNoAckRequired.
Proof.
  set (w := Sample.world ["restart"] [(3 * Main.Second, Sample.ok_ack)]).
  destruct (C4_no_ack_expected_ends_after_publish
              w _ Sample.restart "<laptop-indy-mqtt-A18F-6D4B>" eq_refl eq_refl)
    as (_ & _ & _ & H).
  destruct (H eq_refl) as [_ E]. exact E.
Defined.








(** C1, evaluated where the subscription is never confirmed: [connect]
    logs the time-out and returns the client with a nil error, without a
    disconnect; [main] goes on and publishes, with no confirmation of the
    subscription before the publish. *)
Lemma C1_subscribe_timeout_still_returns_the_client :
  let w := Sample.never_subscribed in
  let config :=
    Config.mkConfig (Config.mkRegular (Some "broker.example.org") (Some 8883))
                    (Config.mkSecrets (Some "foobar") (Some "changeme")) in
  let timed_out :=
    Printf ERROR "Timed out while waiting to subscribe to '%s'"
           [AStr "indy-switch/esp-vorona/ack"] in
  Main.subscribe_done w = None
  /\ Main.connect w config "laptop-indy-mqtt" true "esp-vorona"
     = ([Printf INFO "Connecting to '%s' as user '%s' with client ID '%s'"
                [AStr "ssl://broker.example.org:8883"; AStr "foobar";
                 AStr "laptop-indy-mqtt"];
         Connect "ssl://broker.example.org:8883" "laptop-indy-mqtt" "foobar"
                 "changeme";
         Printf INFO "Connection established" [];
         Printf INFO "Subscribing to '%s'" [AStr "indy-switch/esp-vorona/ack"];
         Subscribe "indy-switch/esp-vorona/ack" 1;
         timed_out],
        Ret (inl (Main.mkClient "ssl://broker.example.org:8883"
                                "laptop-indy-mqtt")))
  /\ nth_error (fst (Main.main w)) 5 = Some timed_out
  /\ nth_error (fst (Main.main w)) 8
     = Some (Publish "indy-switch/esp-vorona/control" 2 false
                     "<laptop-indy-mqtt-A18F-6D4B>")
  /\ Outcome.count Outcome.is_subscribe_confirmation
                   (firstn 8 (fst (Main.main w))) = 0%nat
  /\ Outcome.count Outcome.is_disconnect (firstn 8 (fst (Main.main w))) = 0%nat.
Proof. repeat split. Qed.

(** ** The end-to-end scenarios of the specification, on the sample worlds *)

(** A: [switch on], acknowledged with status 200. *)
Example scenario_A :
  let w := Sample.world ["switch"; "on"]
                        [(3 * Main.Second, Sample.stale_ack);
                         (4 * Main.Second, Sample.ok_ack)] in
  Main.setup w
  = (fst (Main.setup w), Ret (Sample.switch_on, "<laptop-indy-mqtt-A18F-6D4B>"))
  /\ Message.Content_ (Command.Message Sample.switch_on)
     = Message.ControlContent true
  /\ Outcome.spec_outcome (fst (Main.main w)) = Some Outcome.AcknowledgedSuccess
  /\ snd (Main.main w) = Main.Exited 0.
Proof. repeat split. Qed.

(** B: the same, acknowledged with status 500. *)
Example scenario_B :
  let w := Sample.world ["switch"; "on"] [(4 * Main.Second, Sample.busy_ack)] in
  Outcome.spec_outcome (fst (Main.main w))
  = Some (Outcome.AcknowledgedFailure 500 "device busy")
  /\ snd (Main.main w) = Main.Exited 0.
Proof. repeat split. Qed.

(** C: [status all] without an ack. *)
Example scenario_C :
  let w := Sample.world ["status"; "all"] [] in
  Outcome.spec_outcome (fst (Main.main w)) = Some Outcome.AckTimeout
  /\ Outcome.count Outcome.is_disconnect (fst (Main.main w)) = 1%nat
  /\ snd (Main.main w) = Main.Exited 0.
Proof. repeat split. Qed.

(** D: [restart]. *)
Example scenario_D :
  let w := Sample.world ["restart"] [] in
  Outcome.spec_outcome (fst (Main.main w)) = Some Outcome.PublishedNoAckRequired
  /\ Outcome.count Outcome.is_subscribe (fst (Main.main w)) = 0%nat
  /\ snd (Main.main w) = Main.Exited 0.
Proof. repeat split. Qed.

(** ** Command construction *)


(** The shape of what the constructors return. *)
Lemma NewControlCommand_shape (env : Command.Env) (clientID host : string)
      (args : list string) (cmd : Command.Command) :
  Command.NewControlCommand env clientID host args = inl cmd ->
  exists content,
    cmd = Command.mkCommand host (Command.topic_of host "control") 2
            (Command.NewMessage env clientID content) true None.
Proof.
  unfold Command.NewControlCommand.
  destruct args as [|a [|b rest]]; try discriminate.
  - destruct (negb (String.eqb a "on") && negb (String.eqb a "off"));
      [discriminate|].
    intros [= <-]. eauto.
  - destruct (negb (String.eqb a "on") && negb (String.eqb a "off"));
      discriminate.
Qed.

Lemma NewConfigCommand_shape (env : Command.Env) (clientID host : string)
      (args : list string) (cmd : Command.Command) :
  Command.NewConfigCommand env clientID host args = inl cmd ->
  exists content,
    cmd = Command.mkCommand host (Command.topic_of host "config") 2
            (Command.NewMessage env clientID content) true None.
Proof.
  unfold Command.NewConfigCommand.
  destruct args as [|name args]; [discriminate|].
  match goal with
  | |- context [match ?p with inl _ => _ | inr _ => _ end = _] =>
      destruct p as [[settings [|x rest]]|]; try discriminate
  end.
  intros [= <-]. eauto.
Qed.

Lemma NewGetStatusCommand_shape (env : Command.Env) (clientID host : string)
      (args : list string) (cmd : Command.Command) :
  Command.NewGetStatusCommand env clientID host args = inl cmd ->
  exists all,
    cmd = Command.mkCommand host (Command.topic_of host "status/get") 2
            (Command.NewMessage env clientID Message.EmptyContent) true
            (Some (Command.GetStatusAckHandler all)).
Proof.
  unfold Command.NewGetStatusCommand.
  destruct args as [|a [|b rest]]; try discriminate.
  - intros [= <-]. eauto.
  - destruct (String.eqb a "all"); cbn [negb]; [|discriminate].
    intros [= <-]. eauto.
Qed.

(** X1: [NewControlCommand] accepts exactly the argument lists [on] and
    [off]; the command it returns carries the switch state asked for,
    goes to the control topic of the host at QoS 2, expects an ack and has
    no ack handler. *)
Theorem NewControlCommand_accepts_exactly_on_and_off
  (env : Command.Env) (clientID host : string) (args : list string) :
  match Command.NewControlCommand env clientID host args with
  | inl cmd =>
      exists switchOn : bool,
        args = [if switchOn then "on" else "off"]
        /\ cmd = Command.mkCommand
                   host ("indy-switch/" ++ host ++ "/control") 2
                   (Message.NewMessage (Command.intn env) (Command.now env)
                      clientID (Message.ControlContent switchOn))
                   true None
  | inr _ => args <> ["on"] /\ args <> ["off"]
  end.
Proof.
  unfold Command.NewControlCommand.
  destruct args as [|a [|b rest]].
  - split; discriminate.
  - destruct (String.eqb a "on") eqn:Eon; cbn [negb andb].
    + apply String.eqb_eq in Eon; subst a. now exists true.
    + destruct (String.eqb a "off") eqn:Eoff; cbn [negb andb].
      * apply String.eqb_eq in Eoff; subst a. now exists false.
      * apply String.eqb_neq in Eon, Eoff. split; congruence.
  - destruct (negb (String.eqb a "on") && negb (String.eqb a "off"));
      split; discriminate.
Qed.

(** X2: [NewGetStatusCommand] accepts exactly no argument and the one
    argument [all]; the handler of the command has [All] set exactly in
    the second case. *)
Theorem NewGetStatusCommand_accepts_nothing_or_all
  (env : Command.Env) (clientID host : string) (args : list string) :
  match Command.NewGetStatusCommand env clientID host args with
  | inl cmd =>
      exists all : bool,
        args = (if all then ["all"] else [])
        /\ cmd = Command.mkCommand
                   host ("indy-switch/" ++ host ++ "/status/get") 2
                   (Message.NewMessage (Command.intn env) (Command.now env)
                      clientID Message.EmptyContent)
                   true (Some (Command.GetStatusAckHandler all))
  | inr _ => args <> [] /\ args <> ["all"]
  end.
Proof.
  unfold Command.NewGetStatusCommand.
  destruct args as [|a [|b rest]].
  - now exists false.
  - destruct (String.eqb a "all") eqn:E; cbn [negb].
    + apply String.eqb_eq in E; subst a. now exists true.
    + apply String.eqb_neq in E. split; congruence.
  - split; discriminate.
Qed.

(** X3: [NewConfigCommand] returns a command exactly for a setting name
    followed by one value: any time zone, an offset that [strconv.Atoi]
    reads as a positive integer, or a suntimes file that [readSuntimes]
    decodes; the message then carries that one setting. *)
Theorem NewConfigCommand_takes_one_setting_and_its_value
  (env : Command.Env) (clientID host : string) (args : list string)
  (cmd : Command.Command) :
  Command.NewConfigCommand env clientID host args = inl cmd
  <-> exists name value setting,
        args = [name; value]
        /\ (name = "timezone" /\ setting = Message.SettingString name value
            \/ name = "offset"
               /\ (exists offset,
                      Command.Atoi value = Some offset /\ 0 < offset
                      /\ setting = Message.SettingInt name offset)
            \/ name = "suntimes"
               /\ (exists suntimes,
                      Command.readSuntimes env value = inl suntimes
                      /\ setting = Message.SettingSuntimes name suntimes))
        /\ cmd = Command.mkCommand
                   host ("indy-switch/" ++ host ++ "/config") 2
                   (Message.NewMessage (Command.intn env) (Command.now env)
                      clientID (Message.ConfigContent [setting]))
                   true None.
Proof.
  split.
  - destruct args as [|name [|value rest]]; simpl; try discriminate.
    + destruct (String.eqb name "timezone"); [discriminate|].
      destruct (String.eqb name "offset"); [discriminate|].
      destruct (String.eqb name "suntimes"); discriminate.
    + destruct (String.eqb name "timezone") eqn:Etz.
      { apply String.eqb_eq in Etz. destruct rest; [|discriminate].
        intros [= <-]. exists name, value, (Message.SettingString name value).
        repeat split; auto. }
      destruct (String.eqb name "offset") eqn:Eoff.
      { apply String.eqb_eq in Eoff.
        destruct (Command.Atoi value) as [offset|] eqn:Ea; [|discriminate].
        destruct (offset <=? 0) eqn:Epos; [discriminate|].
        destruct rest; [|discriminate].
        intros [= <-]. exists name, value, (Message.SettingInt name offset).
        repeat split; auto. right; left; split; auto.
        exists offset. apply Z.leb_gt in Epos. auto. }
      destruct (String.eqb name "suntimes") eqn:Esun; [|discriminate].
      apply String.eqb_eq in Esun.
      destruct (Command.readSuntimes env value) as [suntimes|] eqn:Er; [|discriminate].
      destruct rest; [|discriminate].
      intros [= <-]. exists name, value, (Message.SettingSuntimes name suntimes).
      repeat split; auto. right; right; split; auto. now exists suntimes.
  - intros (name & value & setting & -> & Hs & ->).
    destruct Hs as [[-> ->] | [[-> (offset & Ea & Hpos & ->)] | [-> (suntimes & Er & ->)]]];
      simpl.
    + reflexivity.
    + rewrite Ea. apply Z.leb_gt in Hpos. now rewrite Hpos.
    + now rewrite Er.
Qed.

(** X4: whatever [NewCommand] returns was asked for by a host followed by
    one of the five command words; the command is for that host at QoS 2,
    its message id is the client id with the hex suffix and its timestamp
    the clock's, its topic is fixed by the host and the word, an ack is
    expected except for [restart] and [reset], and only [status] has an
    ack handler. *)
Theorem NewCommand_invariants
  (env : Command.Env) (clientID : string) (args : list string)
  (cmd : Command.Command) :
  Command.NewCommand env clientID args = inl cmd ->
  exists host word rest,
    args = host :: word :: rest
    /\ Command.Host cmd = host
    /\ Command.QOS cmd = 2
    /\ Message.Header_ (Command.Message cmd)
       = Message.mkHeader (clientID ++ "-" ++ Util.GenerateHexSuffix (Command.intn env))
                          (Command.now env)
    /\ (word = "switch" /\ Command.Topic cmd = "indy-switch/" ++ host ++ "/control"
          /\ Command.IsAckExpected cmd = true /\ Command.AckHandler_ cmd = None
        \/ word = "config" /\ Command.Topic cmd = "indy-switch/" ++ host ++ "/config"
          /\ Command.IsAckExpected cmd = true /\ Command.AckHandler_ cmd = None
        \/ word = "status" /\ Command.Topic cmd = "indy-switch/" ++ host ++ "/status/get"
          /\ Command.IsAckExpected cmd = true
          /\ (exists all, Command.AckHandler_ cmd = Some (Command.GetStatusAckHandler all))
        \/ (word = "restart" \/ word = "reset")
          /\ Command.Topic cmd = "indy-switch/" ++ host ++ "/restart"
          /\ Command.IsAckExpected cmd = false /\ Command.AckHandler_ cmd = None
          /\ rest = []).
Proof.
  destruct args as [|host [|word rest]]; simpl; try discriminate.
  intros H. exists host, word, rest. split; [reflexivity|].
  destruct (String.eqb word "switch") eqn:E1.
  { apply String.eqb_eq in E1.
    apply NewControlCommand_shape in H. destruct H as (content & ->).
    simpl. repeat split; auto. }
  destruct (String.eqb word "config") eqn:E2.
  { apply String.eqb_eq in E2.
    apply NewConfigCommand_shape in H.
    destruct H as (content & ->). simpl. repeat split; auto.
    right; left. repeat split; auto. }
  destruct (String.eqb word "status") eqn:E3.
  { apply String.eqb_eq in E3.
    apply NewGetStatusCommand_shape in H. destruct H as (all & ->).
    simpl. repeat split; auto.
    right; right; left. repeat split; auto. now exists all. }
  destruct (String.eqb word "restart") eqn:E4.
  { apply String.eqb_eq in E4. unfold Command.NewRestartCommand in H.
    destruct rest; [|discriminate]. injection H as <-. simpl.
    repeat split; auto. right; right; right. repeat split; auto. }
  destruct (String.eqb word "reset") eqn:E5; [|discriminate].
  apply String.eqb_eq in E5. unfold Command.NewResetCommand in H.
  destruct rest; [|discriminate]. injection H as <-. simpl.
  repeat split; auto. right; right; right. repeat split; auto.
Qed.

Lemma NewCommand_invariants_witness :
  Command.NewCommand Sample.sample_env "laptop-indy-mqtt"
                     ["esp-vorona"; "status"; "all"]
  = inl Sample.status_all
  /\ Command.QOS Sample.status_all = 2
  /\ Message.Header_ (Command.Message Sample.status_all) = Sample.header.
Proof.
  assert (H : Command.NewCommand Sample.sample_env "laptop-indy-mqtt"
                                 ["esp-vorona"; "status"; "all"]
              = inl Sample.status_all) by (vm_compute; reflexivity).
  split; [exact H|].
  destruct (NewCommand_invariants _ _ _ _ H)
    as (host & word & rest & _ & _ & Hq & Hh & _).
  split; [exact Hq|].
  rewrite Hh. vm_compute. reflexivity.
Defined.

(** ** The status handler *)

Lemma append_assoc (a b c : string) : (a ++ b) ++ c = a ++ (b ++ c).
Proof. induction a; simpl; congruence. Qed.

Lemma append_nil_r (a : string) : a ++ "" = a.
Proof. induction a; simpl; congruence. Qed.

Lemma insert_perm (k : Z) (keys : list Z) :
  Permutation (k :: keys) (GetStatus.insert k keys).
Proof.
  induction keys as [|k' keys IH]; simpl; [reflexivity|].
  destruct (k <=? k'); [reflexivity|].
  rewrite perm_swap. now apply perm_skip.
Qed.

Lemma sort_Ints_perm (keys : list Z) :
  Permutation keys (GetStatus.sort_Ints keys).
Proof.
  induction keys as [|k keys IH]; simpl; [reflexivity|].
  rewrite <- insert_perm. now apply perm_skip.
Qed.

Lemma insert_sorted (k : Z) (keys : list Z) :
  Sorted Z.le keys -> Sorted Z.le (GetStatus.insert k keys).
Proof.
  induction keys as [|k' keys IH]; simpl; intros S.
  - repeat constructor.
  - destruct (k <=? k') eqn:E.
    + constructor; [assumption|]. constructor. now apply Z.leb_le.
    + apply Z.leb_gt in E. inversion S as [|? ? S' HR]; subst.
      constructor; [now apply IH|].
      destruct keys as [|k'' keys]; simpl.
      * constructor. lia.
      * destruct (k <=? k''); constructor; try lia.
        now inversion HR.
Qed.

Lemma sort_Ints_sorted (keys : list Z) : Sorted Z.le (GetStatus.sort_Ints keys).
Proof.
  induction keys as [|k keys IH]; simpl; [constructor|].
  now apply insert_sorted.
Qed.

(** The builder loop writes the entries with [", "] between them. *)
Lemma write_entries_concat (data : list (string * string)) (keys : list Z) :
  GetStatus.write_entries data keys true
  = String.concat ", " (map (GetStatus.entry data) keys).
Proof.
  destruct keys as [|k keys]; [reflexivity|].
  revert k. induction keys as [|k' keys IH]; intros k.
  - simpl. apply append_nil_r.
  - specialize (IH k').
    change (GetStatus.write_entries data (k :: k' :: keys) true)
      with ("" ++ GetStatus.entry data k
            ++ ", " ++ GetStatus.entry data k'
            ++ GetStatus.write_entries data keys false).
    change (GetStatus.write_entries data (k' :: keys) true)
      with ("" ++ GetStatus.entry data k'
            ++ GetStatus.write_entries data keys false) in IH.
    change (String.concat ", " (map (GetStatus.entry data) (k :: k' :: keys)))
      with (GetStatus.entry data k ++ ", "
            ++ String.concat ", " (map (GetStatus.entry data) (k' :: keys))).
    rewrite <- IH. reflexivity.
Qed.

Lemma lookup_In (key value : string) (data : list (string * string)) :
  NoDup (map fst data) -> In (key, value) data ->
  GetStatus.lookup key data = Some value.
Proof.
  induction data as [|[k v] data IH]; simpl; [tauto|].
  intros ND [H | H].
  - injection H as -> ->. now rewrite String.eqb_refl.
  - inversion ND as [|? ? Hn ND']; subst.
    destruct (String.eqb key k) eqn:E.
    + apply String.eqb_eq in E; subst k. exfalso. apply Hn.
      change key with (fst (key, value)). now apply in_map.
    + now apply IH.
Qed.

(** With keys in the form [strconv.Itoa] writes them, the loop over the
    keys and the loop over the sorted integers see the same entries. *)
Lemma int_keys_canonical (D d : list (string * string)) :
  NoDup (map fst D) ->
  (forall kv, In kv d -> In kv D) ->
  (forall key, In key (map fst d) ->
     exists n, Command.Atoi key = Some n /\ GetStatus.Itoa n = key) ->
  exists keys,
    GetStatus.int_keys d = inl keys
    /\ map (fun n => (GetStatus.Itoa n,
                      match GetStatus.lookup (GetStatus.Itoa n) D with
                      | Some v => v
                      | None => ""
                      end)) keys = d
    /\ Forall (fun n => Command.Atoi (GetStatus.Itoa n) = Some n) keys.
Proof.
  intros ND. induction d as [|[k v] d IH]; intros Hsub Hcan.
  - exists []. repeat split; constructor.
  - destruct IH as (keys & Ek & Em & Ea).
    + intros kv H. apply Hsub. now right.
    + intros key H. apply Hcan. now right.
    + destruct (Hcan k) as (n & Hn & Hi); [now left|].
      exists (n :: keys). simpl. rewrite Hn, Ek. repeat split.
      * rewrite Em, Hi, (lookup_In k v D ND); [reflexivity|].
        apply Hsub. now left.
      * constructor; [now rewrite Hi|assumption].
Qed.

(** X5: for an object whose keys are integers as [strconv.Itoa] writes
    them, [createStrFromJsonObj] returns all the entries of the object, each
    as [key: value], separated by [", "] and in ascending order of the
    integer keys, whatever the order in which the map is ranged over. *)
Theorem createStrFromJsonObj_lists_the_entries_by_ascending_key
  (json : GetStatus.Json) (rest : string) (data : list (string * string)) :
  let obj := String "{" rest in
  GetStatus.Unmarshal_object json obj = inl data ->
  NoDup (map fst data) ->
  (forall key, In key (map fst data) ->
     exists n, Command.Atoi key = Some n /\ GetStatus.Itoa n = key) ->
  exists sorted ns,
    Permutation data sorted
    /\ map (fun kv => Command.Atoi (fst kv)) sorted = map Some ns
    /\ Sorted Z.le ns
    /\ GetStatus.createStrFromJsonObj json obj
       = ([], Ret (inl (String.concat
                          ", " (map (fun kv => fst kv ++ ": " ++ snd kv) sorted)))).
Proof.
  intros obj Hu ND Hcan.
  destruct (int_keys_canonical data data ND (fun _ H => H) Hcan)
    as (keys & Ek & Em & Ea).
  set (f := fun n => (GetStatus.Itoa n,
                      match GetStatus.lookup (GetStatus.Itoa n) data with
                      | Some v => v
                      | None => ""
                      end)) in *.
  exists (map f (GetStatus.sort_Ints keys)), (GetStatus.sort_Ints keys).
  split; [|split; [|split]].
  - rewrite <- Em at 1. apply Permutation_map, sort_Ints_perm.
  - rewrite map_map. apply map_ext_Forall.
    apply (Permutation_Forall (sort_Ints_perm keys)) in Ea.
    exact Ea.
  - apply sort_Ints_sorted.
  - unfold GetStatus.createStrFromJsonObj, obj. cbn [Ascii.eqb Bool.eqb negb andb].
    fold obj. rewrite Hu, Ek, write_entries_concat, map_map. reflexivity.
Qed.

Lemma createStrFromJsonObj_lists_the_entries_by_ascending_key_witness :
  exists sorted ns,
    Permutation StatusSample.suntimes_data sorted
    /\ map (fun kv => Command.Atoi (fst kv)) sorted = map Some ns
    /\ Sorted Z.le ns
    /\ GetStatus.createStrFromJsonObj StatusSample.json StatusSample.suntimes
       = ([], Ret (inl (String.concat
                          ", " (map (fun kv => fst kv ++ ": " ++ snd kv) sorted)))).
Proof.
  apply (createStrFromJsonObj_lists_the_entries_by_ascending_key
           StatusSample.json
           (String.substring 1 (String.length StatusSample.suntimes)
                             StatusSample.suntimes)
           StatusSample.suntimes_data).
  - vm_compute. reflexivity.
  - repeat constructor; simpl; intuition discriminate.
  - intros key [<- | [<- | [<- | []]]];
      [exists 2 | exists 10 | exists 1]; split; vm_compute; reflexivity.
Defined.

Lemma int_keys_result (data : list (string * string)) :
  match GetStatus.int_keys data with
  | inl keys => Forall (fun kv => Command.Atoi (fst kv) <> None) data
  | inr err =>
      exists key, In key (map fst data) /\ Command.Atoi key = None
                  /\ err = "integer not found for key '" ++ key ++ "'"
  end.
Proof.
  induction data as [|[k v] data IH]; simpl; [constructor|].
  destruct (Command.Atoi k) as [n|] eqn:E.
  - destruct (GetStatus.int_keys data) as [keys|err].
    + constructor; [simpl; congruence|assumption].
    + destruct IH as (key & Hin & Hk & ->). exists key. auto.
  - exists k. auto.
Qed.

(** X6: on a non-empty input [createStrFromJsonObj] returns without any
    effect; it returns a string exactly when the input starts with an
    opening brace, decodes as an object, and every key of the object is an
    integer for [strconv.Atoi]; the error of a key that is none names
    such a key. *)
Theorem createStrFromJsonObj_succeeds_exactly_on_integer_keyed_objects
  (json : GetStatus.Json) (c : ascii) (rest : string) :
  let obj := String c rest in
  exists r,
    GetStatus.createStrFromJsonObj json obj = ([], Ret r)
    /\ ((exists s, r = inl s)
        <-> c = "{"%char
            /\ exists data,
                 GetStatus.Unmarshal_object json obj = inl data
                 /\ Forall (fun kv => Command.Atoi (fst kv) <> None) data)
    /\ (forall data err,
          c = "{"%char ->
          GetStatus.Unmarshal_object json obj = inl data ->
          r = inr err ->
          exists key,
            In key (map fst data) /\ Command.Atoi key = None
            /\ err = "integer not found for key '" ++ key ++ "'").
Proof.
  intros obj. unfold GetStatus.createStrFromJsonObj, obj.
  destruct (Ascii.eqb c "{") eqn:Ec; cbn [negb].
  - apply Ascii.eqb_eq in Ec. fold obj.
    destruct (GetStatus.Unmarshal_object json obj) as [data|uerr] eqn:Eu.
    + pose proof (int_keys_result data) as K.
      destruct (GetStatus.int_keys data) as [keys|err].
      * eexists. split; [reflexivity|]. split.
        -- split; [intros _|eauto]. split; [assumption|]. eauto.
        -- discriminate.
      * eexists. split; [reflexivity|]. split.
        -- split; [intros [s H]; discriminate|].
           intros (_ & data' & [= <-] & F).
           destruct K as (key & Hin & Hk & _).
           apply in_map_iff in Hin. destruct Hin as (kv & <- & Hin).
           rewrite Forall_forall in F. now apply F in Hin.
        -- intros data' err' _ [= <-] [= <-]. exact K.
    + eexists. split; [reflexivity|]. split.
      * split; [intros [s H]; discriminate|].
        intros (_ & data & H & _). discriminate.
      * discriminate.
  - apply Ascii.eqb_neq in Ec.
    eexists. split; [reflexivity|]. split.
    + split; [intros [s H]; discriminate|]. intros [H _]. contradiction.
    + intros; contradiction.
Qed.

(** X7: what the handler prints and returns depends only on the values
    of the attributes it was asked for: attributes it does not know and
    the order of the fields make no difference. *)
Theorem print_status_reads_only_the_requested_attributes
  (json : GetStatus.Json) (data1 data2 : list (string * string))
  (attributes : list string) :
  (forall attr, In attr attributes ->
                GetStatus.lookup attr data1 = GetStatus.lookup attr data2) ->
  GetStatus.print_status json data1 attributes
  = GetStatus.print_status json data2 attributes.
Proof.
  induction attributes as [|attr attributes IH]; intros H; [reflexivity|].
  simpl. rewrite <- (H attr) by now left.
  assert (E : GetStatus.print_status json data1 attributes
              = GetStatus.print_status json data2 attributes).
  { apply IH. intros a Ha. apply H. now right. }
  rewrite E. reflexivity.
Qed.

Lemma print_status_reads_only_the_requested_attributes_witness :
  GetStatus.HandleAck StatusSample.json true StatusSample.content
  = GetStatus.HandleAck StatusSample.json true StatusSample.content'.
Proof.
  change (GetStatus.print_status StatusSample.json StatusSample.content_data
                                 (GetStatus.attrs true)
          = GetStatus.print_status StatusSample.json StatusSample.content_data'
                                   (GetStatus.attrs true)).
  apply print_status_reads_only_the_requested_attributes.
  intros attr H. simpl in H.
  repeat (destruct H as [<- | H]; [vm_compute; reflexivity|]).
  destruct H.
Defined.

(** What [createStrFromJsonObj] gives when the value starts with a brace,
    as every value does that [HandleAck] passes to it. *)
Lemma createStrFromJsonObj_on_object (json : GetStatus.Json) (rest : string) :
  exists r,
    GetStatus.createStrFromJsonObj json (String "{" rest) = ([], Ret r)
    /\ r <> inr "object not found".
Proof.
  unfold GetStatus.createStrFromJsonObj. cbn [Ascii.eqb Bool.eqb negb andb].
  destruct (GetStatus.Unmarshal_object json (String "{" rest)) as [data|uerr].
  - pose proof (int_keys_result data) as K.
    destruct (GetStatus.int_keys data) as [keys|err].
    + eexists. split; [reflexivity|discriminate].
    + destruct K as (key & _ & _ & ->).
      eexists. split; [reflexivity|discriminate].
  - eexists. split; [reflexivity|discriminate].
Qed.

(** The value of one attribute, as the loop of [HandleAck] prints it. *)
Lemma print_status_cons (json : GetStatus.Json) (data : list (string * string))
      (attr : string) (attributes : list string) :
  GetStatus.print_status json data (attr :: attributes)
  = match GetStatus.lookup attr data with
    | None => GetStatus.print_status json data attributes
    | Some EmptyString => os_Exit 2
    | Some (String c rest as val) =>
        r <- (if Ascii.eqb c "{"%char
              then GetStatus.createStrFromJsonObj json val
              else ret (inl (GetStatus.Trim val))) ;;
        match r with
        | inr err => ret (Some err)
        | inl valStr =>
            emit (Println (attr ++ ": " ++ valStr)) ;;;
            GetStatus.print_status json data attributes
        end
    end.
Proof. reflexivity. Qed.

Lemma value_of_attribute (json : GetStatus.Json) (c : ascii) (rest : string) :
  exists r,
    (if Ascii.eqb c "{"%char
     then GetStatus.createStrFromJsonObj json (String c rest)
     else ret (inl (GetStatus.Trim (String c rest)))) = ([], Ret r)
    /\ r <> inr "object not found".
Proof.
  destruct (Ascii.eqb c "{") eqn:Ec.
  - apply Ascii.eqb_eq in Ec; subst c. apply createStrFromJsonObj_on_object.
  - eexists. split; [reflexivity|discriminate].
Qed.

(** The loop of [HandleAck] prints lines, each for one of the attributes
    it ranges over, and ends by returning or in the panic of an empty
    value; the error it returns is never that of the missing brace. *)
Lemma print_status_runs (json : GetStatus.Json) (data : list (string * string))
      (attributes : list string) :
  exists lines r,
    GetStatus.print_status json data attributes = (map Println lines, r)
    /\ Forall (fun line => exists attr valStr,
                   In attr attributes /\ GetStatus.lookup attr data <> None
                   /\ line = attr ++ ": " ++ valStr) lines
    /\ (r = Exit 2 /\ (exists attr, In attr attributes
                                    /\ GetStatus.lookup attr data = Some "")
        \/ exists err, r = Ret err /\ err <> Some "object not found").
Proof.
  induction attributes as [|attr attributes IH].
  - exists [], (Ret None). simpl. repeat split; [constructor|].
    right. eexists. split; [reflexivity|discriminate].
  - destruct IH as (lines & r & E & F & R).
    assert (F' : Forall (fun line => exists a valStr,
                   In a (attr :: attributes) /\ GetStatus.lookup a data <> None
                   /\ line = a ++ ": " ++ valStr) lines).
    { eapply Forall_impl; [|exact F]. intros line (a & v & Ha & Hl & ->).
      exists a, v. repeat split; auto. now right. }
    assert (R' : r = Exit 2 /\ (exists a, In a (attr :: attributes)
                                    /\ GetStatus.lookup a data = Some "")
        \/ exists err, r = Ret err /\ err <> Some "object not found").
    { destruct R as [[-> (a & Ha & Hl)] | R]; [left|right; exact R].
      split; [reflexivity|]. exists a. split; [now right|assumption]. }
    rewrite print_status_cons.
    destruct (GetStatus.lookup attr data) as [[|c rest]|] eqn:El.
    + exists [], (Exit 2). repeat split; [constructor|].
      left. split; [reflexivity|]. exists attr. split; [now left|assumption].
    + destruct (value_of_attribute json c rest) as (v & -> & Hv).
      destruct v as [valStr|err].
      * exists ((attr ++ ": " ++ valStr) :: lines), r.
        rewrite bind_nil_l, E. repeat split.
        -- constructor; [|exact F'].
           exists attr, valStr. repeat split; [now left|congruence].
        -- exact R'.
      * exists [], (Ret (Some err)). rewrite bind_nil_l.
        repeat split; [constructor|].
        right. eexists. split; [reflexivity|]. congruence.
    + exists lines, r. auto.
Qed.

(** X8: the error [HandleAck] returns is never the [object not found] of
    [createStrFromJsonObj]: the handler calls it only on values that
    start with a brace, so that check cannot fail there. *)
Theorem HandleAck_never_reports_object_not_found
  (json : GetStatus.Json) (all : bool) (content : string) :
  snd (GetStatus.HandleAck json all content) <> Ret (Some "object not found").
Proof.
  unfold GetStatus.HandleAck.
  destruct (GetStatus.Unmarshal_object json content) as [data|uerr].
  - destruct (print_status_runs json data (GetStatus.attrs all))
      as (lines & r & -> & _ & [[-> _] | (err & -> & Hne)]); simpl.
    + discriminate.
    + congruence.
  - simpl. discriminate.
Qed.

(** X9: every line [HandleAck] prints is for one of the attributes of
    its list that the status has, so without [All] nothing is printed
    for the device, the firmware or the suntimes; it prints nothing else
    and calls nothing else; and it ends otherwise than by returning only
    in the panic on an empty raw value, which [json.Unmarshal] never
    gives. *)
Theorem HandleAck_prints_only_requested_attributes
  (json : GetStatus.Json) (all : bool) (content : string) :
  exists lines r,
    GetStatus.HandleAck json all content = (map Println lines, r)
    /\ (forall line, In line lines ->
          exists attr valStr,
            In attr (GetStatus.attrs all) /\ line = attr ++ ": " ++ valStr
            /\ (all = false ->
                attr <> "device" /\ attr <> "firmware" /\ attr <> "suntimes"))
    /\ ((exists err, r = Ret err)
        \/ r = Exit 2
           /\ exists data attr,
                GetStatus.Unmarshal_object json content = inl data
                /\ GetStatus.lookup attr data = Some "").
Proof.
  unfold GetStatus.HandleAck.
  destruct (GetStatus.Unmarshal_object json content) as [data|uerr].
  - destruct (print_status_runs json data (GetStatus.attrs all))
      as (lines & r & E & F & R).
    exists lines, r. split; [exact E|]. split.
    + intros line Hin. rewrite Forall_forall in F.
      destruct (F line Hin) as (attr & valStr & Ha & _ & ->).
      exists attr, valStr. repeat split; auto; intros ->; subst all;
        simpl in Ha; intuition discriminate.
    + destruct R as [[-> (attr & _ & Hl)] | (err & -> & _)]; [right|left; eauto].
      split; [reflexivity|]. eauto.
  - exists [], (Ret (Some ("unable to parse ACK JSON content '" ++ content
                           ++ "': " ++ uerr))).
    split; [reflexivity|]. split; [intros line []|]. left; eauto.
Qed.

Lemma lookup_Some_In (key value : string) (data : list (string * string)) :
  GetStatus.lookup key data = Some value -> In (key, value) data.
Proof.
  induction data as [|[k v] data IH]; simpl; [discriminate|].
  destruct (String.eqb key k) eqn:E.
  - apply String.eqb_eq in E. intros [= ->]. left. congruence.
  - auto.
Qed.

Lemma lines_of_Println (lines : list string) :
  GetStatus.lines_of (map Println lines) = lines.
Proof. induction lines; simpl; congruence. Qed.


(** [HandleAck] prints lines and returns, or panics on an empty value. *)
Lemma HandleAck_returns_or_panics
      (json : GetStatus.Json) (all : bool) (content : string) :
  exists lines r,
    GetStatus.HandleAck json all content = (map Println lines, r)
    /\ ((exists err, r = Ret err)
        \/ r = Exit 2
           /\ exists data attr,
                GetStatus.Unmarshal_object json content = inl data
                /\ GetStatus.lookup attr data = Some "").
Proof.
  unfold GetStatus.HandleAck.
  destruct (GetStatus.Unmarshal_object json content) as [data|uerr].
  - destruct (print_status_runs json data (GetStatus.attrs all))
      as (lines & r & E & _ & R).
    exists lines, r. split; [exact E|].
    destruct R as [[-> (attr & _ & Hl)] | (err & -> & _)]; [right|left; eauto].
    split; [reflexivity|]. eauto.
  - exists [], (Ret (Some ("unable to parse ACK JSON content '" ++ content
                           ++ "': " ++ uerr))).
    split; [reflexivity|]. left; eauto.
Qed.

(** X10: on a content whose raw values are not empty, as those that
    [json.Unmarshal] gives are, [HandleAck] returns, and the handler that
    the environment of the commands holds for it (the lines and the
    error) does, after the call itself, exactly what [HandleAck] does. *)
Theorem status_handler_of_the_environment
  (json : GetStatus.Json) (all : bool) (content : string)
  (intn : nat -> Z) (now : string)
  (readSuntimes : string -> list (Z * (string * string)) + string) :
  (forall data, GetStatus.Unmarshal_object json content = inl data ->
                Forall (fun kv => snd kv <> "") data) ->
  (exists err, snd (GetStatus.HandleAck json all content) = Ret err)
  /\ Command.AckHandler_HandleAck
       (Command.mkEnv intn now readSuntimes (GetStatus.as_env_handler json))
       (Command.GetStatusAckHandler all) content
     = (emit (AckHandlerCall content) ;;; GetStatus.HandleAck json all content).
Proof.
  intros Hne.
  destruct (HandleAck_returns_or_panics json all content)
    as (lines & r & E & [(err & ->) | (-> & data & attr & Hu & Hl)]).
  - split; [rewrite E; simpl; now eauto|].
    unfold Command.AckHandler_HandleAck.
    cbn [Command.GetStatus_HandleAck]. unfold GetStatus.as_env_handler.
    rewrite E, lines_of_Println. unfold emit, emits, ret.
    rewrite !bind_Ret. cbn [fst snd app]. now rewrite app_nil_r.
  - exfalso. apply lookup_Some_In in Hl.
    specialize (Hne data Hu). rewrite Forall_forall in Hne.
    now apply (Hne _ Hl).
Qed.

Lemma status_handler_of_the_environment_witness :
  (exists err,
      snd (GetStatus.HandleAck StatusSample.json true StatusSample.content)
      = Ret err)
  /\ Command.AckHandler_HandleAck
       (Command.mkEnv (Command.intn Sample.sample_env)
                      (Command.now Sample.sample_env)
                      (Command.readSuntimes Sample.sample_env)
                      (GetStatus.as_env_handler StatusSample.json))
       (Command.GetStatusAckHandler true) StatusSample.content
     = (emit (AckHandlerCall StatusSample.content) ;;;
        GetStatus.HandleAck StatusSample.json true StatusSample.content).
Proof.
  apply status_handler_of_the_environment.
  intros data H. vm_compute in H. injection H as <-.
  repeat constructor; discriminate.
Defined.

Lemma bind_Ret_inv {A B} (m : M A) (k : A -> M B) (tr : list Effect) (b : B) :
  bind m k = (tr, Ret b) ->
  exists tr1 a tr2, m = (tr1, Ret a) /\ k a = (tr2, Ret b) /\ tr = (tr1 ++ tr2)%list.
Proof.
  destruct m as [tr1 [a| |]]; simpl; try discriminate.
  destruct (k a) as [tr2 r] eqn:E. intros [= <- ->]. eauto 6.
Qed.

Lemma print_status_app (json : GetStatus.Json) (data : list (string * string))
      (a b : list string) :
  GetStatus.print_status json data (a ++ b)
  = (r <- GetStatus.print_status json data a ;;
     match r with
     | Some e => ret (Some e)
     | None => GetStatus.print_status json data b
     end).
Proof.
  induction a as [|attr a IH].
  - cbn [app GetStatus.print_status]. now rewrite bind_ret_l.
  - cbn [app]. rewrite !print_status_cons.
    destruct (GetStatus.lookup attr data) as [[|c rest]|]; [reflexivity| |exact IH].
    rewrite bind_assoc. apply bind_ext. intros [valStr|err].
    + rewrite bind_assoc. apply bind_ext. intros _. exact IH.
    + now rewrite bind_ret_l.
Qed.

(** A run of the loop that returns without error. *)
Lemma print_status_done (json : GetStatus.Json) (data : list (string * string))
      (attributes : list string) (tr : list Effect) :
  GetStatus.print_status json data attributes = (tr, Ret None) ->
  forall e, In e tr ->
            exists attr valStr, In attr attributes
                                /\ e = Println (attr ++ ": " ++ valStr).
Proof.
  intros H e Hin.
  destruct (print_status_runs json data attributes) as (lines & r & E & F & _).
  rewrite H in E. injection E as -> _.
  apply in_map_iff in Hin. destruct Hin as (line & <- & Hin).
  rewrite Forall_forall in F.
  destruct (F line Hin) as (attr & valStr & Ha & _ & ->). eauto.
Qed.

(** X11: when [HandleAck] with [All] returns without error, so does
    [HandleAck] without it, and what the latter prints is a contiguous
    part of what the former prints: before it come only lines about the
    device and the firmware, after it only the line of the suntimes. *)
Theorem HandleAck_brief_status_is_part_of_the_full_status
  (json : GetStatus.Json) (content : string) (full : list Effect) :
  GetStatus.HandleAck json true content = (full, Ret None) ->
  exists pre brief post,
    full = (pre ++ brief ++ post)%list
    /\ GetStatus.HandleAck json false content = (brief, Ret None)
    /\ (forall e, In e pre ->
          exists valStr, e = Println ("device: " ++ valStr)
                         \/ e = Println ("firmware: " ++ valStr))
    /\ (forall e, In e post ->
          exists valStr, e = Println ("suntimes: " ++ valStr)).
Proof.
  unfold GetStatus.HandleAck.
  destruct (GetStatus.Unmarshal_object json content) as [data|uerr];
    [|discriminate].
  change (GetStatus.attrs true)
    with (["device"; "firmware"] ++ GetStatus.attrs false ++ ["suntimes"])%list.
  rewrite !print_status_app. intros H.
  apply bind_Ret_inv in H. destruct H as (pre & r1 & tr & H1 & H & ->).
  destruct r1 as [e|]; [discriminate|].
  apply bind_Ret_inv in H. destruct H as (brief & r2 & post & H2 & H3 & ->).
  destruct r2 as [e|]; [discriminate|].
  exists pre, brief, post. repeat split; auto.
  - intros e Hin.
    destruct (print_status_done _ _ _ _ H1 e Hin) as (attr & valStr & Ha & ->).
    exists valStr. destruct Ha as [<- | [<- | []]]; auto.
  - intros e Hin.
    destruct (print_status_done _ _ _ _ H3 e Hin) as (attr & valStr & Ha & ->).
    exists valStr. destruct Ha as [<- | []]; auto.
Qed.

Lemma HandleAck_brief_status_is_part_of_the_full_status_witness :
  exists pre brief post,
    fst (GetStatus.HandleAck StatusSample.json true StatusSample.content)
    = (pre ++ brief ++ post)%list
    /\ GetStatus.HandleAck StatusSample.json false StatusSample.content
       = (brief, Ret None)
    /\ (forall e, In e pre ->
          exists valStr, e = Println ("device: " ++ valStr)
                         \/ e = Println ("firmware: " ++ valStr))
    /\ (forall e, In e post ->
          exists valStr, e = Println ("suntimes: " ++ valStr)).
Proof.
  apply HandleAck_brief_status_is_part_of_the_full_status.
  vm_compute. reflexivity.
Defined.

(** ** [strings.Trim] on the values of the status *)

Lemma TrimRight_snoc (s : string) :
  GetStatus.TrimRight (s ++ String GetStatus.quote "") = GetStatus.TrimRight s.
Proof.
  induction s as [|c s IH]; [reflexivity|].
  cbn [append GetStatus.TrimRight]. now rewrite IH.
Qed.

Lemma TrimRight_idem (s : string) :
  GetStatus.TrimRight (GetStatus.TrimRight s) = GetStatus.TrimRight s.
Proof.
  induction s as [|c s IH]; [reflexivity|].
  cbn [GetStatus.TrimRight].
  destruct (GetStatus.TrimRight s) as [|c' s'] eqn:E.
  - destruct (Ascii.eqb c GetStatus.quote) eqn:Ec; [reflexivity|].
    cbn [GetStatus.TrimRight]. now rewrite Ec.
  - cbn [GetStatus.TrimRight] in *. now rewrite IH.
Qed.

Lemma TrimRight_head (s : string) (c : ascii) (r : string) :
  GetStatus.TrimRight s = String c r -> exists r', s = String c r'.
Proof.
  destruct s as [|c' s]; [discriminate|]. cbn [GetStatus.TrimRight].
  destruct (GetStatus.TrimRight s).
  - destruct (Ascii.eqb c' GetStatus.quote); [discriminate|].
    intros [= -> _]. eauto.
  - intros [= -> _]. eauto.
Qed.

Lemma TrimLeft_head (s : string) (c : ascii) (r : string) :
  GetStatus.TrimLeft s = String c r -> c <> GetStatus.quote.
Proof.
  induction s as [|c' s IH]; [discriminate|]. cbn [GetStatus.TrimLeft].
  destruct (Ascii.eqb c' GetStatus.quote) eqn:E; [exact IH|].
  intros [= -> _]. now apply Ascii.eqb_neq.
Qed.

Lemma TrimLeft_fixed (s : string) :
  (forall c r, s = String c r -> c <> GetStatus.quote) ->
  GetStatus.TrimLeft s = s.
Proof.
  destruct s as [|c s]; [reflexivity|]. intros H. cbn [GetStatus.TrimLeft].
  specialize (H c s eq_refl). apply Ascii.eqb_neq in H. now rewrite H.
Qed.

Lemma TrimRight_last (s r : string) :
  GetStatus.TrimRight s <> r ++ String GetStatus.quote "".
Proof.
  revert r. induction s as [|c s IH]; intros r.
  - destruct r; discriminate.
  - cbn [GetStatus.TrimRight].
    destruct (GetStatus.TrimRight s) as [|c' s'] eqn:E.
    + destruct (Ascii.eqb c GetStatus.quote) eqn:Ec.
      * destruct r; discriminate.
      * apply Ascii.eqb_neq in Ec.
        destruct r as [|c1 [|c2 r]]; cbn [append]; congruence.
    + destruct r as [|c1 r]; cbn [append]; [congruence|].
      intros [= -> H]. now apply (IH r).
Qed.

Lemma Trim_snoc (s : string) :
  GetStatus.Trim (s ++ String GetStatus.quote "") = GetStatus.Trim s.
Proof.
  unfold GetStatus.Trim. induction s as [|c s IH]; [reflexivity|].
  cbn [append GetStatus.TrimLeft].
  destruct (Ascii.eqb c GetStatus.quote); [exact IH|].
  change (String c (s ++ String GetStatus.quote ""))
    with (String c s ++ String GetStatus.quote "").
  apply TrimRight_snoc.
Qed.

(** X12: [strings.Trim] with the double quote as cutset, as [HandleAck]
    applies it to a value that is not an object, takes the quotes off a
    JSON string: what it returns neither starts nor ends with a quote, it
    is the same for a text with and without quotes around it, and
    trimming it again changes nothing. *)
Theorem Trim_takes_the_quotes_off_a_JSON_string (s : string) :
  GetStatus.Trim (String GetStatus.quote (s ++ String GetStatus.quote ""))
  = GetStatus.Trim s
  /\ GetStatus.Trim (GetStatus.Trim s) = GetStatus.Trim s
  /\ (forall c r, GetStatus.Trim s = String c r -> c <> GetStatus.quote)
  /\ (forall r, GetStatus.Trim s <> r ++ String GetStatus.quote "").
Proof.
  assert (Hhead : forall c r, GetStatus.Trim s = String c r -> c <> GetStatus.quote).
  { unfold GetStatus.Trim. intros c r H.
    apply TrimRight_head in H. destruct H as (r' & H).
    now apply TrimLeft_head in H. }
  split; [|split; [|split]].
  - change (String GetStatus.quote (s ++ String GetStatus.quote ""))
      with (String GetStatus.quote s ++ String GetStatus.quote "").
    rewrite Trim_snoc. reflexivity.
  - unfold GetStatus.Trim at 1.
    rewrite (TrimLeft_fixed (GetStatus.Trim s) Hhead).
    unfold GetStatus.Trim. apply TrimRight_idem.
  - exact Hhead.
  - intros r. apply TrimRight_last.
Qed.

(** ** Invocations that end before the session *)

(** X13: with [-help] or [-version] the process prints the usage text,
    or the version line when [-help] is not given, and exits with status 0
    before anything else is looked at: the configuration files, the host
    name and the arguments play no part, and nothing goes to the broker. *)
Theorem help_and_version_end_the_process_first (w : Main.World) :
  Main.help (Main.flags w) || Main.version_flag (Main.flags w) = true ->
  Main.main w
  = ([if Main.help (Main.flags w)
      then Usage
      else Println (Main.binaryName w ++ " " ++ Main.version w
                    ++ " compiled with " ++ Main.runtime_Version w
                    ++ " on " ++ Main.GOOS w ++ "/" ++ Main.GOARCH w)],
     Main.Exited 0).
Proof.
  intros H. unfold Main.main, Main.main_body, Main.parseCommandLine.
  destruct (Main.help (Main.flags w)); [reflexivity|].
  cbn [orb] in H. rewrite H. reflexivity.
Qed.

Lemma help_and_version_end_the_process_first_witness :
  Main.main Worlds.help_requested = ([Usage], Main.Exited 0)
  /\ Main.main Worlds.version_requested
     = ([Println "indy-mqtt v.0.0.1 compiled with go1.21 on linux/amd64"],
        Main.Exited 0).
Proof.
  split.
  - exact (help_and_version_end_the_process_first Worlds.help_requested eq_refl).
  - exact (help_and_version_end_the_process_first Worlds.version_requested eq_refl).
Defined.

(** X14: when the configuration is complete and the host name is known,
    arguments that [NewCommand] rejects end the process with the error
    text, its first letter capitalized, on standard error, then the usage
    text, and exit status 0; nothing goes to the broker. *)
Theorem usage_error_exits_with_status_0_before_connecting
  (w : Main.World) (config : Config.Config) (hostname err : string) :
  Main.help (Main.flags w) = false ->
  Main.version_flag (Main.flags w) = false ->
  Config.LoadConfig (Main.files w) = ([], Ret config) ->
  Main.os_Hostname w = inl hostname ->
  Command.NewCommand (Main.cmd_env w) (hostname ++ "-" ++ Main.binaryName w)
                     (Main.positional (Main.flags w)) = inr err ->
  Main.main w
  = ([Fprint_stderr ("ERROR: " ++ Util.capitalizeFirstLetter err); Usage],
     Main.Exited 0).
Proof.
  intros Hh Hv Hc Hn He.
  unfold Main.main, Main.main_body, Main.parseCommandLine.
  rewrite Hh, Hv, bind_ret_l, Hc, bind_nil_l, Hn, bind_ret_l, He.
  reflexivity.
Qed.

Lemma usage_error_exits_with_status_0_before_connecting_witness :
  Main.main (Sample.world ["switch"; "maybe"] [])
  = ([Fprint_stderr
        "ERROR: Switch command is expecting on or off instead of maybe";
      Usage],
     Main.Exited 0).
Proof.
  exact (usage_error_exits_with_status_0_before_connecting
           (Sample.world ["switch"; "maybe"] [])
           (Config.mkConfig
              (Config.mkRegular (Some "broker.example.org") (Some 8883))
              (Config.mkSecrets (Some "foobar") (Some "changeme")))
           "laptop"
           "switch command is expecting on or off instead of maybe"
           eq_refl eq_refl eq_refl eq_refl eq_refl).
Defined.

(** ** The wait for the publish *)

(** A [select] blocks exactly when none of its cases ever becomes ready. *)
Lemma select_blocks {C : Type} (start : Z) (cases : list (C * option Z))
      (pick : nat) :
  Main.select start cases pick = None
  <-> forall c, In c cases -> snd c = None.
Proof.
  split.
  - intros H [label [t|]] Hin; [exfalso|reflexivity].
    destruct (select_returns start cases pick (label, Some t) (Z.max start t) Hin)
      as (l' & f & E); [reflexivity|congruence].
  - intros H. unfold Main.select.
    destruct (Main.earliest start cases) as [f|] eqn:E; [|reflexivity].
    destruct (earliest_attained _ _ _ E) as ([label r] & Hin & Hr).
    apply H in Hin. simpl in Hin. subst r. discriminate.
Qed.

Section PublishWait.

Variable w : Main.World.

Let start : Z := Main.t_publish_wait w.

Let cases : list (Main.PublishCase * option Z) :=
  [(Main.CaseTokenDone, option_map fst (Main.publish_done w));
   (Main.CasePublishInterrupt, Main.interrupt_at w)].

(** The token is done first. *)
Lemma publish_wait_token (t : Z) (err : option string) :
  Main.publish_done w = Some (t, err) ->
  (forall ti, Main.interrupt_at w = Some ti -> Z.max start t < ti) ->
  Main.publish_wait w
  = match err with
    | Some e => ([Outcome.publish_failed_report e], Ret false)
    | None => ([Outcome.published_report], Ret true)
    end.
Proof.
  intros Hd Hint. unfold Main.publish_wait. fold start. fold cases.
  assert (Hready : Main.ready_time start
                     (Main.CaseTokenDone, option_map fst (Main.publish_done w))
                   = Some (Z.max start t))
    by (unfold Main.ready_time; simpl; now rewrite Hd).
  destruct (select_returns start cases (Main.pick_publish w) _ _
              (or_introl eq_refl) Hready) as (c & f & E).
  rewrite E. apply select_fires in E. destruct E as [(r & Hin & Hr) Hmin].
  assert (Hf : f <= Z.max start t)
    by (apply (Hmin _ _ (or_introl eq_refl) Hready)).
  destruct Hin as [Hin | [Hin | []]]; injection Hin as <- <-.
  - rewrite Hd. destruct err; reflexivity.
  - exfalso. unfold Main.ready_time in Hr. simpl in Hr.
    destruct (Main.interrupt_at w) as [ti|]; [|discriminate].
    specialize (Hint ti eq_refl). simpl in Hr. injection Hr as Hr. lia.
Qed.

(** The signal comes first. *)
Lemma publish_wait_interrupted (ti : Z) :
  Main.interrupt_at w = Some ti ->
  (forall t err, Main.publish_done w = Some (t, err) -> Z.max start ti < t) ->
  Main.publish_wait w = ([Outcome.interrupt_report], Ret false).
Proof.
  intros Hi Hd. unfold Main.publish_wait. fold start. fold cases.
  assert (Hready : Main.ready_time start
                     (Main.CasePublishInterrupt, Main.interrupt_at w)
                   = Some (Z.max start ti))
    by (unfold Main.ready_time; simpl; now rewrite Hi).
  destruct (select_returns start cases (Main.pick_publish w) _ _
              (or_intror (or_introl eq_refl)) Hready) as (c & f & E).
  rewrite E. apply select_fires in E. destruct E as [(r & Hin & Hr) Hmin].
  assert (Hf : f <= Z.max start ti)
    by (apply (Hmin _ _ (or_intror (or_introl eq_refl)) Hready)).
  destruct Hin as [Hin | [Hin | []]]; injection Hin as <- <-.
  - exfalso. unfold Main.ready_time in Hr. simpl in Hr.
    destruct (Main.publish_done w) as [[t err]|]; [|discriminate].
    specialize (Hd t err eq_refl). simpl in Hr. injection Hr as Hr. lia.
  - reflexivity.
Qed.

(** The wait blocks exactly when neither ever happens. *)
Lemma publish_wait_blocks :
  snd (Main.publish_wait w) = Blocked
  <-> Main.publish_done w = None /\ Main.interrupt_at w = None.
Proof.
  unfold Main.publish_wait. fold start. fold cases.
  pose proof (select_blocks start cases (Main.pick_publish w)) as B.
  destruct (Main.select start cases (Main.pick_publish w)) as [[c f]|].
  - split.
    + destruct c; [destruct (Main.publish_done w) as [[t [e|]]|]|]; discriminate.
    + intros [Hd Hi]. exfalso.
      assert (H : forall c, In c cases -> snd c = None).
      { intros c' [<- | [<- | []]]; simpl; [now rewrite Hd|exact Hi]. }
      apply B in H. discriminate.
  - split; [intros _|reflexivity].
    destruct B as [B _]. specialize (B eq_refl). split.
    + specialize (B _ (or_introl eq_refl)). simpl in B.
      destruct (Main.publish_done w); [discriminate|reflexivity].
    + exact (B _ (or_intror (or_introl eq_refl))).
Qed.

End PublishWait.

Section EngineEnds.

Variable w : Main.World.
Variable cmd : Command.Command.
Variable bytes : string.

Let mid : string := Message.MessageID (Message.Header_ (Command.Message cmd)).
Let publish : Effect :=
  Publish (Command.Topic cmd) (Command.QOS cmd) false bytes.
Let closing : list Effect :=
  [Disconnect Main.DISCONNECT_WAIT; Outcome.disconnected_report].

(** X15: when the publish token is done with an error before any
    interrupt, the engine logs the failure and goes straight to the
    disconnect: it does not watch for an ack, whatever is waiting on
    [ackCh] and whether or not the command expects one, the ack handler is
    not called, and the outcome is the failed publish. *)
Theorem failed_publish_goes_straight_to_the_disconnect (t : Z) (err : string) :
  Main.publish_done w = Some (t, Some err) ->
  (forall ti, Main.interrupt_at w = Some ti ->
              Z.max (Main.t_publish_wait w) t < ti) ->
  Main.engine w cmd bytes
  = ((publish :: Outcome.publish_failed_report err :: closing)%list, Ret tt)
  /\ Outcome.spec_outcome (fst (Main.engine w cmd bytes))
     = Some Outcome.PublishFailed
  /\ Outcome.count Outcome.is_handler_call (fst (Main.engine w cmd bytes)) = 0%nat.
Proof.
  intros Hd Hint.
  assert (E : Main.engine w cmd bytes
              = ((publish :: Outcome.publish_failed_report err :: closing)%list,
                 Ret tt)).
  { rewrite engine_unfold, (publish_wait_token w t (Some err) Hd Hint).
    now rewrite andb_false_r. }
  rewrite E. repeat split.
Qed.

(** X16: when the interrupt signal is delivered before the publish token
    is done, the engine prints the interrupt line and goes straight to the
    disconnect: no wait for an ack, no call of the ack handler; the
    outcome is the interruption. *)
Theorem interrupt_before_the_publish_is_confirmed (ti : Z) :
  Main.interrupt_at w = Some ti ->
  (forall t err, Main.publish_done w = Some (t, err) ->
                 Z.max (Main.t_publish_wait w) ti < t) ->
  Main.engine w cmd bytes
  = ((publish :: Outcome.interrupt_report :: closing)%list, Ret tt)
  /\ Outcome.spec_outcome (fst (Main.engine w cmd bytes))
     = Some Outcome.Interrupted
  /\ Outcome.count Outcome.is_handler_call (fst (Main.engine w cmd bytes)) = 0%nat.
Proof.
  intros Hi Hd.
  assert (E : Main.engine w cmd bytes
              = ((publish :: Outcome.interrupt_report :: closing)%list, Ret tt)).
  { rewrite engine_unfold, (publish_wait_interrupted w ti Hi Hd).
    now rewrite andb_false_r. }
  rewrite E. repeat split.
Qed.

(** The engine blocks exactly when the publish wait does. *)
Lemma engine_blocks :
  (snd (Main.engine w cmd bytes) = Blocked
   <-> Main.publish_done w = None /\ Main.interrupt_at w = None)
  /\ (snd (Main.engine w cmd bytes) = Blocked ->
      fst (Main.engine w cmd bytes) = [publish]).
Proof.
  pose proof (publish_wait_blocks w) as B.
  rewrite engine_unfold.
  destruct (publish_wait_cases w) as [E | [[e E] | [E | E]]];
    rewrite E in *; cbn [fst snd] in *.
  - split; [|discriminate]. split; [discriminate|].
    intros H. apply B in H. discriminate.
  - split; [|discriminate]. split; [discriminate|].
    intros H. apply B in H. discriminate.
  - split; [|discriminate]. split; [discriminate|].
    intros H. apply B in H. discriminate.
  - split; [|reflexivity]. split; [intros _; now apply B|reflexivity].
Qed.



End EngineEnds.

Lemma failed_publish_goes_straight_to_the_disconnect_witness :
  Main.main Worlds.publish_rejected
  = ((fst (Main.setup Worlds.publish_rejected)
      ++ [Publish "indy-switch/esp-vorona/control" 2 false
                  "<laptop-indy-mqtt-A18F-6D4B>";
          Outcome.publish_failed_report "connection lost";
          Disconnect Main.DISCONNECT_WAIT; Outcome.disconnected_report])%list,
     Main.Exited 0).
Proof.
  rewrite (main_connected Worlds.publish_rejected _ Sample.switch_on
                          "<laptop-indy-mqtt-A18F-6D4B>" eq_refl).
  destruct (failed_publish_goes_straight_to_the_disconnect
              Worlds.publish_rejected Sample.switch_on
              "<laptop-indy-mqtt-A18F-6D4B>" (2 * Main.Second) "connection lost")
    as (E & _).
  - reflexivity.
  - intros ti H. discriminate.
  - rewrite E. reflexivity.
Defined.

Lemma interrupt_before_the_publish_is_confirmed_witness :
  Outcome.spec_outcome
    (fst (Main.engine Worlds.interrupted_early Sample.switch_on
                      "<laptop-indy-mqtt-A18F-6D4B>"))
  = Some Outcome.Interrupted.
Proof.
  destruct (interrupt_before_the_publish_is_confirmed
              Worlds.interrupted_early Sample.switch_on
              "<laptop-indy-mqtt-A18F-6D4B>" 1500000000)
    as (_ & E & _).
  - reflexivity.
  - intros t err H. injection H as <- <-. vm_compute. reflexivity.
  - exact E.
Defined.


(** X18: the process hangs exactly when the session was set up, the
    publish token is never done and no interrupt signal is ever
    delivered; the last thing it has done is then the publish.  The wait
    for the publish has no timer: it is the one wait of the program that
    nothing bounds. *)
Theorem main_hangs_exactly_in_the_publish_wait (w : Main.World) :
  (snd (Main.main w) = Main.Hung
   <-> (exists tr0 cmd bytes, Main.setup w = (tr0, Ret (cmd, bytes)))
       /\ Main.publish_done w = None /\ Main.interrupt_at w = None)
  /\ (snd (Main.main w) = Main.Hung ->
      exists tr0 cmd bytes,
        Main.setup w = (tr0, Ret (cmd, bytes))
        /\ fst (Main.main w)
           = (tr0 ++ [Publish (Command.Topic cmd) (Command.QOS cmd) false bytes])%list).
Proof.
  destruct (setup_cases w)
    as [(tr0 & cmd & bytes & E & _) | [(pre & last & E & _) | (pre & f & a & E & _)]].
  - rewrite (main_connected w tr0 cmd bytes E). cbn [fst snd].
    destruct (engine_blocks w cmd bytes) as [B T].
    assert (S : Main.status_of (snd (Main.engine w cmd bytes)) = Main.Hung
                <-> snd (Main.engine w cmd bytes) = Blocked).
    { destruct (snd (Main.engine w cmd bytes)); simpl; split;
        congruence. }
    split.
    + rewrite S, B. split; [intros H; split; [eauto|exact H]|tauto].
    + intros H. apply S in H. exists tr0, cmd, bytes.
      split; [exact E|]. now rewrite (T H).
  - rewrite (main_not_connected w _ _ E). cbn [snd]. split.
    + split; [discriminate|].
      intros [(tr0 & cmd & bytes & E') _]. rewrite E in E'. discriminate.
    + discriminate.
  - rewrite (main_not_connected w _ _ E). cbn [snd]. split.
    + split; [discriminate|].
      intros [(tr0 & cmd & bytes & E') _]. rewrite E in E'. discriminate.
    + discriminate.
Qed.

(** ** The connection *)

Lemma waiter_log_Printf (w : Main.World) (ackTopic : string) (fired : Z) (e : Effect) :
  In e (Main.subscribe_waiter_log ackTopic w fired) ->
  exists l format args, e = Printf l format args.
Proof.
  unfold Main.subscribe_waiter_log.
  destruct (Main.subscribe_done w) as [[t [err|]]|]; [| |intros []];
    (destruct (_ <=? _); simpl; [intros [<- | []]; eauto|intros []]).
Qed.

(** X19: a subscription that the broker rejects is noticed only by the
    timeout: the goroutine that waits for the token logs the failure and
    never closes [subscribed], so [connect] waits the 30 seconds, logs the
    timeout, and returns the client without error. *)
Theorem rejected_subscription_is_noticed_only_by_the_timeout
  (w : Main.World) (h : string) (p : Z) (u pw clientID host : string)
  (t : Z) (err : string) :
  let config := Config.mkConfig (Config.mkRegular (Some h) (Some p))
                                (Config.mkSecrets (Some u) (Some pw)) in
  let brokerUrl := "ssl://" ++ h ++ ":" ++ Main.fmt_d p in
  let ackTopic := "indy-switch/" ++ host ++ "/ack" in
  let start := Main.t_subscribe_wait w in
  Main.connect_error w = None ->
  Main.subscribe_done w = Some (t, Some err) ->
  Main.connect w config clientID true host
  = ([Printf INFO "Connecting to '%s' as user '%s' with client ID '%s'"
             [AStr brokerUrl; AStr u; AStr clientID];
      Connect brokerUrl clientID u pw;
      Printf INFO "Connection established" [];
      Printf INFO "Subscribing to '%s'" [AStr ackTopic];
      Subscribe ackTopic Main.ACK_QOS]
     ++ (if Z.max start t <=? start + Main.TIMEOUT
         then [Printf ERROR "Failed to subscribe to '%s': %v"
                      [AStr ackTopic; AStr err]]
         else [])
     ++ [Printf ERROR "Timed out while waiting to subscribe to '%s'"
                [AStr ackTopic]],
     Ret (inl (Main.mkClient brokerUrl clientID)))%list.
Proof.
  intros config brokerUrl ackTopic start Hc Hs.
  unfold Main.connect, config.
  cbn [Config.regular Config.secrets Config.Hostname Config.Port
       Config.Username Config.Password Main.deref].
  rewrite !bind_ret_l, Hc. fold brokerUrl ackTopic start.
  assert (Hat : Main.subscribed_at ackTopic w = None)
    by (unfold Main.subscribed_at; now rewrite Hs).
  rewrite Hat.
  set (cases := [(Main.CaseSubscribed, None);
                 (Main.CaseSubscribeTimer, Some (start + Main.TIMEOUT))]).
  assert (Hready : Main.ready_time start
                     (Main.CaseSubscribeTimer, Some (start + Main.TIMEOUT))
                   = Some (start + Main.TIMEOUT)).
  { unfold Main.ready_time. simpl. f_equal.
    unfold Main.TIMEOUT, Main.Second. lia. }
  destruct (select_returns start cases (Main.pick_subscribe w) _ _
              (or_intror (or_introl eq_refl)) Hready) as (c & f & E).
  rewrite E. apply select_fires in E. destruct E as [(r & Hin & Hr) _].
  destruct Hin as [Hin | [Hin | []]]; injection Hin as <- <-.
  - discriminate.
  - rewrite Hready in Hr. injection Hr as <-.
    unfold Main.subscribe_waiter_log. rewrite Hs. fold start.
    destruct (Z.max start t <=? start + Main.TIMEOUT); reflexivity.
Qed.

Lemma rejected_subscription_is_noticed_only_by_the_timeout_witness :
  Main.connect Worlds.subscription_rejected
    (Config.mkConfig (Config.mkRegular (Some "broker.example.org") (Some 8883))
                     (Config.mkSecrets (Some "foobar") (Some "changeme")))
    "laptop-indy-mqtt" true "esp-vorona"
  = ([Printf INFO "Connecting to '%s' as user '%s' with client ID '%s'"
             [AStr "ssl://broker.example.org:8883"; AStr "foobar";
              AStr "laptop-indy-mqtt"];
      Connect "ssl://broker.example.org:8883" "laptop-indy-mqtt" "foobar"
              "changeme";
      Printf INFO "Connection established" [];
      Printf INFO "Subscribing to '%s'" [AStr "indy-switch/esp-vorona/ack"];
      Subscribe "indy-switch/esp-vorona/ack" 1;
      Printf ERROR "Failed to subscribe to '%s': %v"
             [AStr "indy-switch/esp-vorona/ack"; AStr "not authorized"];
      Printf ERROR "Timed out while waiting to subscribe to '%s'"
             [AStr "indy-switch/esp-vorona/ack"]],
     Ret (inl (Main.mkClient "ssl://broker.example.org:8883"
                             "laptop-indy-mqtt"))).
Proof.
  exact (rejected_subscription_is_noticed_only_by_the_timeout
           Worlds.subscription_rejected "broker.example.org" 8883
           "foobar" "changeme" "laptop-indy-mqtt" "esp-vorona"
           (1 * Main.Second) "not authorized" eq_refl eq_refl).
Defined.

(** X20: with a configuration that [LoadConfig] returned, [connect]
    always returns: it dereferences no nil field and its wait is bounded
    by the timer.  It dials the broker once, returns an error exactly
    when the connection attempt gave one, subscribes once, to the ack
    topic of the host at QoS 1, exactly when an ack is expected and the
    connection was made, and neither publishes nor disconnects. *)
Theorem connect_returns_for_a_loaded_configuration
  (fs : Config.Files) (tr0 : list Effect) (config : Config.Config)
  (w : Main.World) (clientID host : string) (isAckExpected : bool) :
  Config.LoadConfig fs = (tr0, Ret config) ->
  exists tr r,
    Main.connect w config clientID isAckExpected host = (tr, Ret r)
    /\ Outcome.count Outcome.is_connect tr = 1%nat
    /\ (forall err, r = inr err <-> Main.connect_error w = Some err)
    /\ Outcome.count Outcome.is_subscribe tr
       = (if isAckExpected
          then match Main.connect_error w with None => 1 | Some _ => 0 end
          else 0)%nat
    /\ (forall topic qos, In (Subscribe topic qos) tr ->
          topic = "indy-switch/" ++ host ++ "/ack" /\ qos = 1)
    /\ Outcome.count Outcome.is_publish tr = 0%nat
    /\ Outcome.count Outcome.is_disconnect tr = 0%nat.
Proof.
  intros Hl.
  destruct (LoadConfig_cases fs)
    as [(h & p & u & pw & E) | (f & a & E & _)];
    rewrite E in Hl; [|discriminate].
  injection Hl as _ <-.
  destruct (Main.connect_error w) as [err|] eqn:Ec.
  - rewrite (connect_refused w h p u pw clientID host isAckExpected err Ec).
    do 2 eexists. split; [reflexivity|].
    repeat split; try (destruct isAckExpected; reflexivity).
    + intros [= ->]. reflexivity.
    + intros [= ->]. reflexivity.
    + destruct H as [H | [H | []]]; discriminate.
    + destruct H as [H | [H | []]]; discriminate.
  - destruct isAckExpected.
    + destruct (connect_ack w h p u pw clientID host Ec)
        as (waited & -> & fired & Hw).
      do 2 eexists. split; [reflexivity|].
      assert (Hp : forall q, (forall l f a, q (Printf l f a) = false) ->
                             Outcome.count q waited = 0%nat).
      { intros q Hq. destruct Hw as [-> | ->].
        - now apply waiter_log_plain.
        - rewrite count_app, waiter_log_plain by exact Hq.
          unfold Outcome.count. simpl. now rewrite Hq. }
      assert (Hi : forall e, In e waited -> exists l f a, e = Printf l f a).
      { intros e He. destruct Hw as [-> | ->].
        - now apply waiter_log_Printf in He.
        - apply in_app_or in He. destruct He as [He | [<- | []]]; [|eauto].
          now apply waiter_log_Printf in He. }
      repeat split.
      * cbn [app]. rewrite !count_cons, Hp by reflexivity. reflexivity.
      * discriminate.
      * discriminate.
      * cbn [app]. rewrite !count_cons, Hp by reflexivity. reflexivity.
      * cbn [app] in H.
        destruct H as [H | [H | [H | [H | [H | H]]]]]; try discriminate.
        -- now injection H as <- <-.
        -- apply Hi in H. destruct H as (l & f & a & H). discriminate.
      * cbn [app] in H.
        destruct H as [H | [H | [H | [H | [H | H]]]]]; try discriminate.
        -- now injection H as <- <-.
        -- apply Hi in H. destruct H as (l & f & a & H). discriminate.
      * cbn [app]. rewrite !count_cons, Hp by reflexivity. reflexivity.
      * cbn [app]. rewrite !count_cons, Hp by reflexivity. reflexivity.
    + rewrite (connect_no_ack w h p u pw clientID host Ec).
      do 2 eexists. split; [reflexivity|].
      repeat split; try discriminate.
      * cbn [app] in H. destruct H as [H | [H | [H | []]]]; discriminate.
      * cbn [app] in H. destruct H as [H | [H | [H | []]]]; discriminate.
Qed.

Lemma connect_returns_for_a_loaded_configuration_witness :
  exists tr r,
    Main.connect Sample.broker_unreachable
      (Config.mkConfig (Config.mkRegular (Some "broker.example.org") (Some 8883))
                       (Config.mkSecrets (Some "foobar") (Some "changeme")))
      "laptop-indy-mqtt" true "esp-vorona" = (tr, Ret r)
    /\ Outcome.count Outcome.is_connect tr = 1%nat
    /\ (forall err, r = inr err
                    <-> Main.connect_error Sample.broker_unreachable = Some err)
    /\ Outcome.count Outcome.is_subscribe tr
       = (if true
          then match Main.connect_error Sample.broker_unreachable with
               | None => 1
               | Some _ => 0
               end
          else 0)%nat
    /\ (forall topic qos, In (Subscribe topic qos) tr ->
          topic = "indy-switch/" ++ "esp-vorona" ++ "/ack" /\ qos = 1)
    /\ Outcome.count Outcome.is_publish tr = 0%nat
    /\ Outcome.count Outcome.is_disconnect tr = 0%nat.
Proof.
  apply (connect_returns_for_a_loaded_configuration Sample.sample_files []).
  reflexivity.
Defined.

(** ** The callbacks of the session *)


(** X22: the subscription callback forwards on [ackCh] exactly the
    payloads that parse as an ack, with or without [-verbose] and whether
    or not the payload can be indented; a payload that does not parse is
    reported on the error log and echoed on standard error, and nothing
    is forwarded; without [-verbose] a payload that parses is forwarded
    in silence; the callback always returns and goes to the broker for
    nothing. *)
Theorem ackCallback_forwards_exactly_what_parses
  (verbose : bool) (payload : string) (indented : string + string)
  (parsed : Message.AckMessage + string) :
  exists tr,
    Main.ackCallback verbose payload indented parsed
    = (tr, Ret (match parsed with inl ack => Some ack | inr _ => None end))
    /\ (forall e, In e tr ->
          (exists l format args, e = Printf l format args)
          \/ e = Fprint_stderr payload)
    /\ (forall perr, parsed = inr perr ->
          exists shown,
            tr = (shown ++ [Printf ERROR "ACK could not be parsed: %v"
                                   [AStr perr];
                            Fprint_stderr payload])%list)
    /\ (verbose = false -> forall ack, parsed = inl ack -> tr = []).
Proof.
  unfold Main.ackCallback, Main.prettifyJSON.
  destruct verbose, indented as [buffer|ierr], parsed as [ack|perr];
    (eexists; split; [reflexivity|]; split; [|split]);
    try discriminate; try (intros; reflexivity);
    try (intros e H; cbn in H;
         repeat (destruct H as [<- | H]; [eauto 6|]); now destruct H);
    intros perr' [= <-].
  - now exists [Printf INFO "ACK received:\n%s" [AStr buffer]].
  - now exists [Printf ERROR "Unable to prettify '%s': %v"
                       [AStr payload; AStr ierr];
                Printf INFO "ACK received:\n%s" [AStr ""]].
  - now exists [].
  - now exists [].
Qed.



(** ** The configuration *)

(** X24: [LoadConfig] returns exactly when both files can be read and
    decoded and hold all four fields, and then without having logged
    anything; otherwise it ends the process with status 1 after one line
    on the error log; and a problem with [config.json] is reported, with
    the path of that file, whatever [config-secrets.json] holds. *)
Theorem LoadConfig_returns_exactly_for_two_complete_files (fs : Config.Files) :
  let path1 := "internal/config/config.json" in
  let path2 := "internal/config/config-secrets.json" in
  (forall tr config,
      Config.LoadConfig fs = (tr, Ret config)
      <-> tr = []
          /\ exists bytes1 bytes2 h p u pw,
               Config.ReadFile fs path1 = inl bytes1
               /\ Config.Unmarshal_regular fs bytes1
                  = inl (Config.mkRegular (Some h) (Some p))
               /\ Config.ReadFile fs path2 = inl bytes2
               /\ Config.Unmarshal_secrets fs bytes2
                  = inl (Config.mkSecrets (Some u) (Some pw))
               /\ config = Config.mkConfig (Config.mkRegular (Some h) (Some p))
                                           (Config.mkSecrets (Some u) (Some pw)))
  /\ ((exists tr config, Config.LoadConfig fs = (tr, Ret config))
      \/ exists format args,
           Config.LoadConfig fs = ([Printf ERROR format args], Exit 1))
  /\ ((forall bytes h p,
          Config.ReadFile fs path1 = inl bytes ->
          Config.Unmarshal_regular fs bytes
          <> inl (Config.mkRegular (Some h) (Some p))) ->
      (exists format args,
          Config.LoadConfig fs
          = ([Printf ERROR format (AStr path1 :: args)], Exit 1))
      /\ forall fs',
           Config.ReadFile fs' path1 = Config.ReadFile fs path1 ->
           (forall bytes, Config.Unmarshal_regular fs' bytes
                          = Config.Unmarshal_regular fs bytes) ->
           Config.LoadConfig fs' = Config.LoadConfig fs).
Proof.
  intros path1 path2.
  split; [|split].
  - intros tr config. unfold Config.LoadConfig, Config.loadConfig.
    fold path1. fold path2. split.
    + destruct (Config.ReadFile fs path1) as [bytes1|e1]; [|discriminate].
      destruct (Config.Unmarshal_regular fs bytes1) as [[[h|] [p|]]|e1] eqn:U1;
        try discriminate.
      rewrite bind_ret_l.
      cbn [Config.checkFields_regular Config.Hostname Config.Port].
      rewrite bind_ret_l.
      destruct (Config.ReadFile fs path2) as [bytes2|e2]; [|discriminate].
      destruct (Config.Unmarshal_secrets fs bytes2) as [[[u|] [pw|]]|e2] eqn:U2;
        try discriminate.
      intros [= <- <-]. split; [reflexivity|].
      exists bytes1, bytes2, h, p, u, pw. auto.
    + intros (-> & b1 & b2 & h & p & u & pw & -> & -> & -> & -> & ->).
      reflexivity.
  - destruct (LoadConfig_cases fs) as [(h & p & u & pw & E) | (f & a & E & _)].
    + left. eauto.
    + right. eauto.
  - intros Hinc. unfold Config.LoadConfig, Config.loadConfig.
    fold path1. fold path2.
    destruct (Config.ReadFile fs path1) as [bytes1|e1] eqn:R1.
    + destruct (Config.Unmarshal_regular fs bytes1) as [[[h|] [p|]]|e1] eqn:U1.
      * exfalso. exact (Hinc bytes1 h p eq_refl U1).
      * split; [do 2 eexists; reflexivity|].
        intros fs' -> Hu. now rewrite Hu, U1.
      * split; [do 2 eexists; reflexivity|].
        intros fs' -> Hu. now rewrite Hu, U1.
      * split; [do 2 eexists; reflexivity|].
        intros fs' -> Hu. now rewrite Hu, U1.
      * split; [do 2 eexists; reflexivity|].
        intros fs' -> Hu. now rewrite Hu, U1.
    + split; [do 2 eexists; reflexivity|].
      intros fs' -> _. reflexivity.
Qed.

(** ** Error texts and topics *)


Lemma ToTitle_lower (c : ascii) :
  Texts.is_lower c = true ->
  Util.ToTitle c = ascii_of_nat (nat_of_ascii c - 32)
  /\ Texts.is_lower (Util.ToTitle c) = false.
Proof.
  destruct c as [[] [] [] [] [] [] [] []]; vm_compute;
    (discriminate || (intros _; split; reflexivity)).
Qed.


Lemma NewControlCommand_error (env : Command.Env) (clientID host : string)
      (args : list string) (err : string) :
  Command.NewControlCommand env clientID host args = inr err ->
  Texts.starts_lower err = true.
Proof.
  unfold Command.NewControlCommand.
  destruct args as [|a [|b rest]].
  - intros [= <-]. reflexivity.
  - destruct (negb (String.eqb a "on") && negb (String.eqb a "off"));
      [|discriminate].
    intros [= <-]. reflexivity.
  - destruct (negb (String.eqb a "on") && negb (String.eqb a "off"));
      intros [= <-]; reflexivity.
Qed.

Lemma NewGetStatusCommand_error (env : Command.Env) (clientID host : string)
      (args : list string) (err : string) :
  Command.NewGetStatusCommand env clientID host args = inr err ->
  Texts.starts_lower err = true.
Proof.
  unfold Command.NewGetStatusCommand.
  destruct args as [|a [|b rest]].
  - discriminate.
  - destruct (negb (String.eqb a "all")); [|discriminate].
    intros [= <-]. reflexivity.
  - intros [= <-]. reflexivity.
Qed.

Lemma NewConfigCommand_error (env : Command.Env) (clientID host : string)
      (args : list string) (err : string) :
  Command.NewConfigCommand env clientID host args = inr err ->
  (exists filename, In filename args
                    /\ Command.readSuntimes env filename = inr err)
  \/ Texts.starts_lower err = true.
Proof.
  unfold Command.NewConfigCommand.
  destruct args as [|name args]; [intros [= <-]; now right|].
  destruct (String.eqb name "timezone").
  { destruct args as [|value [|x rest]]; try discriminate;
      intros [= <-]; now right. }
  destruct (String.eqb name "offset").
  { destruct args as [|value rest]; [intros [= <-]; now right|].
    destruct (Command.Atoi value) as [offset|];
      [destruct (offset <=? 0)|]; try (intros [= <-]; now right).
    destruct rest; [discriminate|]. intros [= <-]. now right. }
  destruct (String.eqb name "suntimes").
  { destruct args as [|filename rest]; [intros [= <-]; now right|].
    destruct (Command.readSuntimes env filename) as [suntimes|e] eqn:E.
    - destruct rest; [discriminate|]. intros [= <-]. now right.
    - intros [= <-]. left. exists filename. split; [right; now left|exact E]. }
  intros [= <-]. now right.
Qed.

(** X26: an error of [NewCommand] is either the error of [readSuntimes]
    on a file named on the command line, or a text of the [command]
    package, and each of those starts with a letter of [a]-[z]: it is
    shown by [PrintFatalUsage] with that letter in upper case. *)
Theorem NewCommand_errors_start_with_a_lower_case_letter
  (env : Command.Env) (clientID : string) (args : list string) (err : string) :
  Command.NewCommand env clientID args = inr err ->
  (exists filename, In filename args
                    /\ Command.readSuntimes env filename = inr err)
  \/ (Texts.starts_lower err = true
      /\ exists c rest,
           err = String c rest
           /\ @Util.PrintFatalUsage unit err
              = ([Fprint_stderr
                    ("ERROR: " ++ String (ascii_of_nat (nat_of_ascii c - 32)) rest);
                  Usage], Exit 0)).
Proof.
  intros H.
  assert (D : (exists filename, In filename args
                                /\ Command.readSuntimes env filename = inr err)
              \/ Texts.starts_lower err = true).
  { unfold Command.NewCommand in H.
    destruct args as [|host [|word rest]]; try (injection H as <-; now right).
    destruct (String.eqb word "switch");
      [right; now apply NewControlCommand_error in H|].
    destruct (String.eqb word "config").
    { apply NewConfigCommand_error in H.
      destruct H as [(f & Hin & E) | H]; [left|now right].
      exists f. split; [right; right; exact Hin|exact E]. }
    destruct (String.eqb word "status");
      [right; now apply NewGetStatusCommand_error in H|].
    destruct (String.eqb word "restart").
    { unfold Command.NewRestartCommand in H.
      destruct rest; [discriminate|]. injection H as <-. now right. }
    destruct (String.eqb word "reset").
    { unfold Command.NewResetCommand in H.
      destruct rest; [discriminate|]. injection H as <-. now right. }
    injection H as <-. now right. }
  destruct D as [D | D]; [now left|right].
  split; [exact D|].
  destruct err as [|c rest]; [discriminate|].
  exists c, rest. split; [reflexivity|].
  cbn [Texts.starts_lower] in D. destruct (ToTitle_lower c D) as [<- _].
  reflexivity.
Qed.

Lemma NewCommand_errors_start_with_a_lower_case_letter_witness :
  (exists filename,
      In filename ["esp-vorona"; "config"; "offset"; "-5"]
      /\ Command.readSuntimes Sample.sample_env filename
         = inr "offset needs to be a postive integer")
  \/ (Texts.starts_lower "offset needs to be a postive integer" = true
      /\ exists c rest,
           "offset needs to be a postive integer" = String c rest
           /\ @Util.PrintFatalUsage unit "offset needs to be a postive integer"
              = ([Fprint_stderr
                    ("ERROR: " ++ String (ascii_of_nat (nat_of_ascii c - 32)) rest);
                  Usage], Exit 0)).
Proof.
  apply (NewCommand_errors_start_with_a_lower_case_letter
           Sample.sample_env "laptop-indy-mqtt").
  reflexivity.
Defined.

Lemma list_ascii_app (a b : string) :
  list_ascii_of_string (a ++ b)
  = (list_ascii_of_string a ++ list_ascii_of_string b)%list.
Proof. induction a; simpl; congruence. Qed.

(** Two texts that end in the same characters after equal beginnings. *)
Lemma rev_suffix (h1 h2 k1 k2 : string) :
  h1 ++ k1 = h2 ++ k2 ->
  (rev (list_ascii_of_string k1) ++ rev (list_ascii_of_string h1)
   = rev (list_ascii_of_string k2) ++ rev (list_ascii_of_string h2))%list.
Proof.
  intros H. apply (f_equal list_ascii_of_string) in H.
  rewrite !list_ascii_app in H. apply (f_equal (@rev ascii)) in H.
  now rewrite !rev_app_distr in H.
Qed.

Lemma rev_list_ascii_inj (h1 h2 : string) :
  rev (list_ascii_of_string h1) = rev (list_ascii_of_string h2) -> h1 = h2.
Proof.
  intros H. apply (f_equal (@rev ascii)) in H. rewrite !rev_involutive in H.
  apply (f_equal string_of_list_ascii) in H.
  now rewrite !string_of_list_ascii_of_string in H.
Qed.

(** The last word of a topic fixes what comes before it. *)
Lemma topic_of_inj (host1 host2 kind1 kind2 : string) :
  In kind1 (Texts.ack_kind :: Texts.command_kinds) ->
  In kind2 (Texts.ack_kind :: Texts.command_kinds) ->
  Command.topic_of host1 kind1 = Command.topic_of host2 kind2 ->
  host1 = host2 /\ kind1 = kind2.
Proof.
  unfold Command.topic_of. intros H1 H2 E.
  cbn [append] in E. injection E as E.
  apply rev_suffix in E.
  cbn [In Texts.ack_kind Texts.command_kinds] in H1, H2.
  repeat (destruct H1 as [<- | H1]; [|]); try contradiction;
    repeat (destruct H2 as [<- | H2]; [|]); try contradiction;
    cbn [list_ascii_of_string rev app append Texts.ack_kind] in E;
    try discriminate;
    (split; [|reflexivity]);
    apply rev_list_ascii_inj; congruence.
Qed.

(** The topic of a command that [NewCommand] returns. *)
Lemma NewCommand_topic (env : Command.Env) (clientID : string)
      (args : list string) (cmd : Command.Command) :
  Command.NewCommand env clientID args = inl cmd ->
  exists kind,
    In kind Texts.command_kinds
    /\ Command.Topic cmd = Command.topic_of (Command.Host cmd) kind
    /\ Command.IsAckExpected cmd = negb (String.eqb kind "restart")
    /\ (Command.AckHandler_ cmd <> None <-> kind = "status/get").
Proof.
  unfold Command.NewCommand.
  destruct args as [|host [|word rest]]; try discriminate.
  destruct (String.eqb word "switch").
  { intros H. apply NewControlCommand_shape in H. destruct H as (c & ->).
    exists "control". cbn. repeat split; auto; try congruence; discriminate. }
  destruct (String.eqb word "config").
  { intros H. apply NewConfigCommand_shape in H. destruct H as (c & ->).
    exists "config". cbn. repeat split; auto; try congruence; discriminate. }
  destruct (String.eqb word "status").
  { intros H. apply NewGetStatusCommand_shape in H. destruct H as (all & ->).
    exists "status/get". cbn. repeat split; auto 6; discriminate. }
  destruct (String.eqb word "restart").
  { unfold Command.NewRestartCommand. destruct rest; [|discriminate].
    intros [= <-]. exists "restart". cbn.
    repeat split; auto 6; try congruence; discriminate. }
  destruct (String.eqb word "reset"); [|discriminate].
  unfold Command.NewResetCommand. destruct rest; [|discriminate].
  intros [= <-]. exists "restart". cbn.
  repeat split; auto 6; try congruence; discriminate.
Qed.

(** X27: the topic of a command tells the host and the kind of command
    apart: two commands that [NewCommand] returns with the same topic are
    for the same host, both expect an ack or neither does, and both have
    an ack handler or neither has; and no command is published to the ack
    topic of any host, so the client never receives its own command on its
    subscription. *)
Theorem topics_are_unambiguous
  (env1 env2 : Command.Env) (clientID1 clientID2 : string)
  (args1 args2 : list string) (cmd1 cmd2 : Command.Command) :
  Command.NewCommand env1 clientID1 args1 = inl cmd1 ->
  Command.NewCommand env2 clientID2 args2 = inl cmd2 ->
  (Command.Topic cmd1 = Command.Topic cmd2 ->
   Command.Host cmd1 = Command.Host cmd2
   /\ Command.IsAckExpected cmd1 = Command.IsAckExpected cmd2
   /\ (Command.AckHandler_ cmd1 = None <-> Command.AckHandler_ cmd2 = None))
  /\ (forall host, Command.Topic cmd1 <> "indy-switch/" ++ host ++ "/ack").
Proof.
  intros H1 H2.
  apply NewCommand_topic in H1, H2.
  destruct H1 as (k1 & Hk1 & T1 & A1 & N1).
  destruct H2 as (k2 & Hk2 & T2 & A2 & N2).
  split.
  - intros E. rewrite T1, T2 in E.
    apply topic_of_inj in E; [|now right|now right].
    destruct E as [Eh <-]. repeat split; [exact Eh|congruence| |].
    + intros Hn. destruct (Command.AckHandler_ cmd2) eqn:E2; [|reflexivity].
      exfalso. assert (Hs : k1 = "status/get") by (apply N2; discriminate).
      apply N1 in Hs. contradiction.
    + intros Hn. destruct (Command.AckHandler_ cmd1) eqn:E1; [|reflexivity].
      exfalso. assert (Hs : k1 = "status/get") by (apply N1; discriminate).
      apply N2 in Hs. contradiction.
  - intros host E. rewrite T1 in E.
    change ("indy-switch/" ++ host ++ "/ack")
      with (Command.topic_of host Texts.ack_kind) in E.
    apply topic_of_inj in E; [|now right|now left].
    destruct E as [_ ->].
    cbn in Hk1. intuition discriminate.
Qed.

Lemma topics_are_unambiguous_witness :
  (Command.Topic Sample.switch_on = Command.Topic Sample.status_all ->
   Command.Host Sample.switch_on = Command.Host Sample.status_all
   /\ Command.IsAckExpected Sample.switch_on
      = Command.IsAckExpected Sample.status_all
   /\ (Command.AckHandler_ Sample.switch_on = None
       <-> Command.AckHandler_ Sample.status_all = None))
  /\ (forall host,
        Command.Topic Sample.switch_on <> "indy-switch/" ++ host ++ "/ack").
Proof.
  apply (topics_are_unambiguous
           Sample.sample_env Sample.sample_env
           "laptop-indy-mqtt" "laptop-indy-mqtt"
           ["esp-vorona"; "switch"; "on"] ["esp-vorona"; "status"; "all"]);
    reflexivity.
Defined.

(** ** [-verbose] *)







Lemma int_keys_In (data : list (string * string)) (keys : list Z)
      (key value : string) (n : Z) :
  GetStatus.int_keys data = inl keys ->
  In (key, value) data -> Command.Atoi key = Some n -> In n keys.
Proof.
  revert keys. induction data as [|[k v] data IH]; intros keys; simpl; [tauto|].
  destruct (Command.Atoi k) as [m|] eqn:Ek; [|discriminate].
  destruct (GetStatus.int_keys data) as [ks|]; [|discriminate].
  intros [= <-] [H | H] Hn.
  - injection H as -> ->. left. congruence.
  - right. now apply (IH ks).
Qed.

(** X29: [createStrFromJsonObj] looks each value up under the key as
    [strconv.Itoa] writes its integer, not under the key of the object: a
    key that [strconv.Atoi] reads but that is written otherwise (with a
    sign or leading zeros) is listed with its integer and, unless the
    object also has the key in that form, with an empty value; the value
    it had is not shown. *)
Theorem createStrFromJsonObj_loses_the_value_of_an_unusual_key
  (json : GetStatus.Json) (rest : string) (data : list (string * string))
  (key value : string) (n : Z) :
  let obj := String "{" rest in
  GetStatus.Unmarshal_object json obj = inl data ->
  Forall (fun kv => Command.Atoi (fst kv) <> None) data ->
  In (key, value) data ->
  Command.Atoi key = Some n ->
  GetStatus.lookup (GetStatus.Itoa n) data = None ->
  exists ns,
    GetStatus.createStrFromJsonObj json obj
    = ([], Ret (inl (String.concat ", " (map (GetStatus.entry data) ns))))
    /\ In n ns
    /\ GetStatus.entry data n = GetStatus.Itoa n ++ ": ".
Proof.
  intros obj Hu Hall Hin Hn Hl.
  pose proof (int_keys_result data) as K.
  destruct (GetStatus.int_keys data) as [keys|err] eqn:Ek.
  - exists (GetStatus.sort_Ints keys). split; [|split].
    + unfold GetStatus.createStrFromJsonObj, obj.
      cbn [Ascii.eqb Bool.eqb negb andb]. fold obj.
      now rewrite Hu, Ek, write_entries_concat.
    + apply (Permutation_in _ (sort_Ints_perm keys)).
      exact (int_keys_In data keys key value n Ek Hin Hn).
    + unfold GetStatus.entry. now rewrite Hl.
  - exfalso. destruct K as (k & Hk & Hnone & _).
    apply in_map_iff in Hk. destruct Hk as (kv & <- & Hkv).
    rewrite Forall_forall in Hall. now apply (Hall kv Hkv).
Qed.

Lemma createStrFromJsonObj_loses_the_value_of_an_unusual_key_witness :
  let data := [("01", StatusSample.quoted "6:53 AM")] in
  let obj := "{" ++ StatusSample.quoted "01" ++ ":"
                 ++ StatusSample.quoted "6:53 AM" ++ "}" in
  let json := GetStatus.table_json [(obj, data)] in
  exists ns,
    GetStatus.createStrFromJsonObj json obj
    = ([], Ret (inl (String.concat ", " (map (GetStatus.entry data) ns))))
    /\ In 1 ns
    /\ GetStatus.entry data 1 = "1: ".
Proof.
  intros data obj json.
  apply (createStrFromJsonObj_loses_the_value_of_an_unusual_key
           json
           (StatusSample.quoted "01" ++ ":" ++ StatusSample.quoted "6:53 AM" ++ "}")
           data "01" (StatusSample.quoted "6:53 AM") 1).
  - reflexivity.
  - repeat constructor. discriminate.
  - now left.
  - reflexivity.
  - reflexivity.
Defined.

(** E: [status all], answered with the sample status: the handler of the
    [command] package prints the attributes in its order, the suntimes by
    ascending month, and nothing for the attribute it does not know. *)
Example scenario_E :
  GetStatus.lines_of (fst (Main.main Worlds.status_answered))
  = ["device: esp-vorona";
     "date: 2024-01-17";
     "is_on: true";
     "offset: 30";
     "suntimes: 1: " ++ StatusSample.quoted "6:53 AM"
       ++ ", 2: " ++ StatusSample.quoted "6:46 AM"
       ++ ", 10: " ++ StatusSample.quoted "6:12 AM"]
  /\ Outcome.spec_outcome (fst (Main.main Worlds.status_answered))
     = Some Outcome.AcknowledgedSuccess
  /\ snd (Main.main Worlds.status_answered) = Main.Exited 0.
Proof. repeat split. Qed.
